(** * Validators of [movement.validators.datasets]

    A shallow embedding of the two [attrs] classes [ValidPosesDataset] and
    [ValidBboxesDataset] and of the leaf helpers they share, followed by the
    properties of the construction pipeline.

    Python values are dynamically typed, so raw field values live in one
    universe [pyval]; logging and exceptions are threaded through a small
    writer/error monad [M]. *)

From Stdlib Require Import ZArith List String Ascii Bool Arith Lia.
From Stdlib Require Import Decimal DecimalString DecimalNat.
From Stdlib Require Import Floats.SpecFloat.
Import ListNotations.

Local Open Scope string_scope.
Local Open Scope list_scope.

(** ** Python values *)

(** [dtype] of a numpy array; the validators only ever create ["float32"]. *)
Inductive dtype : Type :=
| float32
| float64
| other_dtype (name : string).

(** A numpy array: its [shape], its [dtype] and its cells in C order. *)
Record ndarray : Type := mk_ndarray {
  shape : list nat;
  array_dtype : dtype;
  data : list spec_float
}.

#[warnings="-register-all"]
Inductive pyval : Type :=
| PNone
| PBool (b : bool)
| PInt (z : Z)
| PFloat (f : spec_float)
| PStr (s : string)
| PList (items : list pyval)
| PArray (a : ndarray).

(** ** Exceptions and log records

    Messages are kept structured: an exception carries the values its
    f-string interpolates. *)
Inductive exn : Type :=
| MissingKeyword (name : string)
    (* TypeError: __init__() missing required keyword-only argument *)
| InvalidListOfStr (value : pyval)
    (* ValueError: Invalid value (..). Expected a list of strings. *)
| NotNdarray (value : pyval)
    (* ValueError: Expected a numpy array, but got .. *)
| WrongLength (attribute : string) (expected got : nat)
    (* ValueError: Expected `..` to have length .., but got .. *)
| WrongNdim (attribute : string) (expected got : nat)
    (* ValueError: Expected `..` to have .. dimensions, but got .. *)
| WrongSpatial (attribute : string) (got : nat)
    (* ValueError: Expected `..` to have 2 (or 3) spatial .., but got .. *)
| WrongShape (attribute : string) (expected got : list nat)
    (* ValueError: Expected `..` to have shape .., but got .. *)
| NotInstanceOfStr (attribute : string) (value : pyval)
    (* TypeError raised by attrs' validators.instance_of(str) *)
| FloatConversion (value : pyval)
    (* TypeError, ValueError or OverflowError raised by float(..) *)
| IterationOver0d
    (* TypeError: iteration over a 0-d array *)
| NotIterable (value : pyval)
    (* TypeError: .. object is not iterable *)
| AmbiguousTruth (value : pyval)
    (* ValueError raised by numpy: The truth value of an array .. is
       ambiguous *)
| NoShapeAttribute (value : pyval)
    (* AttributeError: .. object has no attribute 'shape' *)
| IndexOutOfRange (i : nat).
    (* IndexError: tuple index out of range *)

Inductive warning : Type :=
| ExpectedListOfStr (value : string)
    (* Invalid value (..). Expected a list of strings. Converting .. *)
| InvalidFps (fps : spec_float)
    (* Invalid fps value (..). Expected a positive number. Setting .. *)
| NoConfidence
    (* Confidence array was not provided. Setting to an array of NaNs. *)
| NoIndividualNames (names : list string)
    (* Individual names were not provided. Setting to .. *)
| NoKeypointNames (names : list string).
    (* Keypoint names were not provided. Setting to .. *)

Inductive log_record : Type :=
| LogWarning (w : warning)
| LogError (e : exn).

(** ** The monad: records written to the logger, then a value or a raised
    exception. *)
Definition M (A : Type) : Type := (list log_record * (exn + A))%type.

Definition ret {A} (a : A) : M A := ([], inr a).

Definition bind {A B} (m : M A) (k : A -> M B) : M B :=
  match snd m with
  | inl e => (fst m, inl e)
  | inr a => (fst m ++ fst (k a), snd (k a))
  end.

Definition raise {A} (e : exn) : M A := ([], inl e).

Notation "x <- m ;; k" := (bind m (fun x => k))
  (at level 61, m at next level, right associativity).
Notation "m ;;; k" := (bind m (fun _ => k))
  (at level 61, right associativity).

(** Modelled from the spec: [movement.utils.logging.log_warning] is not
    among the sources; the spec treats it as an opaque "emit warning"
    capability, a write-only, append-style side channel. Here it appends
    one record to the log. *)
Definition log_warning (w : warning) : M unit := ([LogWarning w], inr tt).

(** Modelled from the spec: [movement.utils.logging.log_error] is not among
    the sources; the spec treats it as an opaque "emit error" capability
    whose failure is raised synchronously at the point of detection. Here
    [raise log_error(ValueError, msg)] appends the error to the log and
    raises it. *)
Definition raise_log_error {A} (e : exn) : M A := ([LogError e], inl e).

Definition logged {A} (m : M A) : list log_record := fst m.
Definition outcome {A} (m : M A) : exn + A := snd m.

Definition succeeds {A} (m : M A) : Prop := exists a, outcome m = inr a.
Definition fails {A} (m : M A) : Prop := exists e, outcome m = inl e.

(** ** numpy and builtins *)

Definition ndim (a : ndarray) : nat := List.length (shape a).

(** [np.full(shape, np.nan, dtype="float32")]. *)
Definition np_full_nan (s : list nat) : ndarray :=
  {| shape := s;
     array_dtype := float32;
     data := repeat S754_nan (fold_right Nat.mul 1 s) |}.

(** [value.shape], an AttributeError on anything that is not an array. *)
Definition get_shape (v : pyval) : M (list nat) :=
  match v with
  | PArray a => ret (shape a)
  | _ => raise (NoShapeAttribute v)
  end.

(** [shape[i]] for a non-negative [i]. *)
Definition index (s : list nat) (i : nat) : M nat :=
  match nth_error s i with
  | Some n => ret n
  | None => raise (IndexOutOfRange i)
  end.

(** [shape[-1]]. *)
Definition index_last (s : list nat) : M nat :=
  match s with
  | [] => raise (IndexOutOfRange 0)
  | _ => ret (last s 0)
  end.

(** [shape[:-1]]. *)
Definition drop_last (s : list nat) : list nat := removelast s.

(** [str(i)] for the [i] of a [range]. *)
Definition str_of_nat (n : nat) : string :=
  NilEmpty.string_of_uint (Nat.to_uint n).

(** Iterating over an array of rank at least one yields its sub-arrays
    along the first axis (a rank-0 sub-array stands for a numpy scalar). *)
Definition rows (a : ndarray) : list ndarray :=
  match shape a with
  | [] => []
  | n :: rest =>
      let k := fold_right Nat.mul 1 rest in
      map (fun i => {| shape := rest;
                       array_dtype := array_dtype a;
                       data := firstn k (skipn (i * k) (data a)) |})
          (seq 0 n)
  end.

(** [isinstance(value, Iterable)]. *)
Definition is_iterable (v : pyval) : bool :=
  match v with
  | PStr _ | PList _ | PArray _ => true
  | _ => false
  end.

(** The items of [for item in value], for a [value] that is not a [str]. *)
Definition iterate (v : pyval) : M (list pyval) :=
  match v with
  | PList items => ret items
  | PArray a =>
      match shape a with
      | [] => raise IterationOver0d
      | _ => ret (map PArray (rows a))
      end
  | _ => raise (NotIterable v)
  end.

(** What the interpreter and numpy provide and the repository does not
    define: [str] of a number, list or array, [float] of a string, and the
    truth value of [array == "literal"] ([None] when numpy refuses to give
    one: the comparison is elementwise). *)
Record builtins : Type := {
  str_other : pyval -> string;
  float_of_str : string -> option spec_float;
  array_eq_str : ndarray -> string -> option bool
}.

(** ** Leaf helpers *)

Section Helpers.

Variable B : builtins.

(** [str(item)]. *)
Definition py_str (v : pyval) : string :=
  match v with
  | PStr s => s
  | PNone => "None"
  | PBool true => "True"
  | PBool false => "False"
  | _ => str_other B v
  end.

(** [float(value)] in binary64; an integer too large for a float and a
    value of the wrong type or form raise. *)
Definition py_float (v : pyval) : M spec_float :=
  match v with
  | PFloat f => ret f
  | PInt z =>
      match binary_normalize 53 1024 z 0 false with
      | S754_infinity _ => raise (FloatConversion v)
      | f => ret f
      end
  | PBool b => ret (binary_normalize 53 1024 (if b then 1 else 0) 0 false)
  | PStr s =>
      match float_of_str B s with
      | Some f => ret f
      | None => raise (FloatConversion v)
      end
  | PArray a =>
      match data a with
      | [x] => ret x
      | _ => raise (FloatConversion v)
      end
  | _ => raise (FloatConversion v)
  end.

Definition _list_of_str (value : pyval) : M (list string) :=
  match value with
  | PStr s =>
      log_warning (ExpectedListOfStr s) ;;;
      ret [s]
  | _ =>
      if is_iterable value then
        items <- iterate value ;;
        ret (map py_str items)
      else
        raise_log_error (InvalidListOfStr value)
  end.

Definition _ensure_type_ndarray (value : pyval) : M unit :=
  match value with
  | PArray _ => ret tt
  | _ => raise_log_error (NotNdarray value)
  end.

(** [fps <= 0] on a float. *)
Definition le_zero (fps : spec_float) : bool := SFleb fps (S754_zero false).

Definition _set_fps_to_none_if_invalid (fps : option spec_float)
  : M (option spec_float) :=
  match fps with
  | Some f =>
      if le_zero f then
        log_warning (InvalidFps f) ;;;
        ret None
      else ret fps
  | None => ret fps
  end.

Definition _validate_list_length (attribute : string)
  (value : option (list string)) (expected_length : nat) : M unit :=
  match value with
  | Some l =>
      if negb (Nat.eqb (List.length l) expected_length) then
        raise_log_error (WrongLength attribute expected_length (List.length l))
      else ret tt
  | None => ret tt
  end.

(** *** The pieces of [attrs] the classes use *)

(** [converters.optional(c)]. *)
Definition optional {A} (c : pyval -> M A) (value : pyval) : M (option A) :=
  match value with
  | PNone => ret None
  | _ => a <- c value ;; ret (Some a)
  end.

(** [converters.pipe(converters.optional(float),
    _set_fps_to_none_if_invalid)]. *)
Definition fps_converter (value : pyval) : M (option spec_float) :=
  f <- optional py_float value ;;
  _set_fps_to_none_if_invalid f.

(** [validators.optional(validators.instance_of(str))]. *)
Definition optional_instance_of_str (attribute : string) (value : pyval)
  : M unit :=
  match value with
  | PNone | PStr _ => ret tt
  | _ => raise (NotInstanceOfStr attribute value)
  end.

(** A keyword-only argument without default. *)
Definition required (name : string) (arg : option pyval) : M pyval :=
  match arg with
  | Some v => ret v
  | None => raise (MissingKeyword name)
  end.

(** A keyword-only argument with [default=None]. *)
Definition with_default_none (arg : option pyval) : pyval :=
  match arg with
  | Some v => v
  | None => PNone
  end.

(** [value == "..."] for a literal string and a value that is not a numpy
    array. *)
Definition eq_str (value : pyval) (lit : string) : bool :=
  match value with
  | PStr s => String.eqb s lit
  | _ => false
  end.

(** The condition of [if value == "...":]. Against a numpy array the
    comparison is numpy's, and so is the truth value of its result, which
    numpy may refuse with a ValueError. *)
Definition truth_eq_str (value : pyval) (lit : string) : M bool :=
  match value with
  | PArray a =>
      match array_eq_str B a lit with
      | Some b => ret b
      | None => raise (AmbiguousTruth value)
      end
  | _ => ret (eq_str value lit)
  end.

(** [s1 != s2] on shape tuples. *)
Definition shape_neq (s1 s2 : list nat) : bool :=
  if list_eq_dec Nat.eq_dec s1 s2 then false else true.

(** A [list[str]] seen again as a dynamic value. *)
Definition of_str_list (l : list string) : pyval := PList (map PStr l).

End Helpers.

(** ** [ValidPosesDataset] *)

Module ValidPosesDataset.

(** The keyword arguments of a call; [None] is a keyword left out. *)
Record kwargs : Type := {
  kw_position_array : option pyval;
  kw_confidence_array : option pyval;
  kw_individual_names : option pyval;
  kw_keypoint_names : option pyval;
  kw_fps : option pyval;
  kw_source_software : option pyval
}.

(** The instance. Converted fields have the type their converter returns;
    the others hold whatever the caller passed until a validator has run. *)
Record t : Type := {
  position_array : pyval;
  confidence_array : pyval;
  individual_names : option (list string);
  keypoint_names : option (list string);
  fps : option spec_float;
  source_software : pyval
}.

Section Class.

Variable B : builtins.

Definition _validate_position_array (self : t) (attribute : string)
  (value : pyval) : M unit :=
  _ensure_type_ndarray value ;;;
  s <- get_shape value ;;
  (if negb (Nat.eqb (List.length s) 4) then
     raise_log_error (WrongNdim attribute 4 (List.length s))
   else ret tt) ;;;
  d <- index_last s ;;
  if negb (existsb (Nat.eqb d) [2; 3]) then
    raise_log_error (WrongSpatial attribute d)
  else ret tt.

Definition _validate_confidence_array (self : t) (attribute : string)
  (value : pyval) : M unit :=
  match value with
  | PNone => ret tt
  | _ =>
      _ensure_type_ndarray value ;;;
      ps <- get_shape (position_array self) ;;
      let expected_shape := drop_last ps in
      vs <- get_shape value ;;
      if shape_neq vs expected_shape then
        raise_log_error (WrongShape attribute expected_shape vs)
      else ret tt
  end.

Definition _validate_individual_names (self : t) (attribute : string)
  (value : option (list string)) : M unit :=
  lightning_pose <- truth_eq_str B (source_software self) "LightningPose" ;;
  if lightning_pose then
    (* LightningPose only supports a single individual *)
    _validate_list_length attribute value 1
  else
    ps <- get_shape (position_array self) ;;
    n <- index ps 1 ;;
    _validate_list_length attribute value n.

Definition _validate_keypoint_names (self : t) (attribute : string)
  (value : option (list string)) : M unit :=
  ps <- get_shape (position_array self) ;;
  n <- index ps 2 ;;
  _validate_list_length attribute value n.

(** The instance with one attribute stored anew. *)
Definition with_confidence_array (self : t) (val : pyval) : t :=
  {| position_array := position_array self;
     confidence_array := val;
     individual_names := individual_names self;
     keypoint_names := keypoint_names self;
     fps := fps self;
     source_software := source_software self |}.

Definition with_individual_names (self : t) (val : option (list string))
  : t :=
  {| position_array := position_array self;
     confidence_array := confidence_array self;
     individual_names := val;
     keypoint_names := keypoint_names self;
     fps := fps self;
     source_software := source_software self |}.

Definition with_keypoint_names (self : t) (val : option (list string))
  : t :=
  {| position_array := position_array self;
     confidence_array := confidence_array self;
     individual_names := individual_names self;
     keypoint_names := val;
     fps := fps self;
     source_software := source_software self |}.

(** [@define] leaves the class mutable, and a mutable [attrs.define] class
    converts and validates on every attribute assignment: [self.x = v]
    runs the converter of [x], then its validator, then stores. *)
Definition set_confidence_array (self : t) (val : pyval) : M t :=
  _validate_confidence_array self "confidence_array" val ;;;
  ret (with_confidence_array self val).

Definition set_individual_names (self : t) (val : pyval) : M t :=
  nval <- optional (_list_of_str B) val ;;
  _validate_individual_names self "individual_names" nval ;;;
  ret (with_individual_names self nval).

Definition set_keypoint_names (self : t) (val : pyval) : M t :=
  nval <- optional (_list_of_str B) val ;;
  _validate_keypoint_names self "keypoint_names" nval ;;;
  ret (with_keypoint_names self nval).

(** [[f"{prefix}{i}" for i in range(n)]]. *)
Definition default_names (prefix : string) (n : nat) : list string :=
  map (fun i => (prefix ++ str_of_nat i)%string) (seq 0 n).

(** The list a warning prints for [self.individual_names]. *)
Definition names_or_empty (v : option (list string)) : list string :=
  match v with Some l => l | None => [] end.

(** The three [if ... is None] blocks of [__attrs_post_init__]. *)
Definition fill_confidence_array (self : t) : M t :=
  match confidence_array self with
  | PNone =>
      ps <- get_shape (position_array self) ;;
      self <- set_confidence_array self
                (PArray (np_full_nan (drop_last ps))) ;;
      log_warning NoConfidence ;;;
      ret self
  | _ => ret self
  end.

Definition fill_individual_names (self : t) : M t :=
  match individual_names self with
  | None =>
      ps <- get_shape (position_array self) ;;
      n <- index ps 1 ;;
      self <- set_individual_names self
                (of_str_list (default_names "individual_" n)) ;;
      log_warning
        (NoIndividualNames (names_or_empty (individual_names self))) ;;;
      ret self
  | Some _ => ret self
  end.

Definition fill_keypoint_names (self : t) : M t :=
  match keypoint_names self with
  | None =>
      ps <- get_shape (position_array self) ;;
      n <- index ps 2 ;;
      self <- set_keypoint_names self
                (of_str_list (default_names "keypoint_" n)) ;;
      log_warning
        (NoKeypointNames (names_or_empty (keypoint_names self))) ;;;
      ret self
  | Some _ => ret self
  end.

Definition __attrs_post_init__ (self : t) : M t :=
  self <- fill_confidence_array self ;;
  self <- fill_individual_names self ;;
  fill_keypoint_names self.

(** The [__init__] that [attrs] generates has three parts. Missing
    keywords are rejected at the call (the exception names the first of
    them); then the fields are assigned in declaration order, each through
    its converter. *)
Definition assign_fields (kw : kwargs) : M t :=
  position <- required "position_array" (kw_position_array kw) ;;
  let confidence := with_default_none (kw_confidence_array kw) in
  individuals <- optional (_list_of_str B)
                   (with_default_none (kw_individual_names kw)) ;;
  keypoints <- optional (_list_of_str B)
                 (with_default_none (kw_keypoint_names kw)) ;;
  rate <- fps_converter B (with_default_none (kw_fps kw)) ;;
  let software := with_default_none (kw_source_software kw) in
  ret {| position_array := position;
         confidence_array := confidence;
         individual_names := individuals;
         keypoint_names := keypoints;
         fps := rate;
         source_software := software |}.

(** Then the validators run in declaration order. *)
Definition run_validators (self : t) : M unit :=
  _validate_position_array self "position_array" (position_array self) ;;;
  _validate_confidence_array self "confidence_array"
    (confidence_array self) ;;;
  _validate_individual_names self "individual_names"
    (individual_names self) ;;;
  _validate_keypoint_names self "keypoint_names" (keypoint_names self) ;;;
  optional_instance_of_str "source_software" (source_software self).

(** Then [__attrs_post_init__]. *)
Definition __init__ (kw : kwargs) : M t :=
  self <- assign_fields kw ;;
  run_validators self ;;;
  __attrs_post_init__ self.

End Class.

(** Only [position_array] given. *)
Definition only_position (a : ndarray) : kwargs :=
  {| kw_position_array := Some (PArray a);
     kw_confidence_array := None;
     kw_individual_names := None;
     kw_keypoint_names := None;
     kw_fps := None;
     kw_source_software := None |}.

(** The same call with another [fps] keyword. *)
Definition with_fps (kw : kwargs) (v : option pyval) : kwargs :=
  {| kw_position_array := kw_position_array kw;
     kw_confidence_array := kw_confidence_array kw;
     kw_individual_names := kw_individual_names kw;
     kw_keypoint_names := kw_keypoint_names kw;
     kw_fps := v;
     kw_source_software := kw_source_software kw |}.

(** The length that [_validate_individual_names] asks for, given
    [source_software] and [position_array.shape[1]]. *)
Definition expected_individuals (software : pyval) (n1 : nat) : nat :=
  if eq_str software "LightningPose" then 1 else n1.

(** What the validators establish about an instance whose position array
    is [a], of shape [(n0, n1, n2, d)]. *)
Record validated (self : t) (a : ndarray) (n0 n1 n2 d : nat) : Prop := {
  v_position : position_array self = PArray a;
  v_shape : shape a = [n0; n1; n2; d];
  v_space : d = 2 \/ d = 3;
  v_confidence :
    confidence_array self = PNone \/
    exists c, confidence_array self = PArray c /\ shape c = [n0; n1; n2];
  v_individuals :
    forall l, individual_names self = Some l ->
      List.length l = expected_individuals (source_software self) n1;
  v_keypoints :
    forall l, keypoint_names self = Some l -> List.length l = n2;
  v_software :
    source_software self = PNone \/ exists s, source_software self = PStr s
}.

(** The instance that [__attrs_post_init__] leaves, for a position array
    of shape [(n0, n1, n2, _)]. *)
Definition filled (self : t) (n0 n1 n2 : nat) : t :=
  {| position_array := position_array self;
     confidence_array :=
       match confidence_array self with
       | PNone => PArray (np_full_nan [n0; n1; n2])
       | v => v
       end;
     individual_names :=
       Some (match individual_names self with
             | Some l => l
             | None => default_names "individual_" n1
             end);
     keypoint_names :=
       Some (match keypoint_names self with
             | Some l => l
             | None => default_names "keypoint_" n2
             end);
     fps := fps self;
     source_software := source_software self |}.

(** What holds of every instance that construction returns. *)
Record constructed (r : t) : Prop := {
  c_validated :
    exists a n0 n1 n2 d, validated r a n0 n1 n2 d;
  c_confidence : exists c, confidence_array r = PArray c;
  c_individuals : exists l, individual_names r = Some l;
  c_keypoints : exists l, keypoint_names r = Some l;
  c_fps : forall f, fps r = Some f -> le_zero f = false
}.

(** The fields of an instance, passed again as keyword arguments. *)
Definition as_kwargs (r : t) : kwargs :=
  {| kw_position_array := Some (position_array r);
     kw_confidence_array := Some (confidence_array r);
     kw_individual_names :=
       Some (match individual_names r with
             | Some l => of_str_list l
             | None => PNone
             end);
     kw_keypoint_names :=
       Some (match keypoint_names r with
             | Some l => of_str_list l
             | None => PNone
             end);
     kw_fps :=
       Some (match fps r with Some f => PFloat f | None => PNone end);
     kw_source_software := Some (source_software r) |}.

End ValidPosesDataset.

(** ** [ValidBboxesDataset] *)

Module ValidBboxesDataset.

Record kwargs : Type := {
  kw_position_array : option pyval;
  kw_shape_array : option pyval;
  kw_individual_names : option pyval;
  kw_confidence_array : option pyval;
  kw_fps : option pyval;
  kw_source_software : option pyval
}.

Record t : Type := {
  position_array : pyval;
  shape_array : pyval;
  individual_names : option (list string);
  confidence_array : pyval;
  fps : option spec_float;
  source_software : pyval
}.

Section Class.

Variable B : builtins.

(** One function, registered as the validator of both [position_array]
    and [shape_array]. *)
Definition _validate_centroid_position_and_shape_arrays (self : t)
  (attribute : string) (value : pyval) : M unit :=
  _ensure_type_ndarray value ;;;
  let n_expected_dimensions := 3 in
  s <- get_shape value ;;
  (if negb (Nat.eqb (List.length s) n_expected_dimensions) then
     raise_log_error
       (WrongNdim attribute n_expected_dimensions (List.length s))
   else ret tt) ;;;
  let n_expected_spatial_coordinates := 2 in
  d <- index_last s ;;
  if negb (Nat.eqb d n_expected_spatial_coordinates) then
    raise_log_error (WrongSpatial attribute d)
  else ret tt.

Definition _validate_individual_names (self : t) (attribute : string)
  (value : option (list string)) : M unit :=
  ps <- get_shape (position_array self) ;;
  n <- index ps 1 ;;
  _validate_list_length attribute value n.

Definition _validate_confidence_array (self : t) (attribute : string)
  (value : pyval) : M unit :=
  match value with
  | PNone => ret tt
  | _ =>
      _ensure_type_ndarray value ;;;
      ps <- get_shape (position_array self) ;;
      let expected_shape := drop_last ps in
      vs <- get_shape value ;;
      if shape_neq vs expected_shape then
        raise_log_error (WrongShape attribute expected_shape vs)
      else ret tt
  end.

Definition with_confidence_array (self : t) (val : pyval) : t :=
  {| position_array := position_array self;
     shape_array := shape_array self;
     individual_names := individual_names self;
     confidence_array := val;
     fps := fps self;
     source_software := source_software self |}.

(** Assignment on the instance validates, as in [ValidPosesDataset]
    ([confidence_array] has no converter). *)
Definition set_confidence_array (self : t) (val : pyval) : M t :=
  _validate_confidence_array self "confidence_array" val ;;;
  ret (with_confidence_array self val).

Definition __attrs_post_init__ (self : t) : M t :=
  match confidence_array self with
  | PNone =>
      ps <- get_shape (position_array self) ;;
      self <- set_confidence_array self
                (PArray (np_full_nan (drop_last ps))) ;;
      log_warning NoConfidence ;;;
      ret self
  | _ => ret self
  end.

(** [position_array], [shape_array] and [individual_names] have no
    default: leaving one out is rejected at the call, before any converter
    runs. *)
Definition assign_fields (kw : kwargs) : M t :=
  position <- required "position_array" (kw_position_array kw) ;;
  shape_ <- required "shape_array" (kw_shape_array kw) ;;
  names <- required "individual_names" (kw_individual_names kw) ;;
  individuals <- optional (_list_of_str B) names ;;
  let confidence := with_default_none (kw_confidence_array kw) in
  rate <- fps_converter B (with_default_none (kw_fps kw)) ;;
  let software := with_default_none (kw_source_software kw) in
  ret {| position_array := position;
         shape_array := shape_;
         individual_names := individuals;
         confidence_array := confidence;
         fps := rate;
         source_software := software |}.

Definition run_validators (self : t) : M unit :=
  _validate_centroid_position_and_shape_arrays self "position_array"
    (position_array self) ;;;
  _validate_centroid_position_and_shape_arrays self "shape_array"
    (shape_array self) ;;;
  _validate_individual_names self "individual_names"
    (individual_names self) ;;;
  _validate_confidence_array self "confidence_array"
    (confidence_array self) ;;;
  optional_instance_of_str "source_software" (source_software self).

Definition __init__ (kw : kwargs) : M t :=
  self <- assign_fields kw ;;
  run_validators self ;;;
  __attrs_post_init__ self.

End Class.

(** A call that gives the three required fields and nothing else. *)
Definition only_required (position size : ndarray) (names : pyval)
  : kwargs :=
  {| kw_position_array := Some (PArray position);
     kw_shape_array := Some (PArray size);
     kw_individual_names := Some names;
     kw_confidence_array := None;
     kw_fps := None;
     kw_source_software := None |}.

(** The same call with another [fps] keyword. *)
Definition with_fps (kw : kwargs) (v : option pyval) : kwargs :=
  {| kw_position_array := kw_position_array kw;
     kw_shape_array := kw_shape_array kw;
     kw_individual_names := kw_individual_names kw;
     kw_confidence_array := kw_confidence_array kw;
     kw_fps := v;
     kw_source_software := kw_source_software kw |}.

(** What the validators establish about an instance whose position array
    is [a], of shape [(n0, n1, 2)]. *)
Record validated (self : t) (a : ndarray) (n0 n1 : nat) : Prop := {
  v_position : position_array self = PArray a;
  v_shape : shape a = [n0; n1; 2];
  v_size :
    exists s m0 m1, shape_array self = PArray s /\ shape s = [m0; m1; 2];
  v_individuals :
    forall l, individual_names self = Some l -> List.length l = n1;
  v_confidence :
    confidence_array self = PNone \/
    exists c, confidence_array self = PArray c /\ shape c = [n0; n1];
  v_software :
    source_software self = PNone \/ exists s, source_software self = PStr s
}.

(** The instance that [__attrs_post_init__] leaves. *)
Definition filled (self : t) (n0 n1 : nat) : t :=
  {| position_array := position_array self;
     shape_array := shape_array self;
     individual_names := individual_names self;
     confidence_array :=
       match confidence_array self with
       | PNone => PArray (np_full_nan [n0; n1])
       | v => v
       end;
     fps := fps self;
     source_software := source_software self |}.

(** What holds of every instance that construction returns. *)
Record constructed (r : t) : Prop := {
  c_validated : exists a n0 n1, validated r a n0 n1;
  c_confidence : exists c, confidence_array r = PArray c;
  c_fps : forall f, fps r = Some f -> le_zero f = false
}.

Definition as_kwargs (r : t) : kwargs :=
  {| kw_position_array := Some (position_array r);
     kw_shape_array := Some (shape_array r);
     kw_individual_names :=
       Some (match individual_names r with
             | Some l => of_str_list l
             | None => PNone
             end);
     kw_confidence_array := Some (confidence_array r);
     kw_fps :=
       Some (match fps r with Some f => PFloat f | None => PNone end);
     kw_source_software := Some (source_software r) |}.

End ValidBboxesDataset.

(** A stand-in interpreter for concrete runs. *)
Definition demo_builtins : builtins :=
  {| str_other := fun _ => "?";
     float_of_str := fun _ => None;
     array_eq_str :=
       fun a _ => match data a with [_] => Some false | _ => None end |}.

Definition zeros (s : list nat) : ndarray :=
  {| shape := s;
     array_dtype := float64;
     data := repeat (S754_zero false) (fold_right Nat.mul 1 s) |}.

(** A poses call for the spec's example, shape [(10, 2, 3, 2)]. *)
Definition example_position : ndarray := zeros [10; 2; 3; 2].

(** A two-individual array offered as LightningPose output with a single
    name. *)
Definition lightningpose_call (names : option pyval)
  : ValidPosesDataset.kwargs :=
  {| ValidPosesDataset.kw_position_array := Some (PArray example_position);
     ValidPosesDataset.kw_confidence_array := None;
     ValidPosesDataset.kw_individual_names := names;
     ValidPosesDataset.kw_keypoint_names := None;
     ValidPosesDataset.kw_fps := None;
     ValidPosesDataset.kw_source_software := Some (PStr "LightningPose") |}.

(** A poses call with a confidence array. *)
Definition confidence_call (position confidence : ndarray)
  : ValidPosesDataset.kwargs :=
  {| ValidPosesDataset.kw_position_array := Some (PArray position);
     ValidPosesDataset.kw_confidence_array := Some (PArray confidence);
     ValidPosesDataset.kw_individual_names := None;
     ValidPosesDataset.kw_keypoint_names := None;
     ValidPosesDataset.kw_fps := None;
     ValidPosesDataset.kw_source_software := None |}.

(** A bboxes call that leaves [individual_names] out. *)
Definition bboxes_without_names : ValidBboxesDataset.kwargs :=
  {| ValidBboxesDataset.kw_position_array := Some (PArray (zeros [5; 2; 2]));
     ValidBboxesDataset.kw_shape_array := Some (PArray (zeros [5; 2; 2]));
     ValidBboxesDataset.kw_individual_names := None;
     ValidBboxesDataset.kw_confidence_array := None;
     ValidBboxesDataset.kw_fps := None;
     ValidBboxesDataset.kw_source_software := None |}.

(** ** Further vocabulary *)

(** The exceptions that the module raises through [log_error]; the others
    come from the interpreter or from [attrs] and are not logged. *)
Definition is_value_error (e : exn) : bool :=
  match e with
  | InvalidListOfStr _ | NotNdarray _ | WrongLength _ _ _ | WrongNdim _ _ _
  | WrongSpatial _ _ | WrongShape _ _ _ => true
  | _ => false
  end.


(** A computation whose log tells the truth about errors: an error record
    is in the log only if that error is what was raised, and an error of
    the module's own ([log_error]) that was raised is in the log. *)
Definition faithful_log {A} (m : M A) : Prop :=
  (forall e, In (LogError e) (logged m) -> outcome m = inl e) /\
  (forall e, outcome m = inl e -> is_value_error e = true ->
     In (LogError e) (logged m)).

(** The warnings of [__attrs_post_init__] for a poses instance whose
    position array has [n1] individuals and [n2] keypoints. *)
Definition default_warnings (self : ValidPosesDataset.t) (n1 n2 : nat)
  : list log_record :=
  (match ValidPosesDataset.confidence_array self with
   | PNone => [LogWarning NoConfidence]
   | _ => []
   end)
  ++ (match ValidPosesDataset.individual_names self with
      | None =>
          [LogWarning
             (NoIndividualNames
                (ValidPosesDataset.default_names "individual_" n1))]
      | Some _ => []
      end)
  ++ (match ValidPosesDataset.keypoint_names self with
      | None =>
          [LogWarning
             (NoKeypointNames
                (ValidPosesDataset.default_names "keypoint_" n2))]
      | Some _ => []
      end).

(** A poses instance with another frame rate. *)
Definition poses_with_fps (self : ValidPosesDataset.t)
  (rate : option spec_float) : ValidPosesDataset.t :=
  {| ValidPosesDataset.position_array :=
       ValidPosesDataset.position_array self;
     ValidPosesDataset.confidence_array :=
       ValidPosesDataset.confidence_array self;
     ValidPosesDataset.individual_names :=
       ValidPosesDataset.individual_names self;
     ValidPosesDataset.keypoint_names :=
       ValidPosesDataset.keypoint_names self;
     ValidPosesDataset.fps := rate;
     ValidPosesDataset.source_software :=
       ValidPosesDataset.source_software self |}.

(** A poses call with another [source_software] keyword. *)
Definition with_source_software (kw : ValidPosesDataset.kwargs)
  (v : option pyval) : ValidPosesDataset.kwargs :=
  {| ValidPosesDataset.kw_position_array :=
       ValidPosesDataset.kw_position_array kw;
     ValidPosesDataset.kw_confidence_array :=
       ValidPosesDataset.kw_confidence_array kw;
     ValidPosesDataset.kw_individual_names :=
       ValidPosesDataset.kw_individual_names kw;
     ValidPosesDataset.kw_keypoint_names :=
       ValidPosesDataset.kw_keypoint_names kw;
     ValidPosesDataset.kw_fps := ValidPosesDataset.kw_fps kw;
     ValidPosesDataset.kw_source_software := v |}.

(** * Properties *)

(** ** The monad *)

Lemma bind_ret_l {A X} (a : A) (k : A -> M X) : bind (ret a) k = k a.
Proof. unfold bind, ret; simpl. now destruct (k a). Qed.

Lemma bind_raise {A X} (e : exn) (k : A -> M X) : bind (raise e) k = raise e.
Proof. reflexivity. Qed.

Lemma bind_raise_log_error {A X} (e : exn) (k : A -> M X) :
  bind (raise_log_error e) k = raise_log_error e.
Proof. reflexivity. Qed.

Lemma bind_log_warning {X} (w : warning) (k : unit -> M X) :
  bind (log_warning w) k = (LogWarning w :: logged (k tt), outcome (k tt)).
Proof. reflexivity. Qed.

Lemma bind_value {A X} (l : list log_record) (a : A) (k : A -> M X) :
  bind (l, inr a) k = (l ++ logged (k a), outcome (k a)).
Proof. reflexivity. Qed.

Lemma bind_assoc {A X Y} (m : M A) (k : A -> M X) (k' : X -> M Y) :
  bind (bind m k) k' = bind m (fun a => bind (k a) k').
Proof.
  destruct m as [l [e | a]]; unfold bind; simpl; [reflexivity |].
  destruct (k a) as [l' [e' | x]]; simpl; [reflexivity |].
  now rewrite app_assoc.
Qed.

Lemma outcome_bind {A X} (m : M A) (k : A -> M X) :
  outcome (bind m k)
  = match outcome m with inl e => inl e | inr a => outcome (k a) end.
Proof. unfold outcome, bind. now destruct (snd m). Qed.

Lemma logged_bind {A X} (m : M A) (k : A -> M X) :
  logged (bind m k)
  = match outcome m with
    | inl _ => logged m
    | inr a => logged m ++ logged (k a)
    end.
Proof. unfold outcome, logged, bind. now destruct (snd m). Qed.

Lemma outcome_bind_inr {A X} (m : M A) (k : A -> M X) (x : X) :
  outcome (bind m k) = inr x ->
  exists a, outcome m = inr a /\ outcome (k a) = inr x.
Proof.
  rewrite outcome_bind. destruct (outcome m) as [e | a]; [discriminate |].
  intros H. now exists a.
Qed.

Lemma succeeds_or_fails {A} (m : M A) : succeeds m \/ fails m.
Proof.
  unfold succeeds, fails. destruct (outcome m) as [e | a]; eauto.
Qed.

Lemma fails_not_succeeds {A} (m : M A) : fails m <-> ~ succeeds m.
Proof.
  unfold succeeds, fails. split.
  - intros [e He] [a Ha]. congruence.
  - intros H. destruct (outcome m) as [e | a]; eauto.
    exfalso. apply H. eauto.
Qed.

(** ** Lists of names and shapes *)

Section HelperFacts.

Variable B : builtins.

Lemma map_py_str_PStr (l : list string) : map (py_str B) (map PStr l) = l.
Proof. induction l as [| s l IH]; simpl; [reflexivity | now rewrite IH]. Qed.

Lemma list_of_str_of_str_list (l : list string) :
  _list_of_str B (of_str_list l) = ret l.
Proof.
  unfold _list_of_str, of_str_list; simpl.
  now rewrite bind_ret_l, map_py_str_PStr.
Qed.

Lemma optional_of_str_list (l : list string) :
  optional (_list_of_str B) (of_str_list l) = ret (Some l).
Proof.
  unfold optional. change (of_str_list l) with (PList (map PStr l)) at 1.
  cbv iota. fold (of_str_list l).
  now rewrite list_of_str_of_str_list, bind_ret_l.
Qed.

Lemma validate_list_length_ok (attribute : string) (l : list string) :
  _validate_list_length attribute (Some l) (List.length l) = ret tt.
Proof. unfold _validate_list_length. now rewrite Nat.eqb_refl. Qed.

Lemma validate_list_length_inv (attribute : string) (l : list string)
  (n : nat) :
  outcome (_validate_list_length attribute (Some l) n) = inr tt ->
  List.length l = n.
Proof.
  unfold _validate_list_length.
  destruct (Nat.eqb_spec (List.length l) n); [easy | discriminate].
Qed.

Lemma validate_list_length_bad (attribute : string) (l : list string)
  (n : nat) :
  List.length l <> n ->
  _validate_list_length attribute (Some l) n
  = raise_log_error (WrongLength attribute n (List.length l)).
Proof.
  intros H. unfold _validate_list_length.
  destruct (Nat.eqb_spec (List.length l) n); [contradiction | reflexivity].
Qed.

Lemma truth_eq_str_not_array (v : pyval) (lit : string) :
  (forall a, v <> PArray a) -> truth_eq_str B v lit = ret (eq_str v lit).
Proof. intros H. destruct v; try reflexivity. now destruct (H a). Qed.

Lemma none_or_str_not_array (v : pyval) :
  v = PNone \/ (exists s, v = PStr s) -> forall a, v <> PArray a.
Proof. intros [-> | (s & ->)] a; discriminate. Qed.

Lemma truth_eq_str_none_or_str (v : pyval) (lit : string) :
  v = PNone \/ (exists s, v = PStr s) ->
  truth_eq_str B v lit = ret (eq_str v lit).
Proof. intros [-> | (s & ->)]; reflexivity. Qed.

Lemma py_float_logged (v : pyval) : logged (py_float B v) = [].
Proof.
  destruct v; try reflexivity; simpl.
  - now destruct (binary_normalize 53 1024 z 0 false).
  - now destruct (float_of_str B s).
  - destruct (data a) as [| x [| y l]]; reflexivity.
Qed.

Lemma py_float_ret (v : pyval) (f : spec_float) :
  outcome (py_float B v) = inr f -> py_float B v = ret f.
Proof.
  intros H. pose proof (py_float_logged v) as L.
  destruct (py_float B v) as [l o]. cbn in H, L. now subst.
Qed.

Lemma fps_converter_none : fps_converter B PNone = ret None.
Proof. reflexivity. Qed.

Lemma fps_converter_le_zero (v : pyval) (f : spec_float) :
  outcome (py_float B v) = inr f -> le_zero f = true ->
  fps_converter B v = ([LogWarning (InvalidFps f)], inr None).
Proof.
  intros H Hle. apply py_float_ret in H.
  unfold fps_converter, optional.
  destruct v; try discriminate H; rewrite H, !bind_ret_l;
    unfold _set_fps_to_none_if_invalid; now rewrite Hle.
Qed.

Lemma fps_converter_positive (f : spec_float) :
  le_zero f = false -> fps_converter B (PFloat f) = ret (Some f).
Proof.
  intros Hle. unfold fps_converter, optional, py_float.
  rewrite !bind_ret_l. unfold _set_fps_to_none_if_invalid.
  now rewrite Hle.
Qed.

Lemma fps_converter_inv (v : pyval) (f : spec_float) :
  outcome (fps_converter B v) = inr (Some f) -> le_zero f = false.
Proof.
  unfold fps_converter. intros H.
  apply outcome_bind_inr in H as (o & _ & H).
  destruct o as [g |]; [| discriminate H].
  unfold _set_fps_to_none_if_invalid in H.
  destruct (le_zero g) eqn:E; [discriminate H |].
  cbn in H. congruence.
Qed.

Lemma in_logged_bind_l {A X} (m : M A) (k : A -> M X) (x : log_record) :
  In x (logged m) -> In x (logged (bind m k)).
Proof.
  intros H. rewrite logged_bind. destruct (outcome m); [assumption |].
  apply in_or_app. now left.
Qed.

Lemma in_logged_bind_r {A X} (m : M A) (k : A -> M X) (a : A)
  (x : log_record) :
  outcome m = inr a -> In x (logged (k a)) -> In x (logged (bind m k)).
Proof.
  intros Hm H. rewrite logged_bind, Hm. apply in_or_app. now right.
Qed.

End HelperFacts.

Lemma optional_instance_of_str_inv (attribute : string) (v : pyval) :
  outcome (optional_instance_of_str attribute v) = inr tt ->
  v = PNone \/ exists s, v = PStr s.
Proof. destruct v; try discriminate; eauto. Qed.

Lemma shape_neq_false (s1 s2 : list nat) : shape_neq s1 s2 = false <-> s1 = s2.
Proof.
  unfold shape_neq. destruct (list_eq_dec Nat.eq_dec s1 s2); split;
    congruence.
Qed.

Lemma shape_neq_refl (s : list nat) : shape_neq s s = false.
Proof. now apply shape_neq_false. Qed.

Lemma shape_neq_true (s1 s2 : list nat) : s1 <> s2 -> shape_neq s1 s2 = true.
Proof.
  intros H. unfold shape_neq. now destruct (list_eq_dec Nat.eq_dec s1 s2).
Qed.

Lemma length_4 {A} (l : list A) :
  List.length l = 4 -> exists a b c d, l = [a; b; c; d].
Proof.
  destruct l as [| a [| b [| c [| d [| e l]]]]]; try discriminate.
  intros _. now exists a, b, c, d.
Qed.

Lemma length_3 {A} (l : list A) :
  List.length l = 3 -> exists a b c, l = [a; b; c].
Proof.
  destruct l as [| a [| b [| c [| d l]]]]; try discriminate.
  intros _. now exists a, b, c.
Qed.

Lemma default_names_length (prefix : string) (n : nat) :
  List.length (ValidPosesDataset.default_names prefix n) = n.
Proof.
  unfold ValidPosesDataset.default_names.
  now rewrite length_map, length_seq.
Qed.

Lemma validate_list_length_none (attribute : string) (n : nat) :
  _validate_list_length attribute None n = ret tt.
Proof. reflexivity. Qed.

(** Runs the straight-line part of a computation: returned values are
    passed on and the dispatch on constructors is evaluated. *)
Ltac run_pure :=
  cbv beta;
  cbn [required with_default_none optional _set_fps_to_none_if_invalid
       eq_str get_shape _ensure_type_ndarray optional_instance_of_str
       index index_last nth_error drop_last removelast last shape
       np_full_nan List.length Nat.eqb negb existsb orb].

Ltac run :=
  repeat (progress (rewrite ?bind_ret_l, ?validate_list_length_none;
                    run_pure)).

(** ** [ValidPosesDataset] *)

Module PosesFacts.
Import ValidPosesDataset.

Section Facts.

Variable B : builtins.

(** *** The validators, one by one *)

Lemma validate_position_array_ok (self : t) (attribute : string)
  (a : ndarray) (n0 n1 n2 d : nat) :
  shape a = [n0; n1; n2; d] -> d = 2 \/ d = 3 ->
  _validate_position_array self attribute (PArray a) = ret tt.
Proof.
  intros Hs Hd. unfold _validate_position_array. run.
  rewrite Hs. run.
  destruct Hd; subst d; reflexivity.
Qed.

Lemma validate_position_array_ndim (self : t) (attribute : string)
  (a : ndarray) :
  ndim a <> 4 ->
  _validate_position_array self attribute (PArray a)
  = raise_log_error (WrongNdim attribute 4 (ndim a)).
Proof.
  intros H. unfold _validate_position_array, ndim in *. run.
  destruct (Nat.eqb_spec (List.length (shape a)) 4); [contradiction |].
  reflexivity.
Qed.

Lemma validate_position_array_spatial (self : t) (attribute : string)
  (a : ndarray) :
  ndim a = 4 -> last (shape a) 0 <> 2 -> last (shape a) 0 <> 3 ->
  _validate_position_array self attribute (PArray a)
  = raise_log_error (WrongSpatial attribute (last (shape a) 0)).
Proof.
  intros H4 H2 H3. unfold _validate_position_array, ndim in *. run.
  rewrite H4. run.
  destruct (length_4 _ H4) as (n0 & n1 & n2 & d & Hs). rewrite Hs in *.
  run. cbn [last] in H2, H3.
  destruct (Nat.eqb_spec d 2); [contradiction |].
  destruct (Nat.eqb_spec d 3); [contradiction |].
  reflexivity.
Qed.

Lemma validate_position_array_not_array (self : t) (attribute : string)
  (v : pyval) :
  (forall a, v <> PArray a) ->
  _validate_position_array self attribute v
  = raise_log_error (NotNdarray v).
Proof.
  intros H. destruct v; try reflexivity. now destruct (H a).
Qed.

Lemma validate_position_array_inv (self : t) (attribute : string)
  (v : pyval) :
  outcome (_validate_position_array self attribute v) = inr tt ->
  exists a n0 n1 n2 d,
    v = PArray a /\ shape a = [n0; n1; n2; d] /\ (d = 2 \/ d = 3).
Proof.
  intros H. destruct v; try discriminate H.
  destruct (Nat.eq_dec (ndim a) 4) as [H4 | H4].
  - destruct (length_4 _ H4) as (n0 & n1 & n2 & d & Hs).
    exists a, n0, n1, n2, d. split; [reflexivity | split; [assumption |]].
    destruct (Nat.eq_dec d 2) as [| H2]; [now left |].
    destruct (Nat.eq_dec d 3) as [| H3]; [now right |].
    rewrite validate_position_array_spatial in H;
      [discriminate H | assumption | |]; now rewrite Hs.
  - now rewrite validate_position_array_ndim in H.
Qed.

Lemma validate_confidence_array_ok (self : t) (attribute : string)
  (a c : ndarray) :
  position_array self = PArray a -> shape c = drop_last (shape a) ->
  _validate_confidence_array self attribute (PArray c) = ret tt.
Proof.
  intros Hp Hc. unfold _validate_confidence_array. rewrite Hp. run.
  now rewrite Hc, shape_neq_refl.
Qed.

Lemma validate_confidence_array_shape (self : t) (attribute : string)
  (a c : ndarray) :
  position_array self = PArray a -> shape c <> drop_last (shape a) ->
  _validate_confidence_array self attribute (PArray c)
  = raise_log_error
      (WrongShape attribute (drop_last (shape a)) (shape c)).
Proof.
  intros Hp Hc. unfold _validate_confidence_array. rewrite Hp. run.
  now rewrite shape_neq_true.
Qed.

Lemma validate_confidence_array_not_array (self : t) (attribute : string)
  (v : pyval) :
  v <> PNone -> (forall c, v <> PArray c) ->
  _validate_confidence_array self attribute v
  = raise_log_error (NotNdarray v).
Proof.
  intros Hn Ha. destruct v; try reflexivity.
  - contradiction.
  - now destruct (Ha a).
Qed.

Lemma validate_confidence_array_inv (self : t) (attribute : string)
  (a : ndarray) (v : pyval) :
  position_array self = PArray a ->
  outcome (_validate_confidence_array self attribute v) = inr tt ->
  v = PNone \/ exists c, v = PArray c /\ shape c = drop_last (shape a).
Proof.
  intros Hp H. destruct v; try discriminate H; [now left |].
  right. exists a0. split; [reflexivity |].
  destruct (list_eq_dec Nat.eq_dec (shape a0) (drop_last (shape a)))
    as [| Hne]; [assumption |].
  now rewrite (validate_confidence_array_shape _ _ a a0 Hp Hne) in H.
Qed.

Lemma validate_individual_names_gen (self : t) (attribute : string)
  (a : ndarray) (n1 : nat) (value : option (list string)) :
  position_array self = PArray a -> nth_error (shape a) 1 = Some n1 ->
  _validate_individual_names B self attribute value
  = (lightning_pose <- truth_eq_str B (source_software self)
                         "LightningPose" ;;
     _validate_list_length attribute value
       (if lightning_pose then 1 else n1)).
Proof.
  intros Hp Hn. unfold _validate_individual_names.
  assert (E : (ps <- get_shape (position_array self) ;;
               n <- index ps 1 ;;
               _validate_list_length attribute value n)
              = _validate_list_length attribute value n1).
  { rewrite Hp. run. unfold index. rewrite Hn. now run. }
  destruct (truth_eq_str B (source_software self) "LightningPose")
    as [l [e | [|]]]; try reflexivity.
  rewrite !bind_value. cbv beta iota. now rewrite E.
Qed.

Lemma validate_individual_names_eq (self : t) (attribute : string)
  (a : ndarray) (n1 : nat) (value : option (list string)) :
  position_array self = PArray a -> nth_error (shape a) 1 = Some n1 ->
  (forall a', source_software self <> PArray a') ->
  _validate_individual_names B self attribute value
  = _validate_list_length attribute value
      (expected_individuals (source_software self) n1).
Proof.
  intros Hp Hn Hw. unfold _validate_individual_names, expected_individuals.
  rewrite truth_eq_str_not_array by assumption. run.
  destruct (eq_str (source_software self) "LightningPose"); [reflexivity |].
  rewrite Hp. run. unfold index. rewrite Hn. now run.
Qed.

Lemma validate_keypoint_names_eq (self : t) (attribute : string)
  (a : ndarray) (n2 : nat) (value : option (list string)) :
  position_array self = PArray a -> nth_error (shape a) 2 = Some n2 ->
  _validate_keypoint_names self attribute value
  = _validate_list_length attribute value n2.
Proof.
  intros Hp Hn. unfold _validate_keypoint_names.
  rewrite Hp. run. unfold index. rewrite Hn. now run.
Qed.

(** *** All validators *)

Lemma run_validators_ok (self : t) (a : ndarray) (n0 n1 n2 d : nat) :
  validated self a n0 n1 n2 d -> run_validators B self = ret tt.
Proof.
  intros [Hp Hs Hd Hc Hi Hk Hw]. unfold run_validators.
  rewrite Hp, (validate_position_array_ok _ _ a n0 n1 n2 d Hs Hd). run.
  assert (Hconf : _validate_confidence_array self "confidence_array"
                    (confidence_array self) = ret tt).
  { destruct Hc as [-> | (c & -> & Hcs)]; [reflexivity |].
    apply validate_confidence_array_ok with (a := a); [assumption |].
    now rewrite Hs, Hcs. }
  rewrite Hconf. run.
  rewrite validate_individual_names_eq with (a := a) (n1 := n1)
    by solve [assumption | now rewrite Hs
             | now apply none_or_str_not_array].
  rewrite validate_keypoint_names_eq with (a := a) (n2 := n2)
    by (assumption || now rewrite Hs).
  destruct (individual_names self) as [l |].
  - rewrite <- (Hi l eq_refl), validate_list_length_ok. run.
    destruct (keypoint_names self) as [k |].
    + rewrite <- (Hk k eq_refl), validate_list_length_ok. run.
      destruct Hw as [-> | (w & ->)]; reflexivity.
    + run. destruct Hw as [-> | (w & ->)]; reflexivity.
  - run. destruct (keypoint_names self) as [k |].
    + rewrite <- (Hk k eq_refl), validate_list_length_ok. run.
      destruct Hw as [-> | (w & ->)]; reflexivity.
    + run. destruct Hw as [-> | (w & ->)]; reflexivity.
Qed.

Lemma run_validators_inv (self : t) :
  outcome (run_validators B self) = inr tt ->
  exists a n0 n1 n2 d, validated self a n0 n1 n2 d.
Proof.
  unfold run_validators. intros H.
  apply outcome_bind_inr in H as ([] & H1 & H).
  apply outcome_bind_inr in H as ([] & H2 & H).
  apply outcome_bind_inr in H as ([] & H3 & H).
  apply outcome_bind_inr in H as ([] & H4 & H).
  apply validate_position_array_inv in H1
    as (a & n0 & n1 & n2 & d & Hp & Hs & Hd).
  exists a, n0, n1, n2, d.
  apply (validate_confidence_array_inv _ _ a _ Hp) in H2.
  apply optional_instance_of_str_inv in H.
  rewrite validate_individual_names_eq with (a := a) (n1 := n1) in H3
    by solve [assumption | now rewrite Hs
             | now apply none_or_str_not_array].
  rewrite validate_keypoint_names_eq with (a := a) (n2 := n2) in H4
    by (assumption || now rewrite Hs).
  split; try assumption.
  - destruct H2 as [| (c & Hc & Hcs)]; [now left | right].
    exists c. split; [assumption |]. now rewrite Hcs, Hs.
  - intros l Hl. rewrite Hl in H3.
    now apply validate_list_length_inv in H3.
  - intros l Hl. rewrite Hl in H4.
    now apply validate_list_length_inv in H4.
Qed.

(** *** The defaulting steps *)

Lemma fill_confidence_array_eq (self : t) (a : ndarray) :
  position_array self = PArray a ->
  fill_confidence_array self
  = match confidence_array self with
    | PNone =>
        ([LogWarning NoConfidence],
         inr (with_confidence_array self
                (PArray (np_full_nan (drop_last (shape a))))))
    | _ => ret self
    end.
Proof.
  intros Hp. unfold fill_confidence_array.
  destruct (confidence_array self); try reflexivity.
  rewrite Hp. run. unfold set_confidence_array.
  rewrite validate_confidence_array_ok with (a := a)
    by (assumption || reflexivity).
  now run.
Qed.

Lemma fill_individual_names_eq (self : t) (a : ndarray) (n1 : nat) :
  position_array self = PArray a -> nth_error (shape a) 1 = Some n1 ->
  individual_names self = None ->
  (forall a', source_software self <> PArray a') ->
  fill_individual_names B self
  = if Nat.eqb n1 (expected_individuals (source_software self) n1) then
      ([LogWarning (NoIndividualNames (default_names "individual_" n1))],
       inr (with_individual_names self
              (Some (default_names "individual_" n1))))
    else
      raise_log_error
        (WrongLength "individual_names"
           (expected_individuals (source_software self) n1) n1).
Proof.
  intros Hp Hn Hi Hw. unfold fill_individual_names. rewrite Hi, Hp. run.
  unfold index. rewrite Hn. run. unfold set_individual_names.
  rewrite optional_of_str_list. run.
  rewrite validate_individual_names_eq with (a := a) (n1 := n1)
    by assumption.
  destruct (Nat.eqb_spec n1 (expected_individuals (source_software self) n1))
    as [E | E].
  - rewrite <- E at 1.
    rewrite <- (default_names_length "individual_" n1) at 2.
    rewrite validate_list_length_ok. now run.
  - rewrite validate_list_length_bad
      by (rewrite default_names_length; congruence).
    now rewrite default_names_length.
Qed.

Lemma fill_keypoint_names_eq (self : t) (a : ndarray) (n2 : nat) :
  position_array self = PArray a -> nth_error (shape a) 2 = Some n2 ->
  keypoint_names self = None ->
  fill_keypoint_names B self
  = ([LogWarning (NoKeypointNames (default_names "keypoint_" n2))],
     inr (with_keypoint_names self (Some (default_names "keypoint_" n2)))).
Proof.
  intros Hp Hn Hk. unfold fill_keypoint_names. rewrite Hk, Hp. run.
  unfold index. rewrite Hn. run. unfold set_keypoint_names.
  rewrite optional_of_str_list. run.
  rewrite validate_keypoint_names_eq with (a := a) (n2 := n2)
    by assumption.
  rewrite <- (default_names_length "keypoint_" n2) at 2.
  rewrite validate_list_length_ok. now run.
Qed.

(** *** Construction from a position array alone *)

Lemma init_only_position (a : ndarray) (n0 n1 n2 d : nat) :
  shape a = [n0; n1; n2; d] -> d = 2 \/ d = 3 ->
  __init__ B (only_position a)
  = ([LogWarning NoConfidence;
      LogWarning (NoIndividualNames (default_names "individual_" n1));
      LogWarning (NoKeypointNames (default_names "keypoint_" n2))],
     inr {| position_array := PArray a;
            confidence_array := PArray (np_full_nan [n0; n1; n2]);
            individual_names := Some (default_names "individual_" n1);
            keypoint_names := Some (default_names "keypoint_" n2);
            fps := None;
            source_software := PNone |}).
Proof.
  intros Hs Hd.
  assert (H1 : nth_error (shape a) 1 = Some n1) by now rewrite Hs.
  assert (H2 : nth_error (shape a) 2 = Some n2) by now rewrite Hs.
  unfold __init__, assign_fields, only_position, fps_converter.
  cbn [kw_position_array kw_confidence_array kw_individual_names
       kw_keypoint_names kw_fps kw_source_software]. run.
  rewrite run_validators_ok with (a := a) (n0 := n0) (n1 := n1) (n2 := n2)
                                 (d := d).
  2: { split; cbn; try (assumption || reflexivity || discriminate);
       now left. }
  run. unfold __attrs_post_init__.
  rewrite fill_confidence_array_eq with (a := a) by reflexivity.
  cbn [confidence_array]. rewrite Hs. run.
  rewrite bind_value.
  rewrite fill_individual_names_eq with (a := a) (n1 := n1)
    by solve [reflexivity | assumption | discriminate].
  cbn [source_software with_confidence_array expected_individuals eq_str].
  rewrite Nat.eqb_refl, bind_value.
  rewrite fill_keypoint_names_eq with (a := a) (n2 := n2)
    by (reflexivity || assumption).
  reflexivity.
Qed.

(** *** [__attrs_post_init__] on a validated instance *)

Lemma post_init_outcome (self : t) (a : ndarray) (n0 n1 n2 d : nat) :
  validated self a n0 n1 n2 d ->
  outcome (__attrs_post_init__ B self)
  = match individual_names self with
    | None =>
        if Nat.eqb n1 (expected_individuals (source_software self) n1)
        then inr (filled self n0 n1 n2)
        else inl (WrongLength "individual_names"
                    (expected_individuals (source_software self) n1) n1)
    | Some _ => inr (filled self n0 n1 n2)
    end.
Proof.
  intros [Hp Hs Hd Hc Hi Hk Hw].
  assert (H1 : nth_error (shape a) 1 = Some n1) by now rewrite Hs.
  assert (H2 : nth_error (shape a) 2 = Some n2) by now rewrite Hs.
  destruct self as [p c i k f w]. cbn in Hp, Hc, Hi, Hk, Hw |- *. subst p.
  unfold __attrs_post_init__, filled.
  rewrite fill_confidence_array_eq with (a := a) by reflexivity.
  cbn [position_array confidence_array individual_names keypoint_names
       fps source_software].
  rewrite Hs. cbn [drop_last removelast].
  assert (Hfill : forall self' : t,
            position_array self' = PArray a ->
            individual_names self' = i -> keypoint_names self' = k ->
            source_software self' = w ->
            outcome (self0 <- fill_individual_names B self' ;;
                     fill_keypoint_names B self0)
            = match i with
              | None =>
                  if Nat.eqb n1 (expected_individuals w n1)
                  then inr (with_keypoint_names
                              (with_individual_names self'
                                 (Some (default_names "individual_" n1)))
                              (Some match k with
                                    | Some l => l
                                    | None => default_names "keypoint_" n2
                                    end))
                  else inl (WrongLength "individual_names"
                              (expected_individuals w n1) n1)
              | Some l =>
                  inr (with_keypoint_names self'
                         (Some match k with
                               | Some l => l
                               | None => default_names "keypoint_" n2
                               end))
              end).
  { intros self' Hp' Hi' Hk' Hw'. rewrite outcome_bind.
    destruct i as [l |].
    - unfold fill_individual_names at 1. rewrite Hi'.
      cbn [outcome ret snd].
      destruct k as [l' |].
      + unfold fill_keypoint_names. rewrite Hk'.
        destruct self'; cbn in *; now subst.
      + rewrite fill_keypoint_names_eq with (a := a) (n2 := n2)
          by assumption.
        reflexivity.
    - rewrite fill_individual_names_eq with (a := a) (n1 := n1)
        by solve [assumption
                 | rewrite Hw'; now apply none_or_str_not_array].
      rewrite Hw'.
      destruct (Nat.eqb n1 (expected_individuals w n1)); [| reflexivity].
      cbn [outcome snd].
      destruct k as [l' |].
      + unfold fill_keypoint_names.
        cbn [keypoint_names with_individual_names]. rewrite Hk'.
        destruct self'; cbn in *; now subst.
      + rewrite fill_keypoint_names_eq with (a := a) (n2 := n2)
          by (cbn; assumption).
        reflexivity. }
  destruct Hc as [-> | (c' & -> & Hcs)].
  - rewrite bind_value. cbn [outcome snd].
    change (snd ?m) with (outcome m).
    rewrite Hfill by reflexivity.
    destruct i; [reflexivity |].
    now destruct (Nat.eqb n1 (expected_individuals w n1)).
  - rewrite bind_ret_l. rewrite Hfill by reflexivity.
    destruct i; [reflexivity |].
    now destruct (Nat.eqb n1 (expected_individuals w n1)).
Qed.

(** *** The whole construction *)

Lemma assign_fields_inv (kw : kwargs) (self : t) :
  outcome (assign_fields B kw) = inr self ->
  kw_position_array kw = Some (position_array self) /\
  confidence_array self = with_default_none (kw_confidence_array kw) /\
  outcome (optional (_list_of_str B)
             (with_default_none (kw_individual_names kw)))
    = inr (individual_names self) /\
  outcome (optional (_list_of_str B)
             (with_default_none (kw_keypoint_names kw)))
    = inr (keypoint_names self) /\
  outcome (fps_converter B (with_default_none (kw_fps kw)))
    = inr (fps self) /\
  source_software self = with_default_none (kw_source_software kw).
Proof.
  unfold assign_fields. intros H.
  apply outcome_bind_inr in H as (p & Hp & H).
  apply outcome_bind_inr in H as (i & Hi & H).
  apply outcome_bind_inr in H as (k & Hk & H).
  apply outcome_bind_inr in H as (f & Hf & H).
  cbn in H. injection H as <-. cbn.
  repeat split; try assumption.
  destruct (kw_position_array kw); [| discriminate Hp].
  cbn in Hp. congruence.
Qed.

Lemma init_outcome (kw : kwargs) (self : t) :
  outcome (assign_fields B kw) = inr self ->
  outcome (__init__ B kw)
  = match outcome (run_validators B self) with
    | inl e => inl e
    | inr _ => outcome (__attrs_post_init__ B self)
    end.
Proof.
  intros H. unfold __init__. now rewrite outcome_bind, H, outcome_bind.
Qed.

Lemma init_assign_fails (kw : kwargs) (e : exn) :
  outcome (assign_fields B kw) = inl e -> outcome (__init__ B kw) = inl e.
Proof. intros H. unfold __init__. now rewrite outcome_bind, H. Qed.

Lemma init_inv (kw : kwargs) (r : t) :
  outcome (__init__ B kw) = inr r ->
  exists self a n0 n1 n2 d,
    outcome (assign_fields B kw) = inr self /\
    validated self a n0 n1 n2 d /\
    r = filled self n0 n1 n2 /\
    (individual_names self = None ->
     expected_individuals (source_software self) n1 = n1).
Proof.
  unfold __init__. intros H.
  apply outcome_bind_inr in H as (self & Ha & H).
  apply outcome_bind_inr in H as ([] & Hv & H).
  apply run_validators_inv in Hv as (a & n0 & n1 & n2 & d & Hv).
  exists self, a, n0, n1, n2, d.
  rewrite (post_init_outcome _ _ _ _ _ _ Hv) in H.
  split; [assumption | split; [assumption |]].
  destruct (individual_names self) as [l |].
  - split; [congruence | discriminate].
  - destruct (Nat.eqb_spec n1 (expected_individuals (source_software self) n1));
      [| discriminate H].
    split; [congruence | intros _; congruence].
Qed.

Lemma filled_validated (self : t) (a : ndarray) (n0 n1 n2 d : nat) :
  validated self a n0 n1 n2 d ->
  (individual_names self = None ->
   expected_individuals (source_software self) n1 = n1) ->
  validated (filled self n0 n1 n2) a n0 n1 n2 d.
Proof.
  intros [Hp Hs Hd Hc Hi Hk Hw] Hn. split; cbn; try assumption.
  - right. destruct Hc as [-> | (c & -> & Hcs)]; eauto.
  - intros l [= <-]. destruct (individual_names self) as [l |].
    + now apply Hi.
    + rewrite default_names_length. symmetry. now apply Hn.
  - intros l [= <-]. destruct (keypoint_names self) as [l |].
    + now apply Hk.
    + apply default_names_length.
Qed.

Lemma init_constructed (kw : kwargs) (r : t) :
  outcome (__init__ B kw) = inr r -> constructed r.
Proof.
  intros H.
  apply init_inv in H as (self & a & n0 & n1 & n2 & d & Ha & Hv & -> & Hn).
  apply assign_fields_inv in Ha as (_ & _ & _ & _ & Hf & _).
  split.
  - exists a, n0, n1, n2, d. now apply filled_validated.
  - destruct Hv as [_ _ _ [Hc | (c & Hc & _)] _ _ _]; cbn; rewrite Hc; eauto.
  - cbn. eauto.
  - cbn. eauto.
  - cbn. intros f Hfs. rewrite Hfs in Hf.
    now apply fps_converter_inv in Hf.
Qed.

Lemma init_of_constructed (r : t) :
  constructed r -> __init__ B (as_kwargs r) = ret r.
Proof.
  intros [(a & n0 & n1 & n2 & d & Hv) (c & Hc) (l & Hl) (k & Hk) Hf].
  assert (Ha : assign_fields B (as_kwargs r) = ret r).
  { unfold assign_fields, as_kwargs.
    cbn [kw_position_array kw_confidence_array kw_individual_names
         kw_keypoint_names kw_fps kw_source_software].
    rewrite Hl, Hk. run. rewrite !optional_of_str_list. run.
    destruct r as [p c' i k' f w]. cbn in *. subst.
    destruct f as [g |].
    - rewrite fps_converter_positive by now apply Hf. now run.
    - rewrite fps_converter_none. now run. }
  unfold __init__. rewrite Ha. run.
  rewrite (run_validators_ok _ _ _ _ _ _ Hv). run.
  unfold __attrs_post_init__, fill_confidence_array, fill_individual_names,
    fill_keypoint_names.
  rewrite Hc. run. rewrite Hl. run. now rewrite Hk.
Qed.

Lemma run_validators_position_error (self : t) (e : exn) :
  _validate_position_array self "position_array" (position_array self)
  = raise_log_error e ->
  run_validators B self = raise_log_error e.
Proof. intros H. unfold run_validators. now rewrite H. Qed.

Lemma init_validators_error (kw : kwargs) (self : t) (e : exn) :
  outcome (assign_fields B kw) = inr self ->
  run_validators B self = raise_log_error e ->
  outcome (__init__ B kw) = inl e /\
  In (LogError e) (logged (__init__ B kw)).
Proof.
  intros Ha Hv. split.
  - now rewrite (init_outcome _ _ Ha), Hv.
  - unfold __init__. apply in_logged_bind_r with (a := self); [assumption |].
    apply in_logged_bind_l. rewrite Hv. now left.
Qed.

End Facts.
End PosesFacts.

(** ** [ValidBboxesDataset] *)

Module BboxesFacts.
Import ValidBboxesDataset.

Section Facts.

Variable B : builtins.

Lemma bboxes_validate_arrays_ok (self : t) (attribute : string) (a : ndarray)
  (n0 n1 : nat) :
  shape a = [n0; n1; 2] ->
  _validate_centroid_position_and_shape_arrays self attribute (PArray a)
  = ret tt.
Proof.
  intros Hs. unfold _validate_centroid_position_and_shape_arrays. run.
  rewrite Hs. now run.
Qed.

Lemma bboxes_validate_arrays_ndim (self : t) (attribute : string) (a : ndarray) :
  ndim a <> 3 ->
  _validate_centroid_position_and_shape_arrays self attribute (PArray a)
  = raise_log_error (WrongNdim attribute 3 (ndim a)).
Proof.
  intros H. unfold _validate_centroid_position_and_shape_arrays, ndim in *.
  run. destruct (Nat.eqb_spec (List.length (shape a)) 3); [contradiction |].
  reflexivity.
Qed.

Lemma bboxes_validate_arrays_spatial (self : t) (attribute : string)
  (a : ndarray) :
  ndim a = 3 -> last (shape a) 0 <> 2 ->
  _validate_centroid_position_and_shape_arrays self attribute (PArray a)
  = raise_log_error (WrongSpatial attribute (last (shape a) 0)).
Proof.
  intros H3 H2. unfold _validate_centroid_position_and_shape_arrays, ndim in *.
  run. rewrite H3. run.
  destruct (length_3 _ H3) as (n0 & n1 & d & Hs). rewrite Hs in *.
  run. cbn [last] in H2.
  destruct (Nat.eqb_spec d 2); [contradiction | reflexivity].
Qed.

Lemma bboxes_validate_arrays_inv (self : t) (attribute : string) (v : pyval) :
  outcome (_validate_centroid_position_and_shape_arrays self attribute v)
  = inr tt ->
  exists a n0 n1, v = PArray a /\ shape a = [n0; n1; 2].
Proof.
  intros H. destruct v; try discriminate H.
  destruct (Nat.eq_dec (ndim a) 3) as [H3 | H3].
  - destruct (length_3 _ H3) as (n0 & n1 & d & Hs).
    destruct (Nat.eq_dec d 2) as [-> | H2]; [now exists a, n0, n1 |].
    rewrite bboxes_validate_arrays_spatial in H;
      [discriminate H | assumption | now rewrite Hs].
  - now rewrite bboxes_validate_arrays_ndim in H.
Qed.

Lemma bboxes_validate_confidence_array_ok (self : t) (attribute : string)
  (a c : ndarray) :
  position_array self = PArray a -> shape c = drop_last (shape a) ->
  _validate_confidence_array self attribute (PArray c) = ret tt.
Proof.
  intros Hp Hc. unfold _validate_confidence_array. rewrite Hp. run.
  now rewrite Hc, shape_neq_refl.
Qed.

Lemma bboxes_validate_confidence_array_shape (self : t) (attribute : string)
  (a c : ndarray) :
  position_array self = PArray a -> shape c <> drop_last (shape a) ->
  _validate_confidence_array self attribute (PArray c)
  = raise_log_error
      (WrongShape attribute (drop_last (shape a)) (shape c)).
Proof.
  intros Hp Hc. unfold _validate_confidence_array. rewrite Hp. run.
  now rewrite shape_neq_true.
Qed.

Lemma bboxes_validate_confidence_array_not_array (self : t) (attribute : string)
  (v : pyval) :
  v <> PNone -> (forall c, v <> PArray c) ->
  _validate_confidence_array self attribute v
  = raise_log_error (NotNdarray v).
Proof.
  intros Hn Ha. destruct v; try reflexivity.
  - contradiction.
  - now destruct (Ha a).
Qed.

Lemma bboxes_validate_confidence_array_inv (self : t) (attribute : string)
  (a : ndarray) (v : pyval) :
  position_array self = PArray a ->
  outcome (_validate_confidence_array self attribute v) = inr tt ->
  v = PNone \/ exists c, v = PArray c /\ shape c = drop_last (shape a).
Proof.
  intros Hp H. destruct v; try discriminate H; [now left |].
  right. exists a0. split; [reflexivity |].
  destruct (list_eq_dec Nat.eq_dec (shape a0) (drop_last (shape a)))
    as [| Hne]; [assumption |].
  now rewrite (bboxes_validate_confidence_array_shape _ _ a a0 Hp Hne) in H.
Qed.

Lemma bboxes_validate_individual_names_eq (self : t) (attribute : string)
  (a : ndarray) (n1 : nat) (value : option (list string)) :
  position_array self = PArray a -> nth_error (shape a) 1 = Some n1 ->
  _validate_individual_names self attribute value
  = _validate_list_length attribute value n1.
Proof.
  intros Hp Hn. unfold _validate_individual_names.
  rewrite Hp. run. unfold index. rewrite Hn. now run.
Qed.

Lemma bboxes_run_validators_ok (self : t) (a : ndarray) (n0 n1 : nat) :
  validated self a n0 n1 -> run_validators self = ret tt.
Proof.
  intros [Hp Hs (s & m0 & m1 & Hz & Hzs) Hi Hc Hw]. unfold run_validators.
  rewrite Hp, (bboxes_validate_arrays_ok _ _ a n0 n1 Hs). run.
  rewrite Hz, (bboxes_validate_arrays_ok _ _ s m0 m1 Hzs). run.
  rewrite bboxes_validate_individual_names_eq with (a := a) (n1 := n1)
    by (assumption || now rewrite Hs).
  assert (Hnames : _validate_list_length "individual_names"
                     (individual_names self) n1 = ret tt).
  { destruct (individual_names self) as [l |]; [| reflexivity].
    rewrite <- (Hi l eq_refl). apply validate_list_length_ok. }
  rewrite Hnames. run.
  assert (Hconf : _validate_confidence_array self "confidence_array"
                    (confidence_array self) = ret tt).
  { destruct Hc as [-> | (c & -> & Hcs)]; [reflexivity |].
    apply bboxes_validate_confidence_array_ok with (a := a); [assumption |].
    now rewrite Hs, Hcs. }
  rewrite Hconf. run.
  destruct Hw as [-> | (w & ->)]; reflexivity.
Qed.

Lemma bboxes_run_validators_inv (self : t) :
  outcome (run_validators self) = inr tt ->
  exists a n0 n1, validated self a n0 n1.
Proof.
  unfold run_validators. intros H.
  apply outcome_bind_inr in H as ([] & H1 & H).
  apply outcome_bind_inr in H as ([] & H2 & H).
  apply outcome_bind_inr in H as ([] & H3 & H).
  apply outcome_bind_inr in H as ([] & H4 & H).
  apply bboxes_validate_arrays_inv in H1 as (a & n0 & n1 & Hp & Hs).
  apply bboxes_validate_arrays_inv in H2 as (s & m0 & m1 & Hz & Hzs).
  exists a, n0, n1.
  rewrite bboxes_validate_individual_names_eq with (a := a) (n1 := n1) in H3
    by (assumption || now rewrite Hs).
  apply (bboxes_validate_confidence_array_inv _ _ a _ Hp) in H4.
  split; try assumption.
  - now exists s, m0, m1.
  - intros l Hl. rewrite Hl in H3.
    now apply validate_list_length_inv in H3.
  - destruct H4 as [| (c & Hc & Hcs)]; [now left | right].
    exists c. split; [assumption |]. now rewrite Hcs, Hs.
  - now apply optional_instance_of_str_inv in H.
Qed.

Lemma bboxes_post_init_eq (self : t) (a : ndarray) (n0 n1 : nat) :
  validated self a n0 n1 ->
  __attrs_post_init__ self
  = (match confidence_array self with
     | PNone => [LogWarning NoConfidence]
     | _ => []
     end,
     inr (filled self n0 n1)).
Proof.
  intros [Hp Hs _ _ Hc _]. unfold __attrs_post_init__, filled.
  destruct self as [p z i c f w]. cbn in Hp, Hc |- *. subst p.
  destruct Hc as [-> | (c' & -> & Hcs)]; [| reflexivity].
  run. unfold set_confidence_array.
  rewrite bboxes_validate_confidence_array_ok with (a := a)
    by reflexivity.
  run. now rewrite Hs.
Qed.

Lemma bboxes_assign_fields_inv (kw : kwargs) (self : t) :
  outcome (assign_fields B kw) = inr self ->
  kw_position_array kw = Some (position_array self) /\
  kw_shape_array kw = Some (shape_array self) /\
  (exists names,
     kw_individual_names kw = Some names /\
     outcome (optional (_list_of_str B) names)
     = inr (individual_names self)) /\
  confidence_array self = with_default_none (kw_confidence_array kw) /\
  outcome (fps_converter B (with_default_none (kw_fps kw)))
    = inr (fps self) /\
  source_software self = with_default_none (kw_source_software kw).
Proof.
  unfold assign_fields. intros H.
  apply outcome_bind_inr in H as (p & Hp & H).
  apply outcome_bind_inr in H as (z & Hz & H).
  apply outcome_bind_inr in H as (n & Hn & H).
  apply outcome_bind_inr in H as (i & Hi & H).
  apply outcome_bind_inr in H as (f & Hf & H).
  cbn in H. injection H as <-. cbn.
  destruct (kw_position_array kw); [| discriminate Hp].
  destruct (kw_shape_array kw); [| discriminate Hz].
  destruct (kw_individual_names kw); [| discriminate Hn].
  cbn in Hp, Hz, Hn. injection Hp as ->. injection Hz as ->.
  injection Hn as ->. repeat split; try assumption.
  now exists n.
Qed.

Lemma bboxes_init_outcome (kw : kwargs) (self : t) :
  outcome (assign_fields B kw) = inr self ->
  outcome (__init__ B kw)
  = match outcome (run_validators self) with
    | inl e => inl e
    | inr _ => outcome (__attrs_post_init__ self)
    end.
Proof.
  intros H. unfold __init__. now rewrite outcome_bind, H, outcome_bind.
Qed.

Lemma bboxes_init_inv (kw : kwargs) (r : t) :
  outcome (__init__ B kw) = inr r ->
  exists self a n0 n1,
    outcome (assign_fields B kw) = inr self /\
    validated self a n0 n1 /\
    r = filled self n0 n1.
Proof.
  unfold __init__. intros H.
  apply outcome_bind_inr in H as (self & Ha & H).
  apply outcome_bind_inr in H as ([] & Hv & H).
  apply bboxes_run_validators_inv in Hv as (a & n0 & n1 & Hv).
  exists self, a, n0, n1.
  rewrite (bboxes_post_init_eq _ _ _ _ Hv) in H. cbn in H.
  split; [assumption | split; [assumption | congruence]].
Qed.

Lemma bboxes_filled_validated (self : t) (a : ndarray) (n0 n1 : nat) :
  validated self a n0 n1 -> validated (filled self n0 n1) a n0 n1.
Proof.
  intros [Hp Hs Hz Hi Hc Hw]. split; cbn; try assumption.
  right. destruct Hc as [-> | (c & -> & Hcs)]; eauto.
Qed.

Lemma bboxes_init_constructed (kw : kwargs) (r : t) :
  outcome (__init__ B kw) = inr r -> constructed r.
Proof.
  intros H. apply bboxes_init_inv in H as (self & a & n0 & n1 & Ha & Hv & ->).
  apply bboxes_assign_fields_inv in Ha as (_ & _ & _ & _ & Hf & _).
  split.
  - exists a, n0, n1. now apply bboxes_filled_validated.
  - destruct Hv as [_ _ _ _ [Hc | (c & Hc & _)] _]; cbn; rewrite Hc; eauto.
  - cbn. intros f Hfs. rewrite Hfs in Hf.
    now apply fps_converter_inv in Hf.
Qed.

Lemma bboxes_init_of_constructed (r : t) :
  constructed r -> __init__ B (as_kwargs r) = ret r.
Proof.
  intros [(a & n0 & n1 & Hv) (c & Hc) Hf].
  assert (Ha : assign_fields B (as_kwargs r) = ret r).
  { unfold assign_fields, as_kwargs.
    cbn [kw_position_array kw_shape_array kw_individual_names
         kw_confidence_array kw_fps kw_source_software].
    run.
    assert (Hn : optional (_list_of_str B)
                   match individual_names r with
                   | Some l => of_str_list l
                   | None => PNone
                   end = ret (individual_names r)).
    { destruct (individual_names r);
        [apply optional_of_str_list | reflexivity]. }
    rewrite Hn. run.
    destruct r as [p z i c' f w]. cbn in *. subst.
    destruct f as [g |].
    - rewrite fps_converter_positive by now apply Hf. now run.
    - rewrite fps_converter_none. now run. }
  unfold __init__. rewrite Ha. run.
  rewrite (bboxes_run_validators_ok _ _ _ _ Hv). run.
  unfold __attrs_post_init__. now rewrite Hc.
Qed.

End Facts.
End BboxesFacts.

(** * The claims *)

(** The spec's example: a position array of shape [(10, 2, 3, 2)] and
    nothing else. *)
Example poses_default_run :
  ValidPosesDataset.__init__ demo_builtins
    (ValidPosesDataset.only_position example_position)
  = ([LogWarning NoConfidence;
      LogWarning (NoIndividualNames ["individual_0"; "individual_1"]);
      LogWarning (NoKeypointNames ["keypoint_0"; "keypoint_1"; "keypoint_2"])],
     inr {| ValidPosesDataset.position_array := PArray example_position;
            ValidPosesDataset.confidence_array :=
              PArray (np_full_nan [10; 2; 3]);
            ValidPosesDataset.individual_names :=
              Some ["individual_0"; "individual_1"];
            ValidPosesDataset.keypoint_names :=
              Some ["keypoint_0"; "keypoint_1"; "keypoint_2"];
            ValidPosesDataset.fps := None;
            ValidPosesDataset.source_software := PNone |}).
Proof. vm_compute. reflexivity. Qed.

(** C1. For every position array of rank 4 whose last axis is 2 or 3,
    construction from the position array alone succeeds; the record's
    confidence array has the position's shape without its last axis and
    holds NaN in every cell, its individual names are
    [individual_0 .. individual_{shape[1]-1}] and its keypoint names are
    [keypoint_0 .. keypoint_{shape[2]-1}]. *)
Theorem poses_defaults_from_position (B : builtins) (a : ndarray) :
  ndim a = 4 -> last (shape a) 0 = 2 \/ last (shape a) 0 = 3 ->
  exists r c,
    outcome (ValidPosesDataset.__init__ B (ValidPosesDataset.only_position a))
    = inr r /\
    ValidPosesDataset.confidence_array r = PArray c /\
    shape c = removelast (shape a) /\
    data c = repeat S754_nan (fold_right Nat.mul 1 (shape c)) /\
    ValidPosesDataset.individual_names r
    = Some (map (fun i => ("individual_" ++ str_of_nat i)%string)
              (seq 0 (nth 1 (shape a) 0))) /\
    ValidPosesDataset.keypoint_names r
    = Some (map (fun i => ("keypoint_" ++ str_of_nat i)%string)
              (seq 0 (nth 2 (shape a) 0))).
Proof.
  intros H4 Hd.
  destruct (length_4 _ H4) as (n0 & n1 & n2 & d & Hs).
  rewrite Hs in Hd. cbn [last] in Hd.
  rewrite (PosesFacts.init_only_position B a n0 n1 n2 d Hs Hd).
  eexists. exists (np_full_nan [n0; n1; n2]).
  rewrite Hs. cbn.
  repeat split; reflexivity.
Qed.

Lemma poses_defaults_from_position_witness :
  ndim example_position = 4 /\
  (last (shape example_position) 0 = 2 \/
   last (shape example_position) 0 = 3) /\
  exists r c,
    outcome (ValidPosesDataset.__init__ demo_builtins
               (ValidPosesDataset.only_position example_position))
    = inr r /\
    ValidPosesDataset.confidence_array r = PArray c /\
    shape c = removelast (shape example_position) /\
    data c = repeat S754_nan (fold_right Nat.mul 1 (shape c)) /\
    ValidPosesDataset.individual_names r
    = Some (map (fun i => ("individual_" ++ str_of_nat i)%string)
              (seq 0 (nth 1 (shape example_position) 0))) /\
    ValidPosesDataset.keypoint_names r
    = Some (map (fun i => ("keypoint_" ++ str_of_nat i)%string)
              (seq 0 (nth 2 (shape example_position) 0))).
Proof.
  split; [reflexivity | split; [left; reflexivity |]].
  apply (poses_defaults_from_position demo_builtins example_position);
    [reflexivity | left; reflexivity].
Defined.

(** C2. A position array whose rank is not 4 makes construction fail, and
    so does one of rank 4 whose last axis is neither 2 nor 3. The
    converters of the other fields run first: whenever they pass, the
    failure is the rank error, respectively the spatial-axis error, of
    [position_array], and it is logged. *)
Theorem poses_rejects_bad_position (B : builtins)
  (kw : ValidPosesDataset.kwargs) (a : ndarray) :
  ValidPosesDataset.kw_position_array kw = Some (PArray a) ->
  (ndim a <> 4 ->
   fails (ValidPosesDataset.__init__ B kw) /\
   (succeeds (ValidPosesDataset.assign_fields B kw) ->
    outcome (ValidPosesDataset.__init__ B kw)
    = inl (WrongNdim "position_array" 4 (ndim a)) /\
    In (LogError (WrongNdim "position_array" 4 (ndim a)))
       (logged (ValidPosesDataset.__init__ B kw)))) /\
  (ndim a = 4 -> last (shape a) 0 <> 2 -> last (shape a) 0 <> 3 ->
   fails (ValidPosesDataset.__init__ B kw) /\
   (succeeds (ValidPosesDataset.assign_fields B kw) ->
    outcome (ValidPosesDataset.__init__ B kw)
    = inl (WrongSpatial "position_array" (last (shape a) 0)) /\
    In (LogError (WrongSpatial "position_array" (last (shape a) 0)))
       (logged (ValidPosesDataset.__init__ B kw)))).
Proof.
  intros Hkw.
  assert (Hgen : forall e,
            (forall self, ValidPosesDataset.position_array self = PArray a ->
               ValidPosesDataset.run_validators B self = raise_log_error e) ->
            fails (ValidPosesDataset.__init__ B kw) /\
            (succeeds (ValidPosesDataset.assign_fields B kw) ->
             outcome (ValidPosesDataset.__init__ B kw) = inl e /\
             In (LogError e) (logged (ValidPosesDataset.__init__ B kw)))).
  { intros e He.
    assert (Hs : forall self,
              outcome (ValidPosesDataset.assign_fields B kw) = inr self ->
              outcome (ValidPosesDataset.__init__ B kw) = inl e /\
              In (LogError e) (logged (ValidPosesDataset.__init__ B kw))).
    { intros self Ha.
      apply PosesFacts.init_validators_error with (self := self);
        [assumption |].
      apply He.
      apply PosesFacts.assign_fields_inv in Ha as (Hp & _).
      congruence. }
    split.
    - destruct (outcome (ValidPosesDataset.assign_fields B kw))
        as [e' | self] eqn:Ha.
      + exists e'. now apply PosesFacts.init_assign_fails.
      + exists e. now apply (Hs self).
    - intros [self Ha]. now apply (Hs self). }
  split.
  - intros Hn. apply Hgen. intros self Hp.
    apply PosesFacts.run_validators_position_error.
    rewrite Hp. now apply PosesFacts.validate_position_array_ndim.
  - intros H4 H2 H3. apply Hgen. intros self Hp.
    apply PosesFacts.run_validators_position_error.
    rewrite Hp. now apply PosesFacts.validate_position_array_spatial.
Qed.

Lemma poses_rejects_bad_position_witness :
  ValidPosesDataset.kw_position_array
    (ValidPosesDataset.only_position (zeros [10; 2; 3]))
  = Some (PArray (zeros [10; 2; 3])) /\
  outcome (ValidPosesDataset.__init__ demo_builtins
             (ValidPosesDataset.only_position (zeros [10; 2; 3])))
  = inl (WrongNdim "position_array" 4 3).
Proof.
  split; [reflexivity |].
  apply (poses_rejects_bad_position demo_builtins
           (ValidPosesDataset.only_position (zeros [10; 2; 3]))
           (zeros [10; 2; 3]) eq_refl).
  - discriminate.
  - eexists. reflexivity.
Defined.

(** C3, as the code has it. Leaving [individual_names] (boxNames) out of a
    bounding-box call is rejected at the call itself: the missing-keyword
    error is raised before any converter or validator runs and nothing is
    logged, whether or not [confidence_array] is given. A call that leaves
    [confidence_array] out and succeeds returns the NaN array of the
    position's shape without its last axis. [individual_names=None] given
    explicitly is not a missing keyword: the converter and the length check
    skip it, there is no defaulting step for it, and a record constructed
    from it keeps [individual_names] at [None]. *)
Theorem bboxes_names_keyword_required (B : builtins)
  (kw : ValidBboxesDataset.kwargs) :
  (ValidBboxesDataset.kw_individual_names kw = None ->
   exists name,
     ValidBboxesDataset.__init__ B kw = raise (MissingKeyword name) /\
     (ValidBboxesDataset.kw_position_array kw <> None ->
      ValidBboxesDataset.kw_shape_array kw <> None ->
      name = "individual_names")) /\
  (ValidBboxesDataset.kw_confidence_array kw = None ->
   forall r, outcome (ValidBboxesDataset.__init__ B kw) = inr r ->
     exists a,
       ValidBboxesDataset.position_array r = PArray a /\
       ValidBboxesDataset.confidence_array r
       = PArray (np_full_nan (removelast (shape a)))) /\
  (ValidBboxesDataset.kw_individual_names kw = Some PNone ->
   forall r, outcome (ValidBboxesDataset.__init__ B kw) = inr r ->
     ValidBboxesDataset.individual_names r = None).
Proof.
  split; [| split].
  - intros Hn.
    unfold ValidBboxesDataset.__init__, ValidBboxesDataset.assign_fields.
    rewrite Hn.
    destruct (ValidBboxesDataset.kw_position_array kw) as [p |].
    + destruct (ValidBboxesDataset.kw_shape_array kw) as [z |].
      * exists "individual_names". split; [| reflexivity].
        cbn [required]. now rewrite !bind_ret_l.
      * exists "shape_array". split; [| intros _ H; now destruct H].
        cbn [required]. now rewrite !bind_ret_l.
    + exists "position_array". split; [reflexivity |].
      intros H. now destruct H.
  - intros Hc r H.
    apply BboxesFacts.bboxes_init_inv in H
      as (self & a & n0 & n1 & Ha & Hv & ->).
    apply BboxesFacts.bboxes_assign_fields_inv in Ha
      as (_ & _ & _ & Hconf & _).
    rewrite Hc in Hconf. cbn in Hconf.
    destruct Hv as [Hp Hs _ _ _ _].
    exists a. cbn. now rewrite Hp, Hconf, Hs.
  - intros Hn r H.
    apply BboxesFacts.bboxes_init_inv in H
      as (self & a & n0 & n1 & Ha & _ & ->).
    apply BboxesFacts.bboxes_assign_fields_inv in Ha
      as (_ & _ & (names & Hnames & Hconv) & _).
    rewrite Hn in Hnames. injection Hnames as <-.
    cbn in Hconv |- *. congruence.
Qed.

Lemma bboxes_names_keyword_required_witness :
  ValidBboxesDataset.__init__ demo_builtins bboxes_without_names
  = raise (MissingKeyword "individual_names").
Proof.
  destruct (proj1 (bboxes_names_keyword_required demo_builtins
                     bboxes_without_names) eq_refl)
    as (name & H & Hname).
  rewrite H. f_equal. f_equal. apply Hname; discriminate.
Defined.

(** C3, as stated, fails: [individual_names=None] reaches the defaulting
    step absent and construction succeeds. *)
Lemma bboxes_absent_names_accepted :
  ~ (forall (kw : ValidBboxesDataset.kwargs) (r : ValidBboxesDataset.t),
       outcome (ValidBboxesDataset.__init__ demo_builtins kw) = inr r ->
       ValidBboxesDataset.individual_names r <> None).
Proof.
  intros H.
  apply (H (ValidBboxesDataset.only_required (zeros [5; 2; 2])
              (zeros [5; 2; 2]) PNone)
           {| ValidBboxesDataset.position_array := PArray (zeros [5; 2; 2]);
              ValidBboxesDataset.shape_array := PArray (zeros [5; 2; 2]);
              ValidBboxesDataset.individual_names := None;
              ValidBboxesDataset.confidence_array :=
                PArray (np_full_nan [5; 2]);
              ValidBboxesDataset.fps := None;
              ValidBboxesDataset.source_software := PNone |});
    reflexivity.
Qed.

(** C4 at its failing input: a position array with two individuals, one
    individual name and [source_software="LightningPose"] is accepted, and
    the record has two individuals. *)
Theorem lightningpose_two_individuals_accepted :
  exists r,
    outcome (ValidPosesDataset.__init__ demo_builtins
               (lightningpose_call (Some (PList [PStr "mouse"]))))
    = inr r /\
    ValidPosesDataset.source_software r = PStr "LightningPose" /\
    ValidPosesDataset.position_array r = PArray example_position /\
    nth_error (shape example_position) 1 = Some 2 /\
    ValidPosesDataset.individual_names r = Some ["mouse"].
Proof. eexists. repeat split. Qed.

(** The sibling path of C4 does enforce the constraint: with the names left
    out, the generated names are checked against length 1, so a
    LightningPose record whose names were defaulted has one individual. *)
Lemma lightningpose_defaulted_single (B : builtins)
  (kw : ValidPosesDataset.kwargs) (r : ValidPosesDataset.t) (a : ndarray) :
  ValidPosesDataset.kw_source_software kw = Some (PStr "LightningPose") ->
  ValidPosesDataset.kw_individual_names kw = None ->
  outcome (ValidPosesDataset.__init__ B kw) = inr r ->
  ValidPosesDataset.position_array r = PArray a ->
  nth_error (shape a) 1 = Some 1.
Proof.
  intros Hw Hn H Hp.
  apply PosesFacts.init_inv in H
    as (self & a' & n0 & n1 & n2 & d & Ha & Hv & -> & Hexp).
  apply PosesFacts.assign_fields_inv in Ha as (_ & _ & Hi & _ & _ & Hs).
  rewrite Hn in Hi. cbn in Hi. rewrite Hw in Hs. cbn in Hs.
  assert (Hnone : ValidPosesDataset.individual_names self = None)
    by congruence.
  specialize (Hexp Hnone). rewrite Hs in Hexp. cbn in Hexp.
  destruct Hv as [Hp' Hshape _ _ _ _ _]. cbn in Hp.
  rewrite Hp' in Hp. injection Hp as <-. rewrite Hshape. cbn. congruence.
Qed.

Example lightningpose_defaulted_two_rejected :
  outcome (ValidPosesDataset.__init__ demo_builtins (lightningpose_call None))
  = inl (WrongLength "individual_names" 1 2).
Proof. reflexivity. Qed.

(** C5. Supplied individual names are checked against length 1 when
    [source_software == "LightningPose"] holds and against
    [position_array.shape[1]] otherwise: the validator evaluates that
    comparison and then runs the length check with the length it selects.
    So the check is against 1 for the string ["LightningPose"], and
    against [shape[1]] for [None], any other string and any other value
    that is not a numpy array (for an array the comparison is numpy's).
    In particular, with ["LightningPose"] and supplied names that coerce
    to a list of length other than 1, construction fails whatever
    [shape[1]] is, and the failure is that length error as soon as the
    position and the confidence array pass their own checks. *)
Theorem individual_names_expected_length (B : builtins) :
  (forall (self : ValidPosesDataset.t) (attribute : string) (a : ndarray)
          (n1 : nat) (l : list string),
     ValidPosesDataset.position_array self = PArray a ->
     nth_error (shape a) 1 = Some n1 ->
     ValidPosesDataset._validate_individual_names B self attribute (Some l)
     = (lightning_pose <- truth_eq_str B
                            (ValidPosesDataset.source_software self)
                            "LightningPose" ;;
        if Nat.eqb (List.length l) (if lightning_pose then 1 else n1)
        then ret tt
        else raise_log_error
               (WrongLength attribute (if lightning_pose then 1 else n1)
                  (List.length l))) /\
     (ValidPosesDataset.source_software self = PStr "LightningPose" ->
      ValidPosesDataset._validate_individual_names B self attribute (Some l)
      = if Nat.eqb (List.length l) 1 then ret tt
        else raise_log_error (WrongLength attribute 1 (List.length l))) /\
     ((forall a', ValidPosesDataset.source_software self <> PArray a') ->
      ValidPosesDataset.source_software self <> PStr "LightningPose" ->
      ValidPosesDataset._validate_individual_names B self attribute (Some l)
      = if Nat.eqb (List.length l) n1 then ret tt
        else raise_log_error (WrongLength attribute n1 (List.length l)))) /\
  (forall (kw : ValidPosesDataset.kwargs) (v : pyval) (l : list string),
     ValidPosesDataset.kw_source_software kw
     = Some (PStr "LightningPose") ->
     ValidPosesDataset.kw_individual_names kw = Some v ->
     outcome (_list_of_str B v) = inr l ->
     List.length l <> 1 ->
     fails (ValidPosesDataset.__init__ B kw) /\
     (forall self,
        outcome (ValidPosesDataset.assign_fields B kw) = inr self ->
        outcome (ValidPosesDataset._validate_position_array self
                   "position_array"
                   (ValidPosesDataset.position_array self)) = inr tt ->
        outcome (ValidPosesDataset._validate_confidence_array self
                   "confidence_array"
                   (ValidPosesDataset.confidence_array self)) = inr tt ->
        outcome (ValidPosesDataset.__init__ B kw)
        = inl (WrongLength "individual_names" 1 (List.length l)))).
Proof.
  split.
  - intros self attribute a n1 l Hp Hn.
    assert (Hgen :
              ValidPosesDataset._validate_individual_names B self attribute
                (Some l)
              = (lightning_pose <- truth_eq_str B
                                     (ValidPosesDataset.source_software self)
                                     "LightningPose" ;;
                 if Nat.eqb (List.length l)
                      (if lightning_pose then 1 else n1)
                 then ret tt
                 else raise_log_error
                        (WrongLength attribute
                           (if lightning_pose then 1 else n1)
                           (List.length l)))).
    { rewrite PosesFacts.validate_individual_names_gen
        with (a := a) (n1 := n1) by assumption.
      unfold _validate_list_length.
      destruct (truth_eq_str B (ValidPosesDataset.source_software self)
                  "LightningPose") as [lg [e | lp]]; [reflexivity |].
      rewrite !bind_value. cbv beta.
      now destruct (Nat.eqb (List.length l) (if lp then 1 else n1)). }
    split; [exact Hgen | split].
    + intros Hw. rewrite Hgen, Hw. cbn [truth_eq_str eq_str].
      change (String.eqb "LightningPose" "LightningPose") with true.
      now rewrite bind_ret_l.
    + intros Harr Hw. rewrite Hgen.
      rewrite truth_eq_str_not_array by assumption.
      assert (E : eq_str (ValidPosesDataset.source_software self)
                    "LightningPose" = false).
      { destruct (ValidPosesDataset.source_software self);
          try reflexivity.
        cbn. apply String.eqb_neq. congruence. }
      now rewrite E, bind_ret_l.
  - intros kw v l Hw Hn Hl Hlen.
    assert (Hself : forall self,
              outcome (ValidPosesDataset.assign_fields B kw) = inr self ->
              ValidPosesDataset._validate_individual_names B self
                "individual_names" (ValidPosesDataset.individual_names self)
              = raise_log_error
                  (WrongLength "individual_names" 1 (List.length l))).
    { intros self Ha.
      apply PosesFacts.assign_fields_inv in Ha as (_ & _ & Hi & _ & _ & Hs).
      rewrite Hn in Hi. rewrite Hw in Hs. cbn in Hi, Hs.
      assert (Hsome : ValidPosesDataset.individual_names self = Some l).
      { destruct v; try discriminate Hl;
          cbn [optional] in Hi; rewrite outcome_bind, Hl in Hi;
          cbn in Hi; congruence. }
      unfold ValidPosesDataset._validate_individual_names.
      rewrite Hs, Hsome. cbn [truth_eq_str eq_str].
      change (String.eqb "LightningPose" "LightningPose") with true.
      rewrite bind_ret_l. now apply validate_list_length_bad. }
    assert (Hrun : forall self,
              outcome (ValidPosesDataset.assign_fields B kw) = inr self ->
              exists e,
                outcome (ValidPosesDataset.run_validators B self) = inl e /\
                (outcome (ValidPosesDataset._validate_position_array self
                            "position_array"
                            (ValidPosesDataset.position_array self))
                 = inr tt ->
                 outcome (ValidPosesDataset._validate_confidence_array self
                            "confidence_array"
                            (ValidPosesDataset.confidence_array self))
                 = inr tt ->
                 e = WrongLength "individual_names" 1 (List.length l))).
    { intros self Ha. unfold ValidPosesDataset.run_validators.
      rewrite outcome_bind.
      destruct (outcome (ValidPosesDataset._validate_position_array _ _ _))
        as [e1 | []].
      { exists e1. split; [reflexivity | discriminate]. }
      rewrite outcome_bind.
      destruct (outcome (ValidPosesDataset._validate_confidence_array _ _ _))
        as [e2 | []].
      { exists e2. split; [reflexivity | intros _; discriminate]. }
      rewrite (Hself self Ha).
      exists (WrongLength "individual_names" 1 (List.length l)).
      split; reflexivity. }
    split.
    + destruct (outcome (ValidPosesDataset.assign_fields B kw))
        as [e | self] eqn:Ha.
      * exists e. now apply PosesFacts.init_assign_fails.
      * destruct (Hrun self eq_refl) as (e & He & _).
        exists e. now rewrite (PosesFacts.init_outcome B kw self Ha), He.
    + intros self Ha Hpos Hconf.
      destruct (Hrun self Ha) as (e & He & Heq).
      rewrite (PosesFacts.init_outcome B kw self Ha), He.
      now rewrite (Heq Hpos Hconf).
Qed.

Lemma individual_names_expected_length_witness :
  outcome (ValidPosesDataset.__init__ demo_builtins
             (lightningpose_call (Some (PList [PStr "a"; PStr "b"]))))
  = inl (WrongLength "individual_names" 1 2).
Proof.
  apply (proj2 (individual_names_expected_length demo_builtins)
           (lightningpose_call (Some (PList [PStr "a"; PStr "b"])))
           (PList [PStr "a"; PStr "b"]) ["a"; "b"]
           eq_refl eq_refl eq_refl)
    with (self := {| ValidPosesDataset.position_array :=
                       PArray example_position;
                     ValidPosesDataset.confidence_array := PNone;
                     ValidPosesDataset.individual_names := Some ["a"; "b"];
                     ValidPosesDataset.keypoint_names := None;
                     ValidPosesDataset.fps := None;
                     ValidPosesDataset.source_software :=
                       PStr "LightningPose" |});
    (discriminate || reflexivity).
Defined.

(** The confidence check inside the two constructions. *)
Lemma poses_confidence_stored (B : builtins) (kw : ValidPosesDataset.kwargs)
  (p v : pyval) (r : ValidPosesDataset.t) :
  ValidPosesDataset.kw_position_array kw = Some p ->
  ValidPosesDataset.kw_confidence_array kw = Some v -> v <> PNone ->
  outcome (ValidPosesDataset.__init__ B kw) = inr r ->
  exists a c,
    p = PArray a /\ v = PArray c /\ shape c = removelast (shape a) /\
    ValidPosesDataset.confidence_array r = PArray c.
Proof.
  intros Hp Hv Hnone H.
  apply PosesFacts.init_inv in H
    as (self & a & n0 & n1 & n2 & d & Ha & Hval & -> & _).
  apply PosesFacts.assign_fields_inv in Ha as (Hp' & Hc' & _).
  rewrite Hp in Hp'. rewrite Hv in Hc'. cbn in Hc'.
  destruct Hval as [Hpos Hs _ Hc _ _ _].
  destruct Hc as [Hc | (c & Hc & Hcs)]; [congruence |].
  exists a, c. cbn. rewrite Hc, Hs, Hcs. cbn.
  repeat split; congruence.
Qed.

Lemma poses_confidence_error (B : builtins) (kw : ValidPosesDataset.kwargs)
  (self : ValidPosesDataset.t) (e : exn) :
  outcome (ValidPosesDataset.assign_fields B kw) = inr self ->
  outcome (ValidPosesDataset._validate_position_array self "position_array"
             (ValidPosesDataset.position_array self)) = inr tt ->
  ValidPosesDataset._validate_confidence_array self "confidence_array"
    (ValidPosesDataset.confidence_array self) = raise_log_error e ->
  outcome (ValidPosesDataset.__init__ B kw) = inl e.
Proof.
  intros Ha Hpos Hconf.
  rewrite (PosesFacts.init_outcome B kw self Ha).
  unfold ValidPosesDataset.run_validators.
  now rewrite outcome_bind, Hpos, outcome_bind, Hconf.
Qed.

Lemma bboxes_confidence_stored (B : builtins)
  (kw : ValidBboxesDataset.kwargs) (p v : pyval) (r : ValidBboxesDataset.t) :
  ValidBboxesDataset.kw_position_array kw = Some p ->
  ValidBboxesDataset.kw_confidence_array kw = Some v -> v <> PNone ->
  outcome (ValidBboxesDataset.__init__ B kw) = inr r ->
  exists a c,
    p = PArray a /\ v = PArray c /\ shape c = removelast (shape a) /\
    ValidBboxesDataset.confidence_array r = PArray c.
Proof.
  intros Hp Hv Hnone H.
  apply BboxesFacts.bboxes_init_inv in H
    as (self & a & n0 & n1 & Ha & Hval & ->).
  apply BboxesFacts.bboxes_assign_fields_inv in Ha
    as (Hp' & _ & _ & Hc' & _).
  rewrite Hp in Hp'. rewrite Hv in Hc'. cbn in Hc'.
  destruct Hval as [Hpos Hs _ _ Hc _].
  destruct Hc as [Hc | (c & Hc & Hcs)]; [congruence |].
  exists a, c. cbn. rewrite Hc, Hs, Hcs. cbn.
  repeat split; congruence.
Qed.

Lemma bboxes_confidence_error (B : builtins)
  (kw : ValidBboxesDataset.kwargs) (self : ValidBboxesDataset.t) (e : exn) :
  outcome (ValidBboxesDataset.assign_fields B kw) = inr self ->
  outcome (ValidBboxesDataset._validate_centroid_position_and_shape_arrays
             self "position_array"
             (ValidBboxesDataset.position_array self)) = inr tt ->
  outcome (ValidBboxesDataset._validate_centroid_position_and_shape_arrays
             self "shape_array"
             (ValidBboxesDataset.shape_array self)) = inr tt ->
  outcome (ValidBboxesDataset._validate_individual_names self
             "individual_names"
             (ValidBboxesDataset.individual_names self)) = inr tt ->
  ValidBboxesDataset._validate_confidence_array self "confidence_array"
    (ValidBboxesDataset.confidence_array self) = raise_log_error e ->
  outcome (ValidBboxesDataset.__init__ B kw) = inl e.
Proof.
  intros Ha Hpos Hsize Hnames Hconf.
  rewrite (BboxesFacts.bboxes_init_outcome B kw self Ha).
  unfold ValidBboxesDataset.run_validators.
  now rewrite outcome_bind, Hpos, outcome_bind, Hsize, outcome_bind, Hnames,
    outcome_bind, Hconf.
Qed.

(** C6. In both validators a supplied confidence array must be a numpy
    array whose shape is the position array's shape without its last axis.
    A construction that succeeds stored exactly such an array; any other
    supplied value makes construction fail, and once the checks that run
    before it have passed the failure is the logged shape error (or the
    not-an-array error) of [confidence_array]. *)
Theorem confidence_shape_checked (B : builtins) :
  (forall (kw : ValidPosesDataset.kwargs) (a : ndarray) (v : pyval),
     ValidPosesDataset.kw_position_array kw = Some (PArray a) ->
     ValidPosesDataset.kw_confidence_array kw = Some v -> v <> PNone ->
     (forall r, outcome (ValidPosesDataset.__init__ B kw) = inr r ->
        exists c, v = PArray c /\ shape c = removelast (shape a) /\
                  ValidPosesDataset.confidence_array r = PArray c) /\
     ((forall c, v = PArray c -> shape c <> removelast (shape a)) ->
      fails (ValidPosesDataset.__init__ B kw)) /\
     (forall self,
        outcome (ValidPosesDataset.assign_fields B kw) = inr self ->
        outcome (ValidPosesDataset._validate_position_array self
                   "position_array" (PArray a)) = inr tt ->
        (forall c, v = PArray c -> shape c <> removelast (shape a) ->
           outcome (ValidPosesDataset.__init__ B kw)
           = inl (WrongShape "confidence_array" (removelast (shape a))
                    (shape c))) /\
        ((forall c, v <> PArray c) ->
           outcome (ValidPosesDataset.__init__ B kw)
           = inl (NotNdarray v)))) /\
  (forall (kw : ValidBboxesDataset.kwargs) (a : ndarray) (v : pyval),
     ValidBboxesDataset.kw_position_array kw = Some (PArray a) ->
     ValidBboxesDataset.kw_confidence_array kw = Some v -> v <> PNone ->
     (forall r, outcome (ValidBboxesDataset.__init__ B kw) = inr r ->
        exists c, v = PArray c /\ shape c = removelast (shape a) /\
                  ValidBboxesDataset.confidence_array r = PArray c) /\
     ((forall c, v = PArray c -> shape c <> removelast (shape a)) ->
      fails (ValidBboxesDataset.__init__ B kw)) /\
     (forall self,
        outcome (ValidBboxesDataset.assign_fields B kw) = inr self ->
        outcome
          (ValidBboxesDataset._validate_centroid_position_and_shape_arrays
             self "position_array" (PArray a)) = inr tt ->
        outcome
          (ValidBboxesDataset._validate_centroid_position_and_shape_arrays
             self "shape_array" (ValidBboxesDataset.shape_array self))
        = inr tt ->
        outcome (ValidBboxesDataset._validate_individual_names self
                   "individual_names"
                   (ValidBboxesDataset.individual_names self)) = inr tt ->
        (forall c, v = PArray c -> shape c <> removelast (shape a) ->
           outcome (ValidBboxesDataset.__init__ B kw)
           = inl (WrongShape "confidence_array" (removelast (shape a))
                    (shape c))) /\
        ((forall c, v <> PArray c) ->
           outcome (ValidBboxesDataset.__init__ B kw)
           = inl (NotNdarray v)))).
Proof.
  split.
  - intros kw a v Hp Hv Hnone.
    assert (Hstored : forall r,
              outcome (ValidPosesDataset.__init__ B kw) = inr r ->
              exists c, v = PArray c /\ shape c = removelast (shape a) /\
                        ValidPosesDataset.confidence_array r = PArray c).
    { intros r Hr.
      destruct (poses_confidence_stored B kw _ _ r Hp Hv Hnone Hr)
        as (a' & c & [= <-] & Hc & Hs & Hconf).
      now exists c. }
    split; [exact Hstored | split].
    + intros Hbad. apply fails_not_succeeds. intros [r Hr].
      destruct (Hstored r Hr) as (c & Hc & Hs & _).
      now apply (Hbad c).
    + intros self Ha Hpos.
      pose proof (PosesFacts.assign_fields_inv B kw self Ha)
        as (Hp' & Hc' & _).
      rewrite Hp in Hp'. injection Hp' as Hp'.
      rewrite Hv in Hc'. cbn in Hc'.
      split.
      * intros c -> Hne.
        apply poses_confidence_error with (self := self);
          [assumption | now rewrite <- Hp' |].
        rewrite Hc'.
        now apply PosesFacts.validate_confidence_array_shape.
      * intros Hna.
        apply poses_confidence_error with (self := self);
          [assumption | now rewrite <- Hp' |].
        rewrite Hc'.
        now apply PosesFacts.validate_confidence_array_not_array.
  - intros kw a v Hp Hv Hnone.
    assert (Hstored : forall r,
              outcome (ValidBboxesDataset.__init__ B kw) = inr r ->
              exists c, v = PArray c /\ shape c = removelast (shape a) /\
                        ValidBboxesDataset.confidence_array r = PArray c).
    { intros r Hr.
      destruct (bboxes_confidence_stored B kw _ _ r Hp Hv Hnone Hr)
        as (a' & c & [= <-] & Hc & Hs & Hconf).
      now exists c. }
    split; [exact Hstored | split].
    + intros Hbad. apply fails_not_succeeds. intros [r Hr].
      destruct (Hstored r Hr) as (c & Hc & Hs & _).
      now apply (Hbad c).
    + intros self Ha Hpos Hsize Hnames.
      pose proof (BboxesFacts.bboxes_assign_fields_inv B kw self Ha)
        as (Hp' & _ & _ & Hc' & _).
      rewrite Hp in Hp'. injection Hp' as Hp'.
      rewrite Hv in Hc'. cbn in Hc'.
      split.
      * intros c -> Hne.
        apply bboxes_confidence_error with (self := self);
          [assumption | now rewrite <- Hp' | assumption | assumption |].
        rewrite Hc'.
        now apply BboxesFacts.bboxes_validate_confidence_array_shape.
      * intros Hna.
        apply bboxes_confidence_error with (self := self);
          [assumption | now rewrite <- Hp' | assumption | assumption |].
        rewrite Hc'.
        now apply BboxesFacts.bboxes_validate_confidence_array_not_array.
Qed.

Lemma confidence_shape_checked_witness :
  outcome (ValidPosesDataset.__init__ demo_builtins
             (confidence_call example_position (zeros [10; 2])))
  = inl (WrongShape "confidence_array" [10; 2; 3] [10; 2]).
Proof.
  refine (proj1
            (proj2 (proj2
               (proj1 (confidence_shape_checked demo_builtins)
                  (confidence_call example_position (zeros [10; 2]))
                  example_position (PArray (zeros [10; 2]))
                  eq_refl eq_refl _))
               {| ValidPosesDataset.position_array := PArray example_position;
                  ValidPosesDataset.confidence_array :=
                    PArray (zeros [10; 2]);
                  ValidPosesDataset.individual_names := None;
                  ValidPosesDataset.keypoint_names := None;
                  ValidPosesDataset.fps := None;
                  ValidPosesDataset.source_software := PNone |}
               eq_refl eq_refl)
            (zeros [10; 2]) eq_refl _); discriminate.
Defined.

(** C7, as the code has it. The string-list coercer has four cases. A
    single string [s] gives [[s]] and one warning, no error. A value that
    is not a string and iterates over [items] gives [str] of every item,
    in order, and logs nothing. A value that is not an [Iterable] instance
    fails with the logged invalid-value error. A numpy array of rank 0 is
    an [Iterable] instance that cannot be iterated: on it the coercer
    fails with numpy's TypeError, which is not logged. Every value falls
    under one of the four. *)
Theorem list_of_str_cases (B : builtins) :
  (forall s : string,
     _list_of_str B (PStr s)
     = ([LogWarning (ExpectedListOfStr s)], inr [s])) /\
  (forall (v : pyval) (items : list pyval),
     (forall s, v <> PStr s) -> iterate v = ret items ->
     _list_of_str B v = ([], inr (map (py_str B) items))) /\
  (forall v : pyval,
     is_iterable v = false ->
     _list_of_str B v
     = ([LogError (InvalidListOfStr v)], inl (InvalidListOfStr v))) /\
  (forall a : ndarray,
     shape a = [] ->
     is_iterable (PArray a) = true /\
     _list_of_str B (PArray a) = ([], inl IterationOver0d)) /\
  (forall v : pyval,
     (exists s, v = PStr s) \/
     (exists items, (forall s, v <> PStr s) /\ iterate v = ret items) \/
     is_iterable v = false \/
     (exists a, v = PArray a /\ shape a = [])).
Proof.
  split; [| split; [| split; [| split]]].
  - intros s. reflexivity.
  - intros v items Hs Hit.
    destruct v; try discriminate Hit.
    + unfold _list_of_str. cbn [is_iterable]. now rewrite Hit, bind_ret_l.
    + unfold _list_of_str. cbn [is_iterable]. now rewrite Hit, bind_ret_l.
  - intros v Hv. destruct v; try discriminate Hv; reflexivity.
  - intros a Ha. split; [reflexivity |].
    unfold _list_of_str. cbn [is_iterable iterate]. now rewrite Ha.
  - intros v. destruct v as [| b | z | f | s | items | a].
    + right. right. now left.
    + right. right. now left.
    + right. right. now left.
    + right. right. now left.
    + left. now exists s.
    + right. left. exists items. split; [discriminate | reflexivity].
    + destruct (shape a) as [| n rest] eqn:Ha.
      * right. right. right. now exists a.
      * right. left. exists (map PArray (rows a)).
        split; [discriminate |]. cbn [iterate]. now rewrite Ha.
Qed.

Lemma list_of_str_cases_witness :
  _list_of_str demo_builtins (PList [PStr "a"; PNone; PBool true])
  = ([], inr ["a"; "None"; "True"]).
Proof.
  apply (proj1 (proj2 (list_of_str_cases demo_builtins))
           (PList [PStr "a"; PNone; PBool true])
           [PStr "a"; PNone; PBool true]).
  - discriminate.
  - reflexivity.
Defined.

Example list_of_str_bare_string :
  _list_of_str demo_builtins (PStr "x")
  = ([LogWarning (ExpectedListOfStr "x")], inr ["x"]).
Proof. reflexivity. Qed.

(** An array of rank 0 is an [Iterable] instance that cannot be iterated:
    the comprehension raises. *)
Example list_of_str_rank_0 :
  _list_of_str demo_builtins (PArray (zeros [])) = raise IterationOver0d.
Proof. reflexivity. Qed.

(** C7, as stated, fails: the array of rank 0 is not a string, is an
    [Iterable] instance, and is neither coerced nor refused with the
    logged invalid-value error. *)
Lemma list_of_str_rank_0_outside_three_cases :
  ~ (forall v : pyval,
       (exists s, v = PStr s) \/
       (exists l, _list_of_str demo_builtins v = ([], inr l)) \/
       _list_of_str demo_builtins v
       = ([LogError (InvalidListOfStr v)], inl (InvalidListOfStr v))).
Proof.
  intros H.
  destruct (H (PArray (zeros []))) as [(s & Hs) | [(l & Hl) | Hl]];
    discriminate.
Qed.

(** A frame rate that is dropped leaves the rest of a poses construction
    as it is without the keyword. *)
Lemma poses_dropped_fps (B : builtins) (kw : ValidPosesDataset.kwargs)
  (v : pyval) (f : spec_float) (r : ValidPosesDataset.t) :
  fps_converter B v = ([LogWarning (InvalidFps f)], inr None) ->
  outcome (ValidPosesDataset.__init__ B (ValidPosesDataset.with_fps kw None))
  = inr r ->
  outcome (ValidPosesDataset.__init__ B
             (ValidPosesDataset.with_fps kw (Some v))) = inr r /\
  ValidPosesDataset.fps r = None /\
  In (LogWarning (InvalidFps f))
     (logged (ValidPosesDataset.__init__ B
                (ValidPosesDataset.with_fps kw (Some v)))).
Proof.
  intros Hconv H.
  unfold ValidPosesDataset.__init__ in H |- *.
  apply outcome_bind_inr in H as (self & Ha & H).
  assert (Ha' : outcome (ValidPosesDataset.assign_fields B
                           (ValidPosesDataset.with_fps kw (Some v)))
                = inr self /\
                ValidPosesDataset.fps self = None /\
                In (LogWarning (InvalidFps f))
                   (logged (ValidPosesDataset.assign_fields B
                              (ValidPosesDataset.with_fps kw (Some v))))).
  { unfold ValidPosesDataset.assign_fields in Ha |- *.
    cbn [ValidPosesDataset.with_fps ValidPosesDataset.kw_position_array
         ValidPosesDataset.kw_confidence_array
         ValidPosesDataset.kw_individual_names
         ValidPosesDataset.kw_keypoint_names ValidPosesDataset.kw_fps
         ValidPosesDataset.kw_source_software with_default_none] in Ha |- *.
    apply outcome_bind_inr in Ha as (p & Hp & Ha).
    apply outcome_bind_inr in Ha as (i & Hi & Ha).
    apply outcome_bind_inr in Ha as (k & Hk & Ha).
    rewrite fps_converter_none, bind_ret_l in Ha. cbn in Ha.
    injection Ha as <-. rewrite Hconv.
    split; [| split; [reflexivity |]].
    - now rewrite outcome_bind, Hp, outcome_bind, Hi, outcome_bind, Hk.
    - apply in_logged_bind_r with (a := p); [assumption |].
      apply in_logged_bind_r with (a := i); [assumption |].
      apply in_logged_bind_r with (a := k); [assumption |].
      now left. }
  destruct Ha' as (Hout & Hfps & Hin).
  split; [| split].
  - now rewrite outcome_bind, Hout.
  - apply outcome_bind_inr in H as ([] & Hv & H).
    apply PosesFacts.run_validators_inv in Hv
      as (a & n0 & n1 & n2 & d & Hv).
    rewrite (PosesFacts.post_init_outcome B _ _ _ _ _ _ Hv) in H.
    destruct (ValidPosesDataset.individual_names self).
    + injection H as <-. exact Hfps.
    + destruct (Nat.eqb n1 _); [| discriminate H].
      injection H as <-. exact Hfps.
  - now apply in_logged_bind_l.
Qed.

Lemma bboxes_dropped_fps (B : builtins) (kw : ValidBboxesDataset.kwargs)
  (v : pyval) (f : spec_float) (r : ValidBboxesDataset.t) :
  fps_converter B v = ([LogWarning (InvalidFps f)], inr None) ->
  outcome (ValidBboxesDataset.__init__ B (ValidBboxesDataset.with_fps kw None))
  = inr r ->
  outcome (ValidBboxesDataset.__init__ B
             (ValidBboxesDataset.with_fps kw (Some v))) = inr r /\
  ValidBboxesDataset.fps r = None /\
  In (LogWarning (InvalidFps f))
     (logged (ValidBboxesDataset.__init__ B
                (ValidBboxesDataset.with_fps kw (Some v)))).
Proof.
  intros Hconv H.
  unfold ValidBboxesDataset.__init__ in H |- *.
  apply outcome_bind_inr in H as (self & Ha & H).
  assert (Ha' : outcome (ValidBboxesDataset.assign_fields B
                           (ValidBboxesDataset.with_fps kw (Some v)))
                = inr self /\
                ValidBboxesDataset.fps self = None /\
                In (LogWarning (InvalidFps f))
                   (logged (ValidBboxesDataset.assign_fields B
                              (ValidBboxesDataset.with_fps kw (Some v))))).
  { unfold ValidBboxesDataset.assign_fields in Ha |- *.
    cbn [ValidBboxesDataset.with_fps ValidBboxesDataset.kw_position_array
         ValidBboxesDataset.kw_shape_array
         ValidBboxesDataset.kw_confidence_array
         ValidBboxesDataset.kw_individual_names ValidBboxesDataset.kw_fps
         ValidBboxesDataset.kw_source_software with_default_none] in Ha |- *.
    apply outcome_bind_inr in Ha as (p & Hp & Ha).
    apply outcome_bind_inr in Ha as (z & Hz & Ha).
    apply outcome_bind_inr in Ha as (n & Hn & Ha).
    apply outcome_bind_inr in Ha as (i & Hi & Ha).
    rewrite fps_converter_none, bind_ret_l in Ha. cbn in Ha.
    injection Ha as <-. rewrite Hconv.
    split; [| split; [reflexivity |]].
    - now rewrite outcome_bind, Hp, outcome_bind, Hz, outcome_bind, Hn,
        outcome_bind, Hi.
    - apply in_logged_bind_r with (a := p); [assumption |].
      apply in_logged_bind_r with (a := z); [assumption |].
      apply in_logged_bind_r with (a := n); [assumption |].
      apply in_logged_bind_r with (a := i); [assumption |].
      now left. }
  destruct Ha' as (Hout & Hfps & Hin).
  split; [| split].
  - now rewrite outcome_bind, Hout.
  - apply outcome_bind_inr in H as ([] & Hv & H).
    apply BboxesFacts.bboxes_run_validators_inv in Hv as (a & n0 & n1 & Hv).
    rewrite (BboxesFacts.bboxes_post_init_eq _ _ _ _ Hv) in H.
    cbn in H. injection H as <-. exact Hfps.
  - now apply in_logged_bind_l.
Qed.

(** C8. A frame rate that [float] coerces to a number not above zero does
    not block construction: the converter logs a warning and yields
    [None], and the call succeeds with the very record it gives without
    the keyword, whose [fps] is [None]. An absent frame rate passes
    through as [None] and logs nothing. *)
Theorem nonpositive_fps_is_dropped (B : builtins) (v : pyval)
  (f : spec_float) :
  outcome (py_float B v) = inr f -> le_zero f = true ->
  fps_converter B v = ([LogWarning (InvalidFps f)], inr None) /\
  fps_converter B (with_default_none None) = ([], inr None) /\
  (forall (kw : ValidPosesDataset.kwargs) (r : ValidPosesDataset.t),
     outcome (ValidPosesDataset.__init__ B
                (ValidPosesDataset.with_fps kw None)) = inr r ->
     outcome (ValidPosesDataset.__init__ B
                (ValidPosesDataset.with_fps kw (Some v))) = inr r /\
     ValidPosesDataset.fps r = None /\
     In (LogWarning (InvalidFps f))
        (logged (ValidPosesDataset.__init__ B
                   (ValidPosesDataset.with_fps kw (Some v))))) /\
  (forall (kw : ValidBboxesDataset.kwargs) (r : ValidBboxesDataset.t),
     outcome (ValidBboxesDataset.__init__ B
                (ValidBboxesDataset.with_fps kw None)) = inr r ->
     outcome (ValidBboxesDataset.__init__ B
                (ValidBboxesDataset.with_fps kw (Some v))) = inr r /\
     ValidBboxesDataset.fps r = None /\
     In (LogWarning (InvalidFps f))
        (logged (ValidBboxesDataset.__init__ B
                   (ValidBboxesDataset.with_fps kw (Some v))))).
Proof.
  intros Hf Hle.
  pose proof (fps_converter_le_zero B v f Hf Hle) as Hconv.
  split; [exact Hconv | split; [reflexivity | split]].
  - intros kw r. now apply poses_dropped_fps.
  - intros kw r. now apply bboxes_dropped_fps.
Qed.

(** [frameRate=-5] through the spec's example call. *)
Lemma nonpositive_fps_is_dropped_witness :
  outcome (py_float demo_builtins (PInt (-5)))
  = inr (S754_finite true 5629499534213120 (-50)) /\
  le_zero (S754_finite true 5629499534213120 (-50)) = true /\
  exists r,
    outcome (ValidPosesDataset.__init__ demo_builtins
               (ValidPosesDataset.with_fps
                  (ValidPosesDataset.only_position example_position)
                  (Some (PInt (-5))))) = inr r /\
    ValidPosesDataset.fps r = None.
Proof.
  split; [reflexivity | split; [reflexivity |]].
  destruct (proj1 (proj2 (proj2
              (nonpositive_fps_is_dropped demo_builtins (PInt (-5))
                 (S754_finite true 5629499534213120 (-50))
                 eq_refl eq_refl)))
              (ValidPosesDataset.only_position example_position)
              {| ValidPosesDataset.position_array := PArray example_position;
                 ValidPosesDataset.confidence_array :=
                   PArray (np_full_nan [10; 2; 3]);
                 ValidPosesDataset.individual_names :=
                   Some ["individual_0"; "individual_1"];
                 ValidPosesDataset.keypoint_names :=
                   Some ["keypoint_0"; "keypoint_1"; "keypoint_2"];
                 ValidPosesDataset.fps := None;
                 ValidPosesDataset.source_software := PNone |}
              eq_refl) as (H & Hfps & _).
  eexists. split; [exact H | exact Hfps].
Defined.

(** C9. Validation is idempotent: the fields of a successfully constructed
    record, passed again to the same validator, construct the same record,
    and this second run logs nothing (no default is filled in, no warning
    is raised). *)
Theorem revalidation_is_identity (B : builtins) :
  (forall (kw : ValidPosesDataset.kwargs) (r : ValidPosesDataset.t),
     outcome (ValidPosesDataset.__init__ B kw) = inr r ->
     ValidPosesDataset.__init__ B (ValidPosesDataset.as_kwargs r)
     = ([], inr r)) /\
  (forall (kw : ValidBboxesDataset.kwargs) (r : ValidBboxesDataset.t),
     outcome (ValidBboxesDataset.__init__ B kw) = inr r ->
     ValidBboxesDataset.__init__ B (ValidBboxesDataset.as_kwargs r)
     = ([], inr r)).
Proof.
  split.
  - intros kw r H. apply PosesFacts.init_of_constructed.
    now apply (PosesFacts.init_constructed B kw).
  - intros kw r H. apply BboxesFacts.bboxes_init_of_constructed.
    now apply (BboxesFacts.bboxes_init_constructed B kw).
Qed.

Lemma revalidation_is_identity_witness :
  ValidPosesDataset.__init__ demo_builtins
    (ValidPosesDataset.as_kwargs
       {| ValidPosesDataset.position_array := PArray example_position;
          ValidPosesDataset.confidence_array :=
            PArray (np_full_nan [10; 2; 3]);
          ValidPosesDataset.individual_names :=
            Some ["individual_0"; "individual_1"];
          ValidPosesDataset.keypoint_names :=
            Some ["keypoint_0"; "keypoint_1"; "keypoint_2"];
          ValidPosesDataset.fps := None;
          ValidPosesDataset.source_software := PNone |})
  = ([], inr {| ValidPosesDataset.position_array := PArray example_position;
                ValidPosesDataset.confidence_array :=
                  PArray (np_full_nan [10; 2; 3]);
                ValidPosesDataset.individual_names :=
                  Some ["individual_0"; "individual_1"];
                ValidPosesDataset.keypoint_names :=
                  Some ["keypoint_0"; "keypoint_1"; "keypoint_2"];
                ValidPosesDataset.fps := None;
                ValidPosesDataset.source_software := PNone |}).
Proof.
  apply (proj1 (revalidation_is_identity demo_builtins)
           (ValidPosesDataset.only_position example_position)).
  reflexivity.
Defined.

(** C10. Bounding-box construction relates [shape_array] to nothing: each
    of the two arrays must have rank 3 and last axis 2, the names are
    counted against the position array and the confidence default takes
    its shape from the position array. So any such pair, also one with
    different frame and box counts, is accepted. *)
Theorem bboxes_size_unrelated_to_position (B : builtins)
  (position size : ndarray) (names : list string) (n0 n1 m0 m1 : nat) :
  shape position = [n0; n1; 2] -> shape size = [m0; m1; 2] ->
  List.length names = n1 ->
  ValidBboxesDataset.__init__ B
    (ValidBboxesDataset.only_required position size (of_str_list names))
  = ([LogWarning NoConfidence],
     inr {| ValidBboxesDataset.position_array := PArray position;
            ValidBboxesDataset.shape_array := PArray size;
            ValidBboxesDataset.individual_names := Some names;
            ValidBboxesDataset.confidence_array :=
              PArray (np_full_nan [n0; n1]);
            ValidBboxesDataset.fps := None;
            ValidBboxesDataset.source_software := PNone |}).
Proof.
  intros Hp Hs Hn.
  unfold ValidBboxesDataset.__init__, ValidBboxesDataset.assign_fields,
    ValidBboxesDataset.only_required.
  cbn [ValidBboxesDataset.kw_position_array ValidBboxesDataset.kw_shape_array
       ValidBboxesDataset.kw_individual_names
       ValidBboxesDataset.kw_confidence_array ValidBboxesDataset.kw_fps
       ValidBboxesDataset.kw_source_software].
  run. rewrite optional_of_str_list. run.
  rewrite fps_converter_none. run.
  set (self := {| ValidBboxesDataset.position_array := PArray position |}).
  assert (Hv : ValidBboxesDataset.validated self position n0 n1).
  { split; cbn; try (assumption || reflexivity).
    - now exists size, m0, m1.
    - now intros l [= <-].
    - now left.
    - now left. }
  rewrite (BboxesFacts.bboxes_run_validators_ok _ _ _ _ Hv). run.
  now rewrite (BboxesFacts.bboxes_post_init_eq _ _ _ _ Hv).
Qed.

Lemma bboxes_size_unrelated_to_position_witness :
  removelast (shape (zeros [5; 2; 2])) <> removelast (shape (zeros [7; 3; 2]))
  /\ succeeds
       (ValidBboxesDataset.__init__ demo_builtins
          (ValidBboxesDataset.only_required (zeros [5; 2; 2])
             (zeros [7; 3; 2]) (of_str_list ["id_1"; "id_2"]))).
Proof.
  split; [discriminate |].
  eexists.
  rewrite (bboxes_size_unrelated_to_position demo_builtins
             (zeros [5; 2; 2]) (zeros [7; 3; 2]) ["id_1"; "id_2"] 5 2 7 3
             eq_refl eq_refl eq_refl).
  reflexivity.
Defined.

(** * Further properties *)

(** ** Failing stages *)

Lemma fails_bind_l {A X} (m : M A) (k : A -> M X) :
  fails m -> fails (bind m k).
Proof. intros [e He]. exists e. now rewrite outcome_bind, He. Qed.

Lemma fails_bind_r {A X} (m : M A) (k : A -> M X) :
  (forall a, outcome m = inr a -> fails (k a)) -> fails (bind m k).
Proof.
  intros H. unfold fails. rewrite outcome_bind.
  destruct (outcome m) as [e | a]; [now exists e |].
  now apply H.
Qed.

Lemma fails_raise_log_error {A} (e : exn) : fails (@raise_log_error A e).
Proof. now exists e. Qed.

Lemma poses_init_fails (B : builtins) (kw : ValidPosesDataset.kwargs) :
  (forall self,
     outcome (ValidPosesDataset.assign_fields B kw) = inr self ->
     fails (ValidPosesDataset.run_validators B self)) ->
  fails (ValidPosesDataset.__init__ B kw).
Proof.
  intros H. unfold ValidPosesDataset.__init__.
  apply fails_bind_r. intros self Ha.
  apply fails_bind_l. now apply H.
Qed.

Lemma bboxes_init_fails (B : builtins) (kw : ValidBboxesDataset.kwargs) :
  (forall self,
     outcome (ValidBboxesDataset.assign_fields B kw) = inr self ->
     fails (ValidBboxesDataset.run_validators self)) ->
  fails (ValidBboxesDataset.__init__ B kw).
Proof.
  intros H. unfold ValidBboxesDataset.__init__.
  apply fails_bind_r. intros self Ha.
  apply fails_bind_l. now apply H.
Qed.

Lemma bboxes_init_validators_error (B : builtins)
  (kw : ValidBboxesDataset.kwargs) (self : ValidBboxesDataset.t) (e : exn) :
  outcome (ValidBboxesDataset.assign_fields B kw) = inr self ->
  ValidBboxesDataset.run_validators self = raise_log_error e ->
  outcome (ValidBboxesDataset.__init__ B kw) = inl e /\
  In (LogError e) (logged (ValidBboxesDataset.__init__ B kw)).
Proof.
  intros Ha Hv. split.
  - now rewrite (BboxesFacts.bboxes_init_outcome _ _ _ Ha), Hv.
  - unfold ValidBboxesDataset.__init__.
    apply in_logged_bind_r with (a := self); [assumption |].
    apply in_logged_bind_l. rewrite Hv. now left.
Qed.

(** A failure of the first validator, seen from the call. *)
Lemma poses_first_validator_error (B : builtins)
  (kw : ValidPosesDataset.kwargs) (v : pyval) (e : string -> exn) :
  ValidPosesDataset.kw_position_array kw = Some v ->
  (forall self attribute,
     ValidPosesDataset._validate_position_array self attribute v
     = raise_log_error (e attribute)) ->
  fails (ValidPosesDataset.__init__ B kw) /\
  (succeeds (ValidPosesDataset.assign_fields B kw) ->
   outcome (ValidPosesDataset.__init__ B kw) = inl (e "position_array") /\
   In (LogError (e "position_array"))
      (logged (ValidPosesDataset.__init__ B kw))).
Proof.
  intros Hkw He.
  assert (Hrun : forall self,
            outcome (ValidPosesDataset.assign_fields B kw) = inr self ->
            ValidPosesDataset.run_validators B self
            = raise_log_error (e "position_array")).
  { intros self Ha.
    apply PosesFacts.assign_fields_inv in Ha as (Hp & _).
    apply PosesFacts.run_validators_position_error.
    rewrite Hkw in Hp. injection Hp as <-. apply He. }
  split.
  - apply poses_init_fails. intros self Ha.
    rewrite (Hrun self Ha). apply fails_raise_log_error.
  - intros [self Ha].
    now apply PosesFacts.init_validators_error with (self := self); auto.
Qed.

Lemma bboxes_first_validator_error (B : builtins)
  (kw : ValidBboxesDataset.kwargs) (v : pyval) (e : string -> exn) :
  ValidBboxesDataset.kw_position_array kw = Some v ->
  (forall self attribute,
     ValidBboxesDataset._validate_centroid_position_and_shape_arrays
       self attribute v = raise_log_error (e attribute)) ->
  fails (ValidBboxesDataset.__init__ B kw) /\
  (succeeds (ValidBboxesDataset.assign_fields B kw) ->
   outcome (ValidBboxesDataset.__init__ B kw) = inl (e "position_array") /\
   In (LogError (e "position_array"))
      (logged (ValidBboxesDataset.__init__ B kw))).
Proof.
  intros Hkw He.
  assert (Hrun : forall self,
            outcome (ValidBboxesDataset.assign_fields B kw) = inr self ->
            ValidBboxesDataset.run_validators self
            = raise_log_error (e "position_array")).
  { intros self Ha.
    apply BboxesFacts.bboxes_assign_fields_inv in Ha as (Hp & _).
    rewrite Hkw in Hp. injection Hp as Hp.
    unfold ValidBboxesDataset.run_validators.
    now rewrite <- Hp, He. }
  split.
  - apply bboxes_init_fails. intros self Ha.
    rewrite (Hrun self Ha). apply fails_raise_log_error.
  - intros [self Ha].
    now apply bboxes_init_validators_error with (self := self); auto.
Qed.

Lemma bboxes_validate_arrays_not_array (self : ValidBboxesDataset.t)
  (attribute : string) (v : pyval) :
  (forall a, v <> PArray a) ->
  ValidBboxesDataset._validate_centroid_position_and_shape_arrays
    self attribute v = raise_log_error (NotNdarray v).
Proof.
  intros H. destruct v; try reflexivity. now destruct (H a).
Qed.

(** X1. A position value that is not a numpy array makes either
    construction fail; whenever the converters of the other fields pass,
    the failure is the logged not-an-array error. *)
Theorem position_must_be_ndarray (B : builtins) (v : pyval) :
  (forall a, v <> PArray a) ->
  (forall kw : ValidPosesDataset.kwargs,
     ValidPosesDataset.kw_position_array kw = Some v ->
     fails (ValidPosesDataset.__init__ B kw) /\
     (succeeds (ValidPosesDataset.assign_fields B kw) ->
      outcome (ValidPosesDataset.__init__ B kw) = inl (NotNdarray v) /\
      In (LogError (NotNdarray v))
         (logged (ValidPosesDataset.__init__ B kw)))) /\
  (forall kw : ValidBboxesDataset.kwargs,
     ValidBboxesDataset.kw_position_array kw = Some v ->
     fails (ValidBboxesDataset.__init__ B kw) /\
     (succeeds (ValidBboxesDataset.assign_fields B kw) ->
      outcome (ValidBboxesDataset.__init__ B kw) = inl (NotNdarray v) /\
      In (LogError (NotNdarray v))
         (logged (ValidBboxesDataset.__init__ B kw)))).
Proof.
  intros Hv. split; intros kw Hkw.
  - apply (poses_first_validator_error B kw v (fun _ => NotNdarray v) Hkw).
    intros self attribute.
    now apply PosesFacts.validate_position_array_not_array.
  - apply (bboxes_first_validator_error B kw v (fun _ => NotNdarray v) Hkw).
    intros self attribute.
    now apply bboxes_validate_arrays_not_array.
Qed.

Lemma position_must_be_ndarray_witness :
  outcome (ValidPosesDataset.__init__ demo_builtins
             (ValidPosesDataset.Build_kwargs
                (Some (PList [PInt 1; PInt 2])) None None None None None))
  = inl (NotNdarray (PList [PInt 1; PInt 2])).
Proof.
  apply (proj1 (position_must_be_ndarray demo_builtins
                  (PList [PInt 1; PInt 2]) ltac:(discriminate))
           (ValidPosesDataset.Build_kwargs
              (Some (PList [PInt 1; PInt 2])) None None None None None)
           eq_refl).
  eexists. reflexivity.
Defined.

(** X2. The array arguments have no default: a call that leaves
    [position_array] out (or, for bounding boxes, [shape_array]) raises the
    missing-keyword error at once: no converter or validator has run and
    nothing is logged, whatever the other arguments are. *)
Theorem required_arrays_missing (B : builtins) :
  (forall kw : ValidPosesDataset.kwargs,
     ValidPosesDataset.kw_position_array kw = None ->
     ValidPosesDataset.__init__ B kw
     = raise (MissingKeyword "position_array")) /\
  (forall kw : ValidBboxesDataset.kwargs,
     ValidBboxesDataset.kw_position_array kw = None ->
     ValidBboxesDataset.__init__ B kw
     = raise (MissingKeyword "position_array")) /\
  (forall kw : ValidBboxesDataset.kwargs,
     ValidBboxesDataset.kw_position_array kw <> None ->
     ValidBboxesDataset.kw_shape_array kw = None ->
     ValidBboxesDataset.__init__ B kw
     = raise (MissingKeyword "shape_array")).
Proof.
  split; [| split].
  - intros kw H.
    unfold ValidPosesDataset.__init__, ValidPosesDataset.assign_fields.
    now rewrite H.
  - intros kw H.
    unfold ValidBboxesDataset.__init__, ValidBboxesDataset.assign_fields.
    now rewrite H.
  - intros kw Hp H.
    unfold ValidBboxesDataset.__init__, ValidBboxesDataset.assign_fields.
    destruct (ValidBboxesDataset.kw_position_array kw) as [p |];
      [| contradiction].
    rewrite H. cbn [required]. now rewrite bind_ret_l.
Qed.

Lemma required_arrays_missing_witness :
  ValidPosesDataset.__init__ demo_builtins
    (ValidPosesDataset.Build_kwargs None None (Some (PInt 5)) None None None)
  = raise (MissingKeyword "position_array").
Proof.
  apply (proj1 (required_arrays_missing demo_builtins)
           (ValidPosesDataset.Build_kwargs None None (Some (PInt 5)) None
              None None)).
  reflexivity.
Defined.

(** X3. Converters run before validators: individual names that are
    neither a string nor iterable end construction with the logged
    invalid-value error as the only log record, before any array is
    looked at. The position array may be anything. *)
Theorem names_converter_runs_first (B : builtins) (v : pyval) :
  v <> PNone -> is_iterable v = false ->
  (forall kw : ValidPosesDataset.kwargs,
     ValidPosesDataset.kw_position_array kw <> None ->
     ValidPosesDataset.kw_individual_names kw = Some v ->
     ValidPosesDataset.__init__ B kw
     = ([LogError (InvalidListOfStr v)], inl (InvalidListOfStr v))) /\
  (forall kw : ValidBboxesDataset.kwargs,
     ValidBboxesDataset.kw_position_array kw <> None ->
     ValidBboxesDataset.kw_shape_array kw <> None ->
     ValidBboxesDataset.kw_individual_names kw = Some v ->
     ValidBboxesDataset.__init__ B kw
     = ([LogError (InvalidListOfStr v)], inl (InvalidListOfStr v))).
Proof.
  intros Hnone Hit.
  assert (Hconv : optional (_list_of_str B) v
                  = raise_log_error (InvalidListOfStr v)).
  { destruct v; try discriminate Hit; try reflexivity. contradiction. }
  split.
  - intros kw Hp Hn.
    unfold ValidPosesDataset.__init__, ValidPosesDataset.assign_fields.
    destruct (ValidPosesDataset.kw_position_array kw) as [p |];
      [| contradiction].
    rewrite Hn. cbn [required with_default_none].
    now rewrite bind_ret_l, Hconv.
  - intros kw Hp Hs Hn.
    unfold ValidBboxesDataset.__init__, ValidBboxesDataset.assign_fields.
    destruct (ValidBboxesDataset.kw_position_array kw) as [p |];
      [| contradiction].
    destruct (ValidBboxesDataset.kw_shape_array kw) as [z |];
      [| contradiction].
    rewrite Hn. cbn [required].
    now rewrite !bind_ret_l, Hconv.
Qed.

Lemma names_converter_runs_first_witness :
  ValidPosesDataset.__init__ demo_builtins
    (ValidPosesDataset.Build_kwargs (Some (PStr "not an array")) None
       (Some (PInt 5)) None None None)
  = ([LogError (InvalidListOfStr (PInt 5))], inl (InvalidListOfStr (PInt 5))).
Proof.
  apply (proj1 (names_converter_runs_first demo_builtins (PInt 5)
                  ltac:(discriminate) eq_refl)
           (ValidPosesDataset.Build_kwargs (Some (PStr "not an array")) None
              (Some (PInt 5)) None None None)).
  - discriminate.
  - reflexivity.
Defined.

(** X4. The centroid array of a bounding-box call must have rank 3 and a
    last axis of exactly 2 (a last axis of 3 is refused, unlike for
    poses). Otherwise construction fails, with the logged rank or
    spatial-coordinate error of [position_array] whenever the converters
    pass. *)
Theorem bboxes_rejects_bad_position (B : builtins)
  (kw : ValidBboxesDataset.kwargs) (a : ndarray) :
  ValidBboxesDataset.kw_position_array kw = Some (PArray a) ->
  (ndim a <> 3 ->
   fails (ValidBboxesDataset.__init__ B kw) /\
   (succeeds (ValidBboxesDataset.assign_fields B kw) ->
    outcome (ValidBboxesDataset.__init__ B kw)
    = inl (WrongNdim "position_array" 3 (ndim a)) /\
    In (LogError (WrongNdim "position_array" 3 (ndim a)))
       (logged (ValidBboxesDataset.__init__ B kw)))) /\
  (ndim a = 3 -> last (shape a) 0 <> 2 ->
   fails (ValidBboxesDataset.__init__ B kw) /\
   (succeeds (ValidBboxesDataset.assign_fields B kw) ->
    outcome (ValidBboxesDataset.__init__ B kw)
    = inl (WrongSpatial "position_array" (last (shape a) 0)) /\
    In (LogError (WrongSpatial "position_array" (last (shape a) 0)))
       (logged (ValidBboxesDataset.__init__ B kw)))).
Proof.
  intros Hkw. split.
  - intros Hn.
    apply (bboxes_first_validator_error B kw (PArray a)
             (fun attribute => WrongNdim attribute 3 (ndim a)) Hkw).
    intros self attribute.
    now apply BboxesFacts.bboxes_validate_arrays_ndim.
  - intros H3 H2.
    apply (bboxes_first_validator_error B kw (PArray a)
             (fun attribute => WrongSpatial attribute (last (shape a) 0))
             Hkw).
    intros self attribute.
    now apply BboxesFacts.bboxes_validate_arrays_spatial.
Qed.

Lemma bboxes_rejects_bad_position_witness :
  outcome (ValidBboxesDataset.__init__ demo_builtins
             (ValidBboxesDataset.only_required (zeros [5; 2; 3])
                (zeros [5; 2; 2]) (of_str_list ["id_1"; "id_2"])))
  = inl (WrongSpatial "position_array" 3).
Proof.
  apply (proj2 (bboxes_rejects_bad_position demo_builtins
                  (ValidBboxesDataset.only_required (zeros [5; 2; 3])
                     (zeros [5; 2; 2]) (of_str_list ["id_1"; "id_2"]))
                  (zeros [5; 2; 3]) eq_refl)).
  - reflexivity.
  - discriminate.
  - eexists. reflexivity.
Defined.

(** X5. [shape_array] goes through the same check as the centroid array,
    under its own name and after it: with a valid centroid array, a size
    array that is not an array, not of rank 3, or whose last axis is not 2
    makes construction fail with the corresponding logged error of
    [shape_array] whenever the converters pass. *)
Theorem bboxes_rejects_bad_size (B : builtins)
  (kw : ValidBboxesDataset.kwargs) (a : ndarray) (n0 n1 : nat)
  (z : pyval) (e : exn) :
  ValidBboxesDataset.kw_position_array kw = Some (PArray a) ->
  shape a = [n0; n1; 2] ->
  ValidBboxesDataset.kw_shape_array kw = Some z ->
  ((forall s, z <> PArray s) /\ e = NotNdarray z) \/
  (exists s, z = PArray s /\ ndim s <> 3 /\
             e = WrongNdim "shape_array" 3 (ndim s)) \/
  (exists s, z = PArray s /\ ndim s = 3 /\ last (shape s) 0 <> 2 /\
             e = WrongSpatial "shape_array" (last (shape s) 0)) ->
  fails (ValidBboxesDataset.__init__ B kw) /\
  (succeeds (ValidBboxesDataset.assign_fields B kw) ->
   outcome (ValidBboxesDataset.__init__ B kw) = inl e /\
   In (LogError e) (logged (ValidBboxesDataset.__init__ B kw))).
Proof.
  intros Hp Hs Hz Hcase.
  assert (Hsize : forall self,
            ValidBboxesDataset._validate_centroid_position_and_shape_arrays
              self "shape_array" z = raise_log_error e).
  { intros self.
    destruct Hcase as [(Hna & ->) | [(s & -> & Hn & ->)
                                    | (s & -> & H3 & H2 & ->)]].
    - now apply bboxes_validate_arrays_not_array.
    - now apply BboxesFacts.bboxes_validate_arrays_ndim.
    - now apply BboxesFacts.bboxes_validate_arrays_spatial. }
  assert (Hrun : forall self,
            outcome (ValidBboxesDataset.assign_fields B kw) = inr self ->
            ValidBboxesDataset.run_validators self = raise_log_error e).
  { intros self Ha.
    apply BboxesFacts.bboxes_assign_fields_inv in Ha as (Hp' & Hz' & _).
    rewrite Hp in Hp'. injection Hp' as Hp'.
    rewrite Hz in Hz'. injection Hz' as Hz'.
    unfold ValidBboxesDataset.run_validators.
    rewrite <- Hp', (BboxesFacts.bboxes_validate_arrays_ok _ _ a n0 n1 Hs).
    now rewrite bind_ret_l, <- Hz', Hsize. }
  split.
  - apply bboxes_init_fails. intros self Ha.
    rewrite (Hrun self Ha). apply fails_raise_log_error.
  - intros [self Ha].
    now apply bboxes_init_validators_error with (self := self); auto.
Qed.

Lemma bboxes_rejects_bad_size_witness :
  outcome (ValidBboxesDataset.__init__ demo_builtins
             (ValidBboxesDataset.only_required (zeros [5; 2; 2])
                (zeros [5; 2]) (of_str_list ["id_1"; "id_2"])))
  = inl (WrongNdim "shape_array" 3 2).
Proof.
  apply (bboxes_rejects_bad_size demo_builtins
           (ValidBboxesDataset.only_required (zeros [5; 2; 2])
              (zeros [5; 2]) (of_str_list ["id_1"; "id_2"]))
           (zeros [5; 2; 2]) 5 2 (PArray (zeros [5; 2]))
           (WrongNdim "shape_array" 3 2) eq_refl eq_refl eq_refl).
  - right. left. exists (zeros [5; 2]).
    split; [reflexivity | split; [discriminate | reflexivity]].
  - eexists. reflexivity.
Defined.

(** X6. Box names are counted against the second axis of the centroid
    array, and for bounding boxes there is no exception for any source
    software: with valid arrays, supplied names that coerce to a list of
    another length make construction fail with the logged length error,
    whenever the converters pass. *)
Theorem bboxes_names_counted (B : builtins) (kw : ValidBboxesDataset.kwargs)
  (a s : ndarray) (n0 n1 m0 m1 : nat) (v : pyval) (l : list string) :
  ValidBboxesDataset.kw_position_array kw = Some (PArray a) ->
  shape a = [n0; n1; 2] ->
  ValidBboxesDataset.kw_shape_array kw = Some (PArray s) ->
  shape s = [m0; m1; 2] ->
  ValidBboxesDataset.kw_individual_names kw = Some v ->
  outcome (_list_of_str B v) = inr l ->
  List.length l <> n1 ->
  fails (ValidBboxesDataset.__init__ B kw) /\
  (succeeds (ValidBboxesDataset.assign_fields B kw) ->
   outcome (ValidBboxesDataset.__init__ B kw)
   = inl (WrongLength "individual_names" n1 (List.length l)) /\
   In (LogError (WrongLength "individual_names" n1 (List.length l)))
      (logged (ValidBboxesDataset.__init__ B kw))).
Proof.
  intros Hp Hs Hz Hzs Hn Hl Hlen.
  assert (Hrun : forall self,
            outcome (ValidBboxesDataset.assign_fields B kw) = inr self ->
            ValidBboxesDataset.run_validators self
            = raise_log_error
                (WrongLength "individual_names" n1 (List.length l))).
  { intros self Ha.
    apply BboxesFacts.bboxes_assign_fields_inv in Ha
      as (Hp' & Hz' & (names & Hnames & Hconv) & _).
    rewrite Hp in Hp'. injection Hp' as Hp'.
    rewrite Hz in Hz'. injection Hz' as Hz'.
    rewrite Hn in Hnames. injection Hnames as <-.
    assert (Hsome : ValidBboxesDataset.individual_names self = Some l).
    { destruct v; try discriminate Hl;
        cbn [optional] in Hconv; rewrite outcome_bind, Hl in Hconv;
        cbn in Hconv; congruence. }
    unfold ValidBboxesDataset.run_validators.
    rewrite <- Hp', (BboxesFacts.bboxes_validate_arrays_ok _ _ a n0 n1 Hs).
    rewrite bind_ret_l, <- Hz',
      (BboxesFacts.bboxes_validate_arrays_ok _ _ s m0 m1 Hzs).
    rewrite bind_ret_l.
    rewrite BboxesFacts.bboxes_validate_individual_names_eq
      with (a := a) (n1 := n1)
      by solve [now symmetry | now rewrite Hs].
    rewrite Hsome. now rewrite validate_list_length_bad. }
  split.
  - apply bboxes_init_fails. intros self Ha.
    rewrite (Hrun self Ha). apply fails_raise_log_error.
  - intros [self Ha].
    now apply bboxes_init_validators_error with (self := self); auto.
Qed.

Lemma bboxes_names_counted_witness :
  outcome (ValidBboxesDataset.__init__ demo_builtins
             (ValidBboxesDataset.Build_kwargs
                (Some (PArray (zeros [5; 2; 2])))
                (Some (PArray (zeros [5; 2; 2])))
                (Some (PStr "only_one")) None None
                (Some (PStr "LightningPose"))))
  = inl (WrongLength "individual_names" 2 1).
Proof.
  apply (bboxes_names_counted demo_builtins
           (ValidBboxesDataset.Build_kwargs
              (Some (PArray (zeros [5; 2; 2])))
              (Some (PArray (zeros [5; 2; 2])))
              (Some (PStr "only_one")) None None
              (Some (PStr "LightningPose")))
           (zeros [5; 2; 2]) (zeros [5; 2; 2]) 5 2 5 2
           (PStr "only_one") ["only_one"]
           eq_refl eq_refl eq_refl eq_refl eq_refl eq_refl).
  - discriminate.
  - eexists. reflexivity.
Defined.

(** X7. Keypoint names are counted against the third axis of the position
    array: with a valid position array, supplied keypoint names that
    coerce to a list of another length make construction fail, and the
    failure is the logged length error of [keypoint_names] once the
    confidence array and the individual names pass their checks. *)
Theorem poses_keypoints_counted (B : builtins)
  (kw : ValidPosesDataset.kwargs) (a : ndarray) (n0 n1 n2 d : nat)
  (v : pyval) (l : list string) :
  ValidPosesDataset.kw_position_array kw = Some (PArray a) ->
  shape a = [n0; n1; n2; d] -> d = 2 \/ d = 3 ->
  ValidPosesDataset.kw_keypoint_names kw = Some v ->
  outcome (_list_of_str B v) = inr l ->
  List.length l <> n2 ->
  fails (ValidPosesDataset.__init__ B kw) /\
  (forall self,
     outcome (ValidPosesDataset.assign_fields B kw) = inr self ->
     outcome (ValidPosesDataset._validate_confidence_array self
                "confidence_array"
                (ValidPosesDataset.confidence_array self)) = inr tt ->
     outcome (ValidPosesDataset._validate_individual_names B self
                "individual_names"
                (ValidPosesDataset.individual_names self)) = inr tt ->
     outcome (ValidPosesDataset.__init__ B kw)
     = inl (WrongLength "keypoint_names" n2 (List.length l))).
Proof.
  intros Hp Hs Hd Hk Hl Hlen.
  assert (Hkp : forall self,
            outcome (ValidPosesDataset.assign_fields B kw) = inr self ->
            ValidPosesDataset._validate_position_array self "position_array"
              (ValidPosesDataset.position_array self) = ret tt /\
            ValidPosesDataset._validate_keypoint_names self "keypoint_names"
              (ValidPosesDataset.keypoint_names self)
            = raise_log_error
                (WrongLength "keypoint_names" n2 (List.length l))).
  { intros self Ha.
    apply PosesFacts.assign_fields_inv in Ha as (Hp' & _ & _ & Hk' & _).
    rewrite Hp in Hp'. injection Hp' as Hp'.
    rewrite Hk in Hk'. cbn in Hk'.
    assert (Hsome : ValidPosesDataset.keypoint_names self = Some l).
    { destruct v; try discriminate Hl;
        cbn [optional] in Hk'; rewrite outcome_bind, Hl in Hk';
        cbn in Hk'; congruence. }
    split.
    - rewrite <- Hp'.
      now apply PosesFacts.validate_position_array_ok with (1 := Hs).
    - rewrite PosesFacts.validate_keypoint_names_eq
        with (a := a) (n2 := n2)
        by solve [now symmetry | now rewrite Hs].
      rewrite Hsome. now apply validate_list_length_bad. }
  split.
  - apply poses_init_fails. intros self Ha.
    destruct (Hkp self Ha) as (Hpos & Hkey).
    unfold ValidPosesDataset.run_validators.
    rewrite Hpos, bind_ret_l.
    apply fails_bind_r. intros [] _.
    apply fails_bind_r. intros [] _.
    apply fails_bind_l. rewrite Hkey. apply fails_raise_log_error.
  - intros self Ha Hconf Hnames.
    destruct (Hkp self Ha) as (Hpos & Hkey).
    rewrite (PosesFacts.init_outcome B kw self Ha).
    unfold ValidPosesDataset.run_validators.
    rewrite Hpos, bind_ret_l.
    now rewrite outcome_bind, Hconf, outcome_bind, Hnames, outcome_bind,
      Hkey.
Qed.

Lemma poses_keypoints_counted_witness :
  outcome (ValidPosesDataset.__init__ demo_builtins
             (ValidPosesDataset.Build_kwargs
                (Some (PArray example_position)) None None
                (Some (PList [PStr "snout"; PStr "tail"])) None None))
  = inl (WrongLength "keypoint_names" 3 2).
Proof.
  apply (proj2 (poses_keypoints_counted demo_builtins
                  (ValidPosesDataset.Build_kwargs
                     (Some (PArray example_position)) None None
                     (Some (PList [PStr "snout"; PStr "tail"])) None None)
                  example_position 10 2 3 2
                  (PList [PStr "snout"; PStr "tail"]) ["snout"; "tail"]
                  eq_refl eq_refl (or_introl eq_refl) eq_refl eq_refl
                  ltac:(discriminate))
           {| ValidPosesDataset.position_array := PArray example_position;
              ValidPosesDataset.confidence_array := PNone;
              ValidPosesDataset.individual_names := None;
              ValidPosesDataset.keypoint_names := Some ["snout"; "tail"];
              ValidPosesDataset.fps := None;
              ValidPosesDataset.source_software := PNone |});
    reflexivity.
Defined.

(** ** What a constructed record satisfies *)

(** X8. Every record that poses construction returns is fully populated
    and consistent: the position array has rank 4 and a last axis of 2 or
    3, the confidence array is an array of the position's shape without
    its last axis, the keypoint names are as many as the third axis, the
    individual names are as many as the second axis (exactly one when the
    source software is LightningPose), the source software is a string or
    [None], and a stored frame rate is not [<= 0]. *)
Theorem poses_record_invariant (B : builtins)
  (kw : ValidPosesDataset.kwargs) (r : ValidPosesDataset.t) :
  outcome (ValidPosesDataset.__init__ B kw) = inr r ->
  exists a c inames knames n0 n1 n2 d,
    ValidPosesDataset.position_array r = PArray a /\
    shape a = [n0; n1; n2; d] /\ (d = 2 \/ d = 3) /\
    ValidPosesDataset.confidence_array r = PArray c /\
    shape c = [n0; n1; n2] /\
    ValidPosesDataset.individual_names r = Some inames /\
    List.length inames
    = (if eq_str (ValidPosesDataset.source_software r) "LightningPose"
       then 1 else n1) /\
    ValidPosesDataset.keypoint_names r = Some knames /\
    List.length knames = n2 /\
    (ValidPosesDataset.source_software r = PNone \/
     exists s, ValidPosesDataset.source_software r = PStr s) /\
    (forall f, ValidPosesDataset.fps r = Some f -> le_zero f = false).
Proof.
  intros H. apply PosesFacts.init_constructed in H.
  destruct H as [(a & n0 & n1 & n2 & d & Hv) (c & Hc) (l & Hl) (k & Hk) Hf].
  destruct Hv as [Hp Hs Hd Hconf Hi Hkp Hw].
  exists a, c, l, k, n0, n1, n2, d.
  repeat split; try assumption.
  - destruct Hconf as [Hn | (c' & Hc' & Hcs)]; congruence.
  - now apply Hi.
  - now apply Hkp.
Qed.

Lemma poses_record_invariant_witness :
  exists a c inames knames n0 n1 n2 d,
    PArray example_position = PArray a /\
    shape a = [n0; n1; n2; d] /\ (d = 2 \/ d = 3) /\
    PArray (np_full_nan [10; 2; 3]) = PArray c /\
    shape c = [n0; n1; n2] /\
    Some ["individual_0"; "individual_1"] = Some inames /\
    List.length inames = (if eq_str PNone "LightningPose" then 1 else n1) /\
    Some ["keypoint_0"; "keypoint_1"; "keypoint_2"] = Some knames /\
    List.length knames = n2 /\
    (PNone = PNone \/ exists s, PNone = PStr s) /\
    (forall f, @None spec_float = Some f -> le_zero f = false).
Proof.
  exact (poses_record_invariant demo_builtins
           (ValidPosesDataset.only_position example_position)
           {| ValidPosesDataset.position_array := PArray example_position;
              ValidPosesDataset.confidence_array :=
                PArray (np_full_nan [10; 2; 3]);
              ValidPosesDataset.individual_names :=
                Some ["individual_0"; "individual_1"];
              ValidPosesDataset.keypoint_names :=
                Some ["keypoint_0"; "keypoint_1"; "keypoint_2"];
              ValidPosesDataset.fps := None;
              ValidPosesDataset.source_software := PNone |}
           eq_refl).
Defined.

(** X9. Every record that bounding-box construction returns is
    consistent: both arrays have rank 3 and a last axis of 2, the
    confidence array is an array of the centroid array's shape without its
    last axis, box names that are present are as many as the second axis
    of the centroid array, the source software is a string or [None], and
    a stored frame rate is not [<= 0]. *)
Theorem bboxes_record_invariant (B : builtins)
  (kw : ValidBboxesDataset.kwargs) (r : ValidBboxesDataset.t) :
  outcome (ValidBboxesDataset.__init__ B kw) = inr r ->
  exists a s c n0 n1 m0 m1,
    ValidBboxesDataset.position_array r = PArray a /\
    shape a = [n0; n1; 2] /\
    ValidBboxesDataset.shape_array r = PArray s /\
    shape s = [m0; m1; 2] /\
    ValidBboxesDataset.confidence_array r = PArray c /\
    shape c = [n0; n1] /\
    (forall l, ValidBboxesDataset.individual_names r = Some l ->
       List.length l = n1) /\
    (ValidBboxesDataset.source_software r = PNone \/
     exists w, ValidBboxesDataset.source_software r = PStr w) /\
    (forall f, ValidBboxesDataset.fps r = Some f -> le_zero f = false).
Proof.
  intros H. apply BboxesFacts.bboxes_init_constructed in H.
  destruct H as [(a & n0 & n1 & Hv) (c & Hc) Hf].
  destruct Hv as [Hp Hs (s & m0 & m1 & Hz & Hzs) Hi Hconf Hw].
  exists a, s, c, n0, n1, m0, m1.
  repeat split; try assumption.
  destruct Hconf as [Hn | (c' & Hc' & Hcs)]; congruence.
Qed.

Lemma bboxes_record_invariant_witness :
  exists a s c n0 n1 m0 m1,
    PArray (zeros [5; 2; 2]) = PArray a /\
    shape a = [n0; n1; 2] /\
    PArray (zeros [7; 3; 2]) = PArray s /\
    shape s = [m0; m1; 2] /\
    PArray (np_full_nan [5; 2]) = PArray c /\
    shape c = [n0; n1] /\
    (forall l, Some ["id_1"; "id_2"] = Some l -> List.length l = n1) /\
    (PNone = PNone \/ exists w, PNone = PStr w) /\
    (forall f, @None spec_float = Some f -> le_zero f = false).
Proof.
  exact (bboxes_record_invariant demo_builtins
           (ValidBboxesDataset.only_required (zeros [5; 2; 2])
              (zeros [7; 3; 2]) (of_str_list ["id_1"; "id_2"]))
           {| ValidBboxesDataset.position_array := PArray (zeros [5; 2; 2]);
              ValidBboxesDataset.shape_array := PArray (zeros [7; 3; 2]);
              ValidBboxesDataset.individual_names := Some ["id_1"; "id_2"];
              ValidBboxesDataset.confidence_array :=
                PArray (np_full_nan [5; 2]);
              ValidBboxesDataset.fps := None;
              ValidBboxesDataset.source_software := PNone |}
           eq_refl).
Defined.

(** X10. Poses construction never alters what the caller supplied: in a
    returned record the position array and the source software are the
    arguments themselves, a supplied confidence array is stored as given,
    supplied names are stored as the coercer returned them, and the frame
    rate is what the frame-rate converter returned. *)
Theorem poses_supplied_fields_kept (B : builtins)
  (kw : ValidPosesDataset.kwargs) (r : ValidPosesDataset.t) :
  outcome (ValidPosesDataset.__init__ B kw) = inr r ->
  ValidPosesDataset.kw_position_array kw
  = Some (ValidPosesDataset.position_array r) /\
  ValidPosesDataset.source_software r
  = with_default_none (ValidPosesDataset.kw_source_software kw) /\
  (forall v, ValidPosesDataset.kw_confidence_array kw = Some v ->
     v <> PNone -> ValidPosesDataset.confidence_array r = v) /\
  (forall v l, ValidPosesDataset.kw_individual_names kw = Some v ->
     outcome (_list_of_str B v) = inr l ->
     ValidPosesDataset.individual_names r = Some l) /\
  (forall v l, ValidPosesDataset.kw_keypoint_names kw = Some v ->
     outcome (_list_of_str B v) = inr l ->
     ValidPosesDataset.keypoint_names r = Some l) /\
  outcome (fps_converter B
             (with_default_none (ValidPosesDataset.kw_fps kw)))
  = inr (ValidPosesDataset.fps r).
Proof.
  intros H.
  apply PosesFacts.init_inv in H
    as (self & a & n0 & n1 & n2 & d & Ha & Hv & -> & _).
  apply PosesFacts.assign_fields_inv in Ha
    as (Hp & Hc & Hi & Hk & Hf & Hw).
  cbn. repeat split; try assumption.
  - intros v Hkw Hnone. rewrite Hkw in Hc. cbn in Hc. rewrite Hc.
    now destruct v.
  - intros v l Hkw Hl. rewrite Hkw in Hi. cbn in Hi.
    assert (Hsome : ValidPosesDataset.individual_names self = Some l).
    { destruct v; try discriminate Hl;
        cbn [optional] in Hi; rewrite outcome_bind, Hl in Hi;
        cbn in Hi; congruence. }
    now rewrite Hsome.
  - intros v l Hkw Hl. rewrite Hkw in Hk. cbn in Hk.
    assert (Hsome : ValidPosesDataset.keypoint_names self = Some l).
    { destruct v; try discriminate Hl;
        cbn [optional] in Hk; rewrite outcome_bind, Hl in Hk;
        cbn in Hk; congruence. }
    now rewrite Hsome.
Qed.

Lemma poses_supplied_fields_kept_witness :
  outcome (ValidPosesDataset.__init__ demo_builtins
             (ValidPosesDataset.Build_kwargs
                (Some (PArray (zeros [4; 1; 2; 3]))) None
                (Some (PStr "mouse")) None None None))
  = inr {| ValidPosesDataset.position_array := PArray (zeros [4; 1; 2; 3]);
           ValidPosesDataset.confidence_array :=
             PArray (np_full_nan [4; 1; 2]);
           ValidPosesDataset.individual_names := Some ["mouse"];
           ValidPosesDataset.keypoint_names :=
             Some ["keypoint_0"; "keypoint_1"];
           ValidPosesDataset.fps := None;
           ValidPosesDataset.source_software := PNone |} /\
  Some ["mouse"] = Some ["mouse"].
Proof.
  split; [reflexivity |].
  exact (proj1 (proj2 (proj2 (proj2
           (poses_supplied_fields_kept demo_builtins
              (ValidPosesDataset.Build_kwargs
                 (Some (PArray (zeros [4; 1; 2; 3]))) None
                 (Some (PStr "mouse")) None None None)
              {| ValidPosesDataset.position_array :=
                   PArray (zeros [4; 1; 2; 3]);
                 ValidPosesDataset.confidence_array :=
                   PArray (np_full_nan [4; 1; 2]);
                 ValidPosesDataset.individual_names := Some ["mouse"];
                 ValidPosesDataset.keypoint_names :=
                   Some ["keypoint_0"; "keypoint_1"];
                 ValidPosesDataset.fps := None;
                 ValidPosesDataset.source_software := PNone |}
              eq_refl))))
           (PStr "mouse") ["mouse"] eq_refl eq_refl).
Defined.

(** X11. Each optional field of a poses record is defaulted on its own,
    and only when it is absent (left out or [None]): an absent confidence
    array becomes the NaN array of the position's shape without its last
    axis, absent individual names become [individual_0 ..] up to the
    second axis, absent keypoint names become [keypoint_0 ..] up to the
    third axis, whatever was supplied for the other fields. *)
Theorem poses_absent_fields_defaulted (B : builtins)
  (kw : ValidPosesDataset.kwargs) (r : ValidPosesDataset.t) :
  outcome (ValidPosesDataset.__init__ B kw) = inr r ->
  exists a n0 n1 n2 d,
    ValidPosesDataset.position_array r = PArray a /\
    shape a = [n0; n1; n2; d] /\
    (with_default_none (ValidPosesDataset.kw_confidence_array kw) = PNone ->
     ValidPosesDataset.confidence_array r
     = PArray {| shape := [n0; n1; n2];
                 array_dtype := float32;
                 data := repeat S754_nan (n0 * (n1 * (n2 * 1))) |}) /\
    (with_default_none (ValidPosesDataset.kw_individual_names kw) = PNone ->
     ValidPosesDataset.individual_names r
     = Some (map (fun i => ("individual_" ++ str_of_nat i)%string)
               (seq 0 n1))) /\
    (with_default_none (ValidPosesDataset.kw_keypoint_names kw) = PNone ->
     ValidPosesDataset.keypoint_names r
     = Some (map (fun i => ("keypoint_" ++ str_of_nat i)%string)
               (seq 0 n2))).
Proof.
  intros H.
  apply PosesFacts.init_inv in H
    as (self & a & n0 & n1 & n2 & d & Ha & Hv & -> & _).
  apply PosesFacts.assign_fields_inv in Ha
    as (_ & Hc & Hi & Hk & _ & _).
  destruct Hv as [Hp Hs _ _ _ _ _].
  exists a, n0, n1, n2, d. cbn.
  split; [assumption | split; [assumption |]].
  split; [| split].
  - intros Hnone. now rewrite Hc, Hnone.
  - intros Hnone. rewrite Hnone in Hi. cbn in Hi.
    injection Hi as <-. reflexivity.
  - intros Hnone. rewrite Hnone in Hk. cbn in Hk.
    injection Hk as <-. reflexivity.
Qed.

Lemma poses_absent_fields_defaulted_witness :
  exists a n0 n1 n2 d,
    PArray (zeros [4; 1; 2; 3]) = PArray a /\
    shape a = [n0; n1; n2; d] /\
    (with_default_none None = PNone ->
     PArray (np_full_nan [4; 1; 2])
     = PArray {| shape := [n0; n1; n2];
                 array_dtype := float32;
                 data := repeat S754_nan (n0 * (n1 * (n2 * 1))) |}) /\
    (with_default_none (Some (PStr "mouse")) = PNone ->
     Some ["mouse"]
     = Some (map (fun i => ("individual_" ++ str_of_nat i)%string)
               (seq 0 n1))) /\
    (with_default_none (Some PNone) = PNone ->
     Some ["keypoint_0"; "keypoint_1"]
     = Some (map (fun i => ("keypoint_" ++ str_of_nat i)%string)
               (seq 0 n2))).
Proof.
  exact (poses_absent_fields_defaulted demo_builtins
           (ValidPosesDataset.Build_kwargs
              (Some (PArray (zeros [4; 1; 2; 3]))) None
              (Some (PStr "mouse")) (Some PNone) None None)
           {| ValidPosesDataset.position_array :=
                PArray (zeros [4; 1; 2; 3]);
              ValidPosesDataset.confidence_array :=
                PArray (np_full_nan [4; 1; 2]);
              ValidPosesDataset.individual_names := Some ["mouse"];
              ValidPosesDataset.keypoint_names :=
                Some ["keypoint_0"; "keypoint_1"];
              ValidPosesDataset.fps := None;
              ValidPosesDataset.source_software := PNone |}
           eq_refl).
Defined.

(** X12. Bounding-box construction keeps what the caller supplied and
    generates nothing but the confidence array: both arrays and the source
    software are the arguments themselves, the box names are exactly what
    the converter returned (so [None] stays [None]), a supplied confidence
    array is stored as given, and an absent one becomes the NaN array of
    the centroid array's shape without its last axis. *)
Theorem bboxes_fields_kept (B : builtins)
  (kw : ValidBboxesDataset.kwargs) (r : ValidBboxesDataset.t) :
  outcome (ValidBboxesDataset.__init__ B kw) = inr r ->
  ValidBboxesDataset.kw_position_array kw
  = Some (ValidBboxesDataset.position_array r) /\
  ValidBboxesDataset.kw_shape_array kw
  = Some (ValidBboxesDataset.shape_array r) /\
  (exists names,
     ValidBboxesDataset.kw_individual_names kw = Some names /\
     outcome (optional (_list_of_str B) names)
     = inr (ValidBboxesDataset.individual_names r)) /\
  ValidBboxesDataset.source_software r
  = with_default_none (ValidBboxesDataset.kw_source_software kw) /\
  (forall v, ValidBboxesDataset.kw_confidence_array kw = Some v ->
     v <> PNone -> ValidBboxesDataset.confidence_array r = v) /\
  (with_default_none (ValidBboxesDataset.kw_confidence_array kw) = PNone ->
   exists a n0 n1,
     ValidBboxesDataset.position_array r = PArray a /\
     shape a = [n0; n1; 2] /\
     ValidBboxesDataset.confidence_array r
     = PArray {| shape := [n0; n1];
                 array_dtype := float32;
                 data := repeat S754_nan (n0 * (n1 * 1)) |}).
Proof.
  intros H.
  apply BboxesFacts.bboxes_init_inv in H
    as (self & a & n0 & n1 & Ha & Hv & ->).
  apply BboxesFacts.bboxes_assign_fields_inv in Ha
    as (Hp & Hz & Hn & Hc & _ & Hw).
  destruct Hv as [Hpos Hs _ _ _ _].
  cbn. repeat split; try assumption.
  - intros v Hkw Hnone. rewrite Hkw in Hc. cbn in Hc. rewrite Hc.
    now destruct v.
  - intros Hnone. exists a, n0, n1.
    split; [assumption | split; [assumption |]].
    now rewrite Hc, Hnone.
Qed.

Lemma bboxes_fields_kept_witness :
  exists names,
    Some PNone = Some names /\
    outcome (optional (_list_of_str demo_builtins) names)
    = inr (@None (list string)).
Proof.
  exact (proj1 (proj2 (proj2
           (bboxes_fields_kept demo_builtins
              (ValidBboxesDataset.only_required (zeros [5; 2; 2])
                 (zeros [5; 2; 2]) PNone)
              {| ValidBboxesDataset.position_array :=
                   PArray (zeros [5; 2; 2]);
                 ValidBboxesDataset.shape_array := PArray (zeros [5; 2; 2]);
                 ValidBboxesDataset.individual_names := None;
                 ValidBboxesDataset.confidence_array :=
                   PArray (np_full_nan [5; 2]);
                 ValidBboxesDataset.fps := None;
                 ValidBboxesDataset.source_software := PNone |}
              eq_refl)))).
Defined.

(** ** The log and the outcome *)

Lemma faithful_ret {A} (a : A) : faithful_log (ret a).
Proof. split; [intros e [] | discriminate]. Qed.

Lemma faithful_raise {A} (e : exn) :
  is_value_error e = false -> faithful_log (@raise A e).
Proof.
  intros He. split; [intros e' [] |].
  intros e' [= <-] H. congruence.
Qed.

Lemma faithful_log_warning (w : warning) : faithful_log (log_warning w).
Proof.
  split; [| discriminate].
  intros e [H | []]. discriminate H.
Qed.

Lemma faithful_raise_log_error {A} (e : exn) :
  faithful_log (@raise_log_error A e).
Proof.
  split.
  - intros e' [[= <-] | []]. reflexivity.
  - intros e' [= <-] _. now left.
Qed.

Lemma faithful_bind {A X} (m : M A) (k : A -> M X) :
  faithful_log m -> (forall a, faithful_log (k a)) ->
  faithful_log (bind m k).
Proof.
  intros [Hm1 Hm2] Hk. split.
  - intros e. rewrite logged_bind, outcome_bind.
    destruct (outcome m) as [e' | a] eqn:Hom.
    + intros H. specialize (Hm1 e H). congruence.
    + intros H. apply in_app_or in H as [H | H].
      * specialize (Hm1 e H). congruence.
      * now apply (Hk a).
  - intros e. rewrite logged_bind, outcome_bind.
    destruct (outcome m) as [e' | a] eqn:Hom.
    + intros [= <-] He. now apply Hm2.
    + intros H He. apply in_or_app. right. now apply (Hk a).
Qed.

Ltac faithful_step :=
  match goal with
  | |- faithful_log (bind _ _) => apply faithful_bind; [| intros ?]
  | |- faithful_log (ret _) => apply faithful_ret
  | |- faithful_log (raise _) => apply faithful_raise; reflexivity
  | |- faithful_log (log_warning _) => apply faithful_log_warning
  | |- faithful_log (raise_log_error _) => apply faithful_raise_log_error
  | |- faithful_log (match ?x with _ => _ end) => destruct x
  | |- faithful_log _ => progress cbv zeta
  end.

Ltac faithful := repeat (faithful_step || solve [auto]).

Section FaithfulLogs.

Variable B : builtins.

Lemma faithful_py_float (v : pyval) : faithful_log (py_float B v).
Proof. unfold py_float. faithful. Qed.

Lemma faithful_iterate (v : pyval) : faithful_log (iterate v).
Proof. unfold iterate. faithful. Qed.

Lemma faithful_list_of_str (v : pyval) : faithful_log (_list_of_str B v).
Proof.
  pose proof faithful_iterate. unfold _list_of_str. faithful.
Qed.

Lemma faithful_optional {A} (c : pyval -> M A) (v : pyval) :
  (forall x, faithful_log (c x)) -> faithful_log (optional c v).
Proof. intros H. unfold optional. faithful. Qed.

Lemma faithful_fps_converter (v : pyval) : faithful_log (fps_converter B v).
Proof.
  pose proof faithful_py_float.
  unfold fps_converter, _set_fps_to_none_if_invalid.
  apply faithful_bind; [now apply faithful_optional |].
  intros f. faithful.
Qed.

Lemma faithful_ensure_type_ndarray (v : pyval) :
  faithful_log (_ensure_type_ndarray v).
Proof. unfold _ensure_type_ndarray. faithful. Qed.

Lemma faithful_get_shape (v : pyval) : faithful_log (get_shape v).
Proof. unfold get_shape. faithful. Qed.

Lemma faithful_index (s : list nat) (i : nat) : faithful_log (index s i).
Proof. unfold index. faithful. Qed.

Lemma faithful_index_last (s : list nat) : faithful_log (index_last s).
Proof. unfold index_last. faithful. Qed.

Lemma faithful_validate_list_length (attribute : string)
  (value : option (list string)) (n : nat) :
  faithful_log (_validate_list_length attribute value n).
Proof. unfold _validate_list_length. faithful. Qed.

Lemma faithful_optional_instance_of_str (attribute : string) (v : pyval) :
  faithful_log (optional_instance_of_str attribute v).
Proof. unfold optional_instance_of_str. faithful. Qed.

Lemma faithful_required (name : string) (arg : option pyval) :
  faithful_log (required name arg).
Proof. unfold required. faithful. Qed.

Lemma faithful_truth_eq_str (v : pyval) (lit : string) :
  faithful_log (truth_eq_str B v lit).
Proof. unfold truth_eq_str. faithful. Qed.

Hint Resolve faithful_py_float faithful_iterate faithful_list_of_str
  faithful_fps_converter faithful_ensure_type_ndarray faithful_get_shape
  faithful_index faithful_index_last faithful_validate_list_length
  faithful_optional_instance_of_str faithful_required
  faithful_truth_eq_str : core.

Lemma faithful_optional_list_of_str (v : pyval) :
  faithful_log (optional (_list_of_str B) v).
Proof. apply faithful_optional. auto. Qed.

Hint Resolve faithful_optional_list_of_str : core.

Lemma faithful_poses_init (kw : ValidPosesDataset.kwargs) :
  faithful_log (ValidPosesDataset.__init__ B kw).
Proof.
  unfold ValidPosesDataset.__init__, ValidPosesDataset.assign_fields,
    ValidPosesDataset.run_validators, ValidPosesDataset.__attrs_post_init__,
    ValidPosesDataset.fill_confidence_array,
    ValidPosesDataset.fill_individual_names,
    ValidPosesDataset.fill_keypoint_names,
    ValidPosesDataset.set_confidence_array,
    ValidPosesDataset.set_individual_names,
    ValidPosesDataset.set_keypoint_names,
    ValidPosesDataset._validate_position_array,
    ValidPosesDataset._validate_confidence_array,
    ValidPosesDataset._validate_individual_names,
    ValidPosesDataset._validate_keypoint_names.
  faithful.
Qed.

Lemma faithful_bboxes_init (kw : ValidBboxesDataset.kwargs) :
  faithful_log (ValidBboxesDataset.__init__ B kw).
Proof.
  unfold ValidBboxesDataset.__init__, ValidBboxesDataset.assign_fields,
    ValidBboxesDataset.run_validators, ValidBboxesDataset.__attrs_post_init__,
    ValidBboxesDataset.set_confidence_array,
    ValidBboxesDataset._validate_centroid_position_and_shape_arrays,
    ValidBboxesDataset._validate_individual_names,
    ValidBboxesDataset._validate_confidence_array.
  faithful.
Qed.

End FaithfulLogs.

(** X13. The error log is faithful for both constructions: an error
    record appears in the log only if construction failed with exactly
    that error (so a successful construction logged warnings only), and a
    failure with one of the module's own errors, raised through
    [log_error], is always in the log. *)
Theorem error_log_is_faithful (B : builtins) :
  (forall (kw : ValidPosesDataset.kwargs) (e : exn),
     (In (LogError e) (logged (ValidPosesDataset.__init__ B kw)) ->
      outcome (ValidPosesDataset.__init__ B kw) = inl e) /\
     (outcome (ValidPosesDataset.__init__ B kw) = inl e ->
      is_value_error e = true ->
      In (LogError e) (logged (ValidPosesDataset.__init__ B kw)))) /\
  (forall (kw : ValidBboxesDataset.kwargs) (e : exn),
     (In (LogError e) (logged (ValidBboxesDataset.__init__ B kw)) ->
      outcome (ValidBboxesDataset.__init__ B kw) = inl e) /\
     (outcome (ValidBboxesDataset.__init__ B kw) = inl e ->
      is_value_error e = true ->
      In (LogError e) (logged (ValidBboxesDataset.__init__ B kw)))).
Proof.
  split; intros kw e.
  - destruct (faithful_poses_init B kw) as [H1 H2]. split; auto.
  - destruct (faithful_bboxes_init B kw) as [H1 H2]. split; auto.
Qed.

Lemma error_log_is_faithful_witness :
  In (LogError (WrongShape "confidence_array" [10; 2; 3] [10; 2]))
     (logged (ValidPosesDataset.__init__ demo_builtins
                (confidence_call example_position (zeros [10; 2])))).
Proof.
  apply (proj2 (proj1 (error_log_is_faithful demo_builtins)
                  (confidence_call example_position (zeros [10; 2]))
                  (WrongShape "confidence_array" [10; 2; 3] [10; 2])));
    reflexivity.
Defined.

(** ** Warnings of a successful construction *)

Lemma poses_post_init_eq (B : builtins) (self : ValidPosesDataset.t)
  (a : ndarray) (n0 n1 n2 d : nat) :
  ValidPosesDataset.validated self a n0 n1 n2 d ->
  (ValidPosesDataset.individual_names self = None ->
   ValidPosesDataset.expected_individuals
     (ValidPosesDataset.source_software self) n1 = n1) ->
  ValidPosesDataset.__attrs_post_init__ B self
  = (default_warnings self n1 n2,
     inr (ValidPosesDataset.filled self n0 n1 n2)).
Proof.
  intros [Hp Hs Hd Hc Hi Hk Hw] Hexp.
  assert (H1 : nth_error (shape a) 1 = Some n1) by now rewrite Hs.
  assert (H2 : nth_error (shape a) 2 = Some n2) by now rewrite Hs.
  destruct self as [p c i k f w]. cbn in Hp, Hc, Hi, Hk, Hw, Hexp. subst p.
  unfold ValidPosesDataset.__attrs_post_init__, default_warnings,
    ValidPosesDataset.filled.
  rewrite PosesFacts.fill_confidence_array_eq with (a := a) by reflexivity.
  cbn [ValidPosesDataset.position_array ValidPosesDataset.confidence_array
       ValidPosesDataset.individual_names ValidPosesDataset.keypoint_names
       ValidPosesDataset.fps ValidPosesDataset.source_software].
  rewrite Hs. cbn [drop_last removelast].
  assert (Hnames : forall self' : ValidPosesDataset.t,
            ValidPosesDataset.position_array self' = PArray a ->
            ValidPosesDataset.individual_names self' = i ->
            ValidPosesDataset.source_software self' = w ->
            ValidPosesDataset.fill_individual_names B self'
            = (match i with
               | None =>
                   [LogWarning
                      (NoIndividualNames
                         (ValidPosesDataset.default_names "individual_" n1))]
               | Some _ => []
               end,
               inr (ValidPosesDataset.with_individual_names self'
                      (Some match i with
                            | Some l => l
                            | None =>
                                ValidPosesDataset.default_names
                                  "individual_" n1
                            end)))).
  { intros self' Hp' Hi' Hw'. destruct i as [l |].
    - unfold ValidPosesDataset.fill_individual_names. rewrite Hi'.
      destruct self'; cbn in *; now subst.
    - rewrite PosesFacts.fill_individual_names_eq with (a := a) (n1 := n1)
        by solve [assumption
                 | rewrite Hw'; now apply none_or_str_not_array].
      now rewrite Hw', (Hexp eq_refl), Nat.eqb_refl. }
  assert (Hkeys : forall self' : ValidPosesDataset.t,
            ValidPosesDataset.position_array self' = PArray a ->
            ValidPosesDataset.keypoint_names self' = k ->
            ValidPosesDataset.fill_keypoint_names B self'
            = (match k with
               | None =>
                   [LogWarning
                      (NoKeypointNames
                         (ValidPosesDataset.default_names "keypoint_" n2))]
               | Some _ => []
               end,
               inr (ValidPosesDataset.with_keypoint_names self'
                      (Some match k with
                            | Some l => l
                            | None =>
                                ValidPosesDataset.default_names
                                  "keypoint_" n2
                            end)))).
  { intros self' Hp' Hk'. destruct k as [l |].
    - unfold ValidPosesDataset.fill_keypoint_names. rewrite Hk'.
      destruct self'; cbn in *; now subst.
    - now rewrite PosesFacts.fill_keypoint_names_eq with (a := a) (n2 := n2)
        by assumption. }
  destruct Hc as [-> | (c' & -> & Hcs)].
  - rewrite bind_value, Hnames by reflexivity.
    cbn [logged outcome fst snd]. rewrite bind_value, Hkeys by reflexivity.
    cbn [logged outcome fst snd]. reflexivity.
  - rewrite bind_ret_l, Hnames by reflexivity.
    rewrite bind_value, Hkeys by reflexivity.
    cbn [logged outcome fst snd]. reflexivity.
Qed.

(** X14. The log of a successful poses construction is the log of the
    converters followed by one warning for each field that was defaulted,
    in the order confidence array, individual names, keypoint names; the
    validators log nothing when they pass. *)
Theorem poses_success_log (B : builtins) (kw : ValidPosesDataset.kwargs)
  (r : ValidPosesDataset.t) :
  outcome (ValidPosesDataset.__init__ B kw) = inr r ->
  exists self a n0 n1 n2 d,
    outcome (ValidPosesDataset.assign_fields B kw) = inr self /\
    ValidPosesDataset.position_array r = PArray a /\
    shape a = [n0; n1; n2; d] /\
    logged (ValidPosesDataset.__init__ B kw)
    = logged (ValidPosesDataset.assign_fields B kw)
      ++ (match ValidPosesDataset.confidence_array self with
          | PNone => [LogWarning NoConfidence]
          | _ => []
          end)
      ++ (match ValidPosesDataset.individual_names self with
          | None =>
              [LogWarning
                 (NoIndividualNames
                    (map (fun i => ("individual_" ++ str_of_nat i)%string)
                       (seq 0 n1)))]
          | Some _ => []
          end)
      ++ (match ValidPosesDataset.keypoint_names self with
          | None =>
              [LogWarning
                 (NoKeypointNames
                    (map (fun i => ("keypoint_" ++ str_of_nat i)%string)
                       (seq 0 n2)))]
          | Some _ => []
          end).
Proof.
  intros H.
  apply PosesFacts.init_inv in H
    as (self & a & n0 & n1 & n2 & d & Ha & Hv & -> & Hexp).
  exists self, a, n0, n1, n2, d.
  split; [assumption |].
  split; [cbn; now destruct Hv |].
  split; [now destruct Hv |].
  unfold ValidPosesDataset.__init__.
  rewrite logged_bind, Ha, logged_bind.
  rewrite (PosesFacts.run_validators_ok B _ _ _ _ _ _ Hv).
  cbn [outcome logged ret fst snd app].
  change (fst ?m) with (logged m).
  now rewrite (poses_post_init_eq B self a n0 n1 n2 d Hv Hexp).
Qed.

Lemma poses_success_log_witness :
  exists self a n0 n1 n2 d,
    outcome (ValidPosesDataset.assign_fields demo_builtins
               (ValidPosesDataset.Build_kwargs
                  (Some (PArray (zeros [4; 1; 2; 3]))) None
                  (Some (PStr "mouse")) None (Some (PInt (-5))) None))
    = inr self /\
    PArray (zeros [4; 1; 2; 3]) = PArray a /\
    shape a = [n0; n1; n2; d] /\
    [LogWarning (ExpectedListOfStr "mouse");
     LogWarning (InvalidFps (S754_finite true 5629499534213120 (-50)));
     LogWarning NoConfidence;
     LogWarning (NoKeypointNames ["keypoint_0"; "keypoint_1"])]
    = [LogWarning (ExpectedListOfStr "mouse");
       LogWarning (InvalidFps (S754_finite true 5629499534213120 (-50)))]
      ++ (match ValidPosesDataset.confidence_array self with
          | PNone => [LogWarning NoConfidence]
          | _ => []
          end)
      ++ (match ValidPosesDataset.individual_names self with
          | None =>
              [LogWarning
                 (NoIndividualNames
                    (map (fun i => ("individual_" ++ str_of_nat i)%string)
                       (seq 0 n1)))]
          | Some _ => []
          end)
      ++ (match ValidPosesDataset.keypoint_names self with
          | None =>
              [LogWarning
                 (NoKeypointNames
                    (map (fun i => ("keypoint_" ++ str_of_nat i)%string)
                       (seq 0 n2)))]
          | Some _ => []
          end).
Proof.
  exact (poses_success_log demo_builtins
           (ValidPosesDataset.Build_kwargs
              (Some (PArray (zeros [4; 1; 2; 3]))) None
              (Some (PStr "mouse")) None (Some (PInt (-5))) None)
           {| ValidPosesDataset.position_array :=
                PArray (zeros [4; 1; 2; 3]);
              ValidPosesDataset.confidence_array :=
                PArray (np_full_nan [4; 1; 2]);
              ValidPosesDataset.individual_names := Some ["mouse"];
              ValidPosesDataset.keypoint_names :=
                Some ["keypoint_0"; "keypoint_1"];
              ValidPosesDataset.fps := None;
              ValidPosesDataset.source_software := PNone |}
           eq_refl).
Defined.

(** ** The frame rate *)

Lemma fps_converter_outcome (B : builtins) (v : pyval) (f : spec_float) :
  outcome (py_float B v) = inr f ->
  outcome (fps_converter B v)
  = inr (if le_zero f then None else Some f).
Proof.
  intros H. apply py_float_ret in H.
  unfold fps_converter, optional.
  destruct v; try discriminate H; rewrite H, !bind_ret_l;
    unfold _set_fps_to_none_if_invalid; now destruct (le_zero f).
Qed.

Lemma py_float_error (B : builtins) (v : pyval) :
  fails (py_float B v) -> outcome (py_float B v) = inl (FloatConversion v).
Proof.
  intros [e He]. destruct v; cbn in He |- *; try reflexivity;
    try discriminate He.
  - destruct (binary_normalize 53 1024 z 0 false);
      try discriminate He; reflexivity.
  - destruct (float_of_str B s); [discriminate He | reflexivity].
  - destruct (data a) as [| x [| y l]]; try discriminate He; reflexivity.
Qed.

Lemma poses_assign_with_fps (B : builtins) (kw : ValidPosesDataset.kwargs)
  (w1 w2 : option pyval) (self : ValidPosesDataset.t)
  (rate : option spec_float) :
  outcome (ValidPosesDataset.assign_fields B
             (ValidPosesDataset.with_fps kw w1)) = inr self ->
  outcome (fps_converter B (with_default_none w2)) = inr rate ->
  outcome (ValidPosesDataset.assign_fields B
             (ValidPosesDataset.with_fps kw w2))
  = inr (poses_with_fps self rate).
Proof.
  unfold ValidPosesDataset.assign_fields.
  cbn [ValidPosesDataset.with_fps ValidPosesDataset.kw_position_array
       ValidPosesDataset.kw_confidence_array
       ValidPosesDataset.kw_individual_names
       ValidPosesDataset.kw_keypoint_names ValidPosesDataset.kw_fps
       ValidPosesDataset.kw_source_software].
  intros H Hrate.
  apply outcome_bind_inr in H as (p & Hp & H).
  apply outcome_bind_inr in H as (i & Hi & H).
  apply outcome_bind_inr in H as (k & Hk & H).
  apply outcome_bind_inr in H as (f & Hf & H).
  cbn in H. injection H as <-.
  now rewrite outcome_bind, Hp, outcome_bind, Hi, outcome_bind, Hk,
    outcome_bind, Hrate.
Qed.

Lemma poses_validated_with_fps (self : ValidPosesDataset.t) (a : ndarray)
  (n0 n1 n2 d : nat) (rate : option spec_float) :
  ValidPosesDataset.validated self a n0 n1 n2 d ->
  ValidPosesDataset.validated (poses_with_fps self rate) a n0 n1 n2 d.
Proof. intros [Hp Hs Hd Hc Hi Hk Hw]. now split. Qed.

Lemma poses_init_succeeds (B : builtins) (kw : ValidPosesDataset.kwargs)
  (self : ValidPosesDataset.t) (a : ndarray) (n0 n1 n2 d : nat) :
  outcome (ValidPosesDataset.assign_fields B kw) = inr self ->
  ValidPosesDataset.validated self a n0 n1 n2 d ->
  (ValidPosesDataset.individual_names self = None ->
   ValidPosesDataset.expected_individuals
     (ValidPosesDataset.source_software self) n1 = n1) ->
  outcome (ValidPosesDataset.__init__ B kw)
  = inr (ValidPosesDataset.filled self n0 n1 n2).
Proof.
  intros Ha Hv Hexp.
  rewrite (PosesFacts.init_outcome B kw self Ha).
  rewrite (PosesFacts.run_validators_ok B _ _ _ _ _ _ Hv).
  cbn [outcome ret snd]. change (snd ?m) with (outcome m).
  now rewrite (poses_post_init_eq B self a n0 n1 n2 d Hv Hexp).
Qed.

Lemma poses_fps_transfer (B : builtins) (kw : ValidPosesDataset.kwargs)
  (w1 w2 : option pyval) (rate : option spec_float) :
  outcome (fps_converter B (with_default_none w2)) = inr rate ->
  succeeds (ValidPosesDataset.__init__ B (ValidPosesDataset.with_fps kw w1)) ->
  succeeds (ValidPosesDataset.__init__ B (ValidPosesDataset.with_fps kw w2)).
Proof.
  intros Hrate [r H].
  apply PosesFacts.init_inv in H
    as (self & a & n0 & n1 & n2 & d & Ha & Hv & _ & Hexp).
  eexists.
  apply poses_init_succeeds
    with (self := poses_with_fps self rate) (a := a) (n0 := n0) (n1 := n1)
         (n2 := n2) (d := d).
  - now apply poses_assign_with_fps with (w1 := w1).
  - now apply poses_validated_with_fps.
  - exact Hexp.
Qed.

(** X15. The frame rate never decides whether poses construction
    succeeds: for a value that [float] accepts, the call succeeds exactly
    when the same call without the [fps] keyword does. The record then
    stores the float, or [None] when the float is [<= 0]. *)
Theorem fps_never_decides (B : builtins) (kw : ValidPosesDataset.kwargs)
  (v : pyval) (f : spec_float) :
  outcome (py_float B v) = inr f ->
  (succeeds (ValidPosesDataset.__init__ B
               (ValidPosesDataset.with_fps kw (Some v))) <->
   succeeds (ValidPosesDataset.__init__ B
               (ValidPosesDataset.with_fps kw None))) /\
  (forall r,
     outcome (ValidPosesDataset.__init__ B
                (ValidPosesDataset.with_fps kw (Some v))) = inr r ->
     ValidPosesDataset.fps r = if le_zero f then None else Some f).
Proof.
  intros Hf. pose proof (fps_converter_outcome B v f Hf) as Hconv.
  split; [split |].
  - apply poses_fps_transfer with (rate := None). reflexivity.
  - now apply poses_fps_transfer
      with (rate := if le_zero f then None else Some f).
  - intros r H.
    apply PosesFacts.init_inv in H
      as (self & a & n0 & n1 & n2 & d & Ha & _ & -> & _).
    apply PosesFacts.assign_fields_inv in Ha as (_ & _ & _ & _ & Hrate & _).
    cbn in Hrate |- *. congruence.
Qed.

Lemma fps_never_decides_witness :
  outcome (py_float demo_builtins (PInt 30))
  = inr (S754_finite false 8444249301319680 (-48)) /\
  Some (S754_finite false 8444249301319680 (-48))
  = (if le_zero (S754_finite false 8444249301319680 (-48)) then None
     else Some (S754_finite false 8444249301319680 (-48))).
Proof.
  split; [reflexivity |].
  exact (proj2 (fps_never_decides demo_builtins
                  (ValidPosesDataset.only_position example_position)
                  (PInt 30) (S754_finite false 8444249301319680 (-48))
                  eq_refl)
           {| ValidPosesDataset.position_array := PArray example_position;
              ValidPosesDataset.confidence_array :=
                PArray (np_full_nan [10; 2; 3]);
              ValidPosesDataset.individual_names :=
                Some ["individual_0"; "individual_1"];
              ValidPosesDataset.keypoint_names :=
                Some ["keypoint_0"; "keypoint_1"; "keypoint_2"];
              ValidPosesDataset.fps :=
                Some (S754_finite false 8444249301319680 (-48));
              ValidPosesDataset.source_software := PNone |}
           eq_refl).
Defined.

(** X16. A frame rate that [float] refuses (a list, say) ends either
    construction: the call fails, and whenever the converters of the
    fields declared before [fps] pass, the failure is the interpreter's
    conversion error, raised before any validator runs. *)
Theorem fps_must_coerce (B : builtins) (v : pyval) :
  v <> PNone -> fails (py_float B v) ->
  (forall kw : ValidPosesDataset.kwargs,
     fails (ValidPosesDataset.__init__ B
              (ValidPosesDataset.with_fps kw (Some v))) /\
     (succeeds (ValidPosesDataset.assign_fields B
                  (ValidPosesDataset.with_fps kw None)) ->
      outcome (ValidPosesDataset.__init__ B
                 (ValidPosesDataset.with_fps kw (Some v)))
      = inl (FloatConversion v))) /\
  (forall kw : ValidBboxesDataset.kwargs,
     fails (ValidBboxesDataset.__init__ B
              (ValidBboxesDataset.with_fps kw (Some v))) /\
     (succeeds (ValidBboxesDataset.assign_fields B
                  (ValidBboxesDataset.with_fps kw None)) ->
      outcome (ValidBboxesDataset.__init__ B
                 (ValidBboxesDataset.with_fps kw (Some v)))
      = inl (FloatConversion v))).
Proof.
  intros Hnone Hfail.
  assert (Hconv : outcome (fps_converter B v) = inl (FloatConversion v)).
  { apply py_float_error in Hfail. unfold fps_converter, optional.
    destruct v; try contradiction;
      now rewrite outcome_bind, outcome_bind, Hfail. }
  split; intros kw.
  - split.
    + unfold ValidPosesDataset.__init__, ValidPosesDataset.assign_fields.
      cbn [ValidPosesDataset.with_fps ValidPosesDataset.kw_fps
           with_default_none].
      apply fails_bind_l.
      apply fails_bind_r. intros p _.
      apply fails_bind_r. intros i _.
      apply fails_bind_r. intros k _.
      apply fails_bind_l. now exists (FloatConversion v).
    + intros [self Ha].
      unfold ValidPosesDataset.__init__.
      rewrite outcome_bind.
      unfold ValidPosesDataset.assign_fields in Ha |- *.
      cbn [ValidPosesDataset.with_fps ValidPosesDataset.kw_position_array
           ValidPosesDataset.kw_confidence_array
           ValidPosesDataset.kw_individual_names
           ValidPosesDataset.kw_keypoint_names ValidPosesDataset.kw_fps
           ValidPosesDataset.kw_source_software] in Ha |- *.
      apply outcome_bind_inr in Ha as (p & Hp & Ha).
      apply outcome_bind_inr in Ha as (i & Hi & Ha).
      apply outcome_bind_inr in Ha as (k & Hk & Ha).
      cbn [with_default_none].
      now rewrite outcome_bind, Hp, outcome_bind, Hi, outcome_bind, Hk,
        outcome_bind, Hconv.
  - split.
    + unfold ValidBboxesDataset.__init__, ValidBboxesDataset.assign_fields.
      cbn [ValidBboxesDataset.with_fps ValidBboxesDataset.kw_fps
           with_default_none].
      apply fails_bind_l.
      apply fails_bind_r. intros p _.
      apply fails_bind_r. intros z _.
      apply fails_bind_r. intros n _.
      apply fails_bind_r. intros i _.
      apply fails_bind_l. now exists (FloatConversion v).
    + intros [self Ha].
      unfold ValidBboxesDataset.__init__.
      rewrite outcome_bind.
      unfold ValidBboxesDataset.assign_fields in Ha |- *.
      cbn [ValidBboxesDataset.with_fps ValidBboxesDataset.kw_position_array
           ValidBboxesDataset.kw_shape_array
           ValidBboxesDataset.kw_confidence_array
           ValidBboxesDataset.kw_individual_names ValidBboxesDataset.kw_fps
           ValidBboxesDataset.kw_source_software] in Ha |- *.
      apply outcome_bind_inr in Ha as (p & Hp & Ha).
      apply outcome_bind_inr in Ha as (z & Hz & Ha).
      apply outcome_bind_inr in Ha as (n & Hn & Ha).
      apply outcome_bind_inr in Ha as (i & Hi & Ha).
      cbn [with_default_none].
      now rewrite outcome_bind, Hp, outcome_bind, Hz, outcome_bind, Hn,
        outcome_bind, Hi, outcome_bind, Hconv.
Qed.

Lemma fps_must_coerce_witness :
  outcome (ValidPosesDataset.__init__ demo_builtins
             (ValidPosesDataset.with_fps
                (ValidPosesDataset.only_position (zeros [10; 2]))
                (Some (PList [PInt 30]))))
  = inl (FloatConversion (PList [PInt 30])).
Proof.
  apply (proj1 (fps_must_coerce demo_builtins (PList [PInt 30])
                  ltac:(discriminate)
                  (ex_intro _ (FloatConversion (PList [PInt 30])) eq_refl))
           (ValidPosesDataset.only_position (zeros [10; 2]))).
  eexists. reflexivity.
Defined.

(** ** Names *)

(** X17. The string-list coercer leaves a list of strings as it is and
    logs nothing, so coercing its own result again changes nothing; it
    returns one string per item of a list; and a bare string gives what
    the one-element list of that string gives, plus the warning. *)
Theorem coercer_keeps_strings (B : builtins) :
  (forall l : list string,
     _list_of_str B (PList (map PStr l)) = ([], inr l)) /\
  (forall (v : pyval) (l : list string),
     outcome (_list_of_str B v) = inr l ->
     _list_of_str B (of_str_list l) = ([], inr l)) /\
  (forall (items : list pyval) (l : list string),
     outcome (_list_of_str B (PList items)) = inr l ->
     List.length l = List.length items) /\
  (forall s : string,
     outcome (_list_of_str B (PStr s))
     = outcome (_list_of_str B (PList [PStr s]))).
Proof.
  split; [| split; [| split]].
  - intros l. apply (list_of_str_of_str_list B l).
  - intros v l _. apply (list_of_str_of_str_list B l).
  - intros items l H. unfold _list_of_str in H. cbn [is_iterable iterate] in H.
    rewrite bind_ret_l in H. cbn in H. injection H as <-.
    apply length_map.
  - intros s. reflexivity.
Qed.

Lemma coercer_keeps_strings_witness :
  _list_of_str demo_builtins (of_str_list ["x"]) = ([], inr ["x"]).
Proof.
  apply (proj1 (proj2 (coercer_keeps_strings demo_builtins))
           (PStr "x") ["x"]).
  reflexivity.
Defined.

Lemma str_of_nat_inj (n m : nat) : str_of_nat n = str_of_nat m -> n = m.
Proof.
  unfold str_of_nat. intros H.
  apply DecimalNat.Unsigned.to_uint_inj.
  apply (f_equal NilEmpty.uint_of_string) in H.
  rewrite !NilEmpty.usu in H. congruence.
Qed.

Lemma append_inj_r (p s t : string) :
  (p ++ s)%string = (p ++ t)%string -> s = t.
Proof.
  induction p as [| c p IH]; cbn; [easy |].
  intros [= H]. now apply IH.
Qed.

(** X18. The generated default names are pairwise distinct, for any
    prefix and any count. *)
Theorem default_names_unique (prefix : string) (n : nat) :
  NoDup (ValidPosesDataset.default_names prefix n).
Proof.
  unfold ValidPosesDataset.default_names.
  apply NoDup_map_NoDup_ForallPairs; [| apply seq_NoDup].
  intros i j _ _ H. apply str_of_nat_inj. now apply append_inj_r in H.
Qed.

(** ** Source software *)

(** X19. With [source_software="LightningPose"] and the individual names
    absent, a position array whose second axis is not 1 cannot be
    constructed: the generated names are validated on assignment against
    length 1. Once the validators have passed, the failure is the logged
    length error of [individual_names]. *)
Theorem lightningpose_defaulted_names_checked (B : builtins)
  (kw : ValidPosesDataset.kwargs) (a : ndarray) (n0 n1 n2 d : nat) :
  ValidPosesDataset.kw_source_software kw = Some (PStr "LightningPose") ->
  with_default_none (ValidPosesDataset.kw_individual_names kw) = PNone ->
  ValidPosesDataset.kw_position_array kw = Some (PArray a) ->
  shape a = [n0; n1; n2; d] -> n1 <> 1 ->
  fails (ValidPosesDataset.__init__ B kw) /\
  (forall self,
     outcome (ValidPosesDataset.assign_fields B kw) = inr self ->
     outcome (ValidPosesDataset.run_validators B self) = inr tt ->
     outcome (ValidPosesDataset.__init__ B kw)
     = inl (WrongLength "individual_names" 1 n1) /\
     In (LogError (WrongLength "individual_names" 1 n1))
        (logged (ValidPosesDataset.__init__ B kw))).
Proof.
  intros Hw Hn Hp Hs Hn1.
  assert (Hself : forall self,
            outcome (ValidPosesDataset.assign_fields B kw) = inr self ->
            ValidPosesDataset.position_array self = PArray a /\
            ValidPosesDataset.individual_names self = None /\
            ValidPosesDataset.source_software self = PStr "LightningPose").
  { intros self Ha.
    apply PosesFacts.assign_fields_inv in Ha as (Hp' & _ & Hi & _ & _ & Hs').
    rewrite Hp in Hp'. rewrite Hn in Hi. rewrite Hw in Hs'.
    cbn in Hi, Hs'. repeat split; congruence. }
  split.
  - apply fails_not_succeeds. intros [r H].
    apply PosesFacts.init_inv in H
      as (self & a' & m0 & m1 & m2 & d' & Ha & Hv & _ & Hexp).
    destruct (Hself self Ha) as (Hpos & Hnone & Hsoft).
    specialize (Hexp Hnone). rewrite Hsoft in Hexp. cbn in Hexp.
    destruct Hv as [Hpos' Hs' _ _ _ _ _].
    rewrite Hpos in Hpos'. injection Hpos' as <-.
    rewrite Hs in Hs'. congruence.
  - intros self Ha Hrun.
    destruct (Hself self Ha) as (Hpos & Hnone & Hsoft).
    assert (Hout : outcome (ValidPosesDataset.__init__ B kw)
                   = inl (WrongLength "individual_names" 1 n1)).
    { rewrite (PosesFacts.init_outcome B kw self Ha), Hrun.
      apply PosesFacts.run_validators_inv in Hrun
        as (a' & m0 & m1 & m2 & d' & Hv).
      rewrite (PosesFacts.post_init_outcome B _ _ _ _ _ _ Hv).
      destruct Hv as [Hpos' Hs' _ _ _ _ _].
      rewrite Hpos in Hpos'. injection Hpos' as <-.
      rewrite Hs in Hs'. injection Hs' as <- <- <- <-.
      rewrite Hnone, Hsoft. cbn.
      destruct (Nat.eqb_spec n1 1); [contradiction | reflexivity]. }
    split; [assumption |].
    now apply (proj2 (faithful_poses_init B kw)).
Qed.

Lemma lightningpose_defaulted_names_checked_witness :
  outcome (ValidPosesDataset.__init__ demo_builtins (lightningpose_call None))
  = inl (WrongLength "individual_names" 1 2).
Proof.
  apply (proj2 (lightningpose_defaulted_names_checked demo_builtins
                  (lightningpose_call None) example_position 10 2 3 2
                  eq_refl eq_refl eq_refl eq_refl ltac:(discriminate))
           {| ValidPosesDataset.position_array := PArray example_position;
              ValidPosesDataset.confidence_array := PNone;
              ValidPosesDataset.individual_names := None;
              ValidPosesDataset.keypoint_names := None;
              ValidPosesDataset.fps := None;
              ValidPosesDataset.source_software := PStr "LightningPose" |});
    reflexivity.
Defined.

Lemma poses_validators_from_names (B : builtins)
  (self : ValidPosesDataset.t) (a : ndarray) (n0 n1 n2 d : nat) :
  ValidPosesDataset.position_array self = PArray a ->
  shape a = [n0; n1; n2; d] -> d = 2 \/ d = 3 ->
  (ValidPosesDataset.confidence_array self = PNone \/
   exists c, ValidPosesDataset.confidence_array self = PArray c /\
             shape c = [n0; n1; n2]) ->
  ValidPosesDataset.run_validators B self
  = (ValidPosesDataset._validate_individual_names B self "individual_names"
       (ValidPosesDataset.individual_names self) ;;;
     ValidPosesDataset._validate_keypoint_names self "keypoint_names"
       (ValidPosesDataset.keypoint_names self) ;;;
     optional_instance_of_str "source_software"
       (ValidPosesDataset.source_software self)).
Proof.
  intros Hp Hs Hd Hc. unfold ValidPosesDataset.run_validators.
  rewrite Hp, (PosesFacts.validate_position_array_ok _ _ a n0 n1 n2 d Hs Hd).
  rewrite bind_ret_l.
  assert (Hconf : ValidPosesDataset._validate_confidence_array self
                    "confidence_array"
                    (ValidPosesDataset.confidence_array self) = ret tt).
  { destruct Hc as [-> | (c & -> & Hcs)]; [reflexivity |].
    apply PosesFacts.validate_confidence_array_ok with (a := a);
      [assumption |].
    now rewrite Hs, Hcs. }
  now rewrite Hconf, bind_ret_l.
Qed.

Lemma poses_validators_up_to_software (B : builtins)
  (self : ValidPosesDataset.t) (a : ndarray) (n0 n1 n2 d : nat) :
  ValidPosesDataset.position_array self = PArray a ->
  shape a = [n0; n1; n2; d] -> d = 2 \/ d = 3 ->
  (ValidPosesDataset.confidence_array self = PNone \/
   exists c, ValidPosesDataset.confidence_array self = PArray c /\
             shape c = [n0; n1; n2]) ->
  (forall a', ValidPosesDataset.source_software self <> PArray a') ->
  (forall l, ValidPosesDataset.individual_names self = Some l ->
     List.length l
     = ValidPosesDataset.expected_individuals
         (ValidPosesDataset.source_software self) n1) ->
  (forall l, ValidPosesDataset.keypoint_names self = Some l ->
     List.length l = n2) ->
  ValidPosesDataset.run_validators B self
  = optional_instance_of_str "source_software"
      (ValidPosesDataset.source_software self).
Proof.
  intros Hp Hs Hd Hc Hw Hi Hk.
  rewrite (poses_validators_from_names B self a n0 n1 n2 d Hp Hs Hd Hc).
  rewrite PosesFacts.validate_individual_names_eq with (a := a) (n1 := n1)
    by solve [assumption | now rewrite Hs].
  rewrite PosesFacts.validate_keypoint_names_eq with (a := a) (n2 := n2)
    by (assumption || now rewrite Hs).
  assert (Hnames : _validate_list_length "individual_names"
                     (ValidPosesDataset.individual_names self)
                     (ValidPosesDataset.expected_individuals
                        (ValidPosesDataset.source_software self) n1)
                   = ret tt).
  { destruct (ValidPosesDataset.individual_names self) as [l |];
      [| reflexivity].
    rewrite <- (Hi l eq_refl). apply validate_list_length_ok. }
  assert (Hkeys : _validate_list_length "keypoint_names"
                    (ValidPosesDataset.keypoint_names self) n2 = ret tt).
  { destruct (ValidPosesDataset.keypoint_names self) as [l |];
      [| reflexivity].
    rewrite <- (Hk l eq_refl). apply validate_list_length_ok. }
  now rewrite Hnames, bind_ret_l, Hkeys, bind_ret_l.
Qed.

Lemma poses_validators_ambiguous (B : builtins)
  (self : ValidPosesDataset.t) (a arr : ndarray) (n0 n1 n2 d : nat) :
  ValidPosesDataset.position_array self = PArray a ->
  shape a = [n0; n1; n2; d] -> d = 2 \/ d = 3 ->
  (ValidPosesDataset.confidence_array self = PNone \/
   exists c, ValidPosesDataset.confidence_array self = PArray c /\
             shape c = [n0; n1; n2]) ->
  ValidPosesDataset.source_software self = PArray arr ->
  array_eq_str B arr "LightningPose" = None ->
  ValidPosesDataset.run_validators B self
  = raise (AmbiguousTruth (PArray arr)).
Proof.
  intros Hp Hs Hd Hc Hw Hnone.
  rewrite (poses_validators_from_names B self a n0 n1 n2 d Hp Hs Hd Hc).
  unfold ValidPosesDataset._validate_individual_names.
  rewrite Hw. cbn [truth_eq_str]. now rewrite Hnone.
Qed.

Lemma poses_assign_with_software (B : builtins)
  (kw : ValidPosesDataset.kwargs) (w1 w2 : option pyval)
  (self : ValidPosesDataset.t) :
  outcome (ValidPosesDataset.assign_fields B (with_source_software kw w1))
  = inr self ->
  outcome (ValidPosesDataset.assign_fields B (with_source_software kw w2))
  = inr {| ValidPosesDataset.position_array :=
             ValidPosesDataset.position_array self;
           ValidPosesDataset.confidence_array :=
             ValidPosesDataset.confidence_array self;
           ValidPosesDataset.individual_names :=
             ValidPosesDataset.individual_names self;
           ValidPosesDataset.keypoint_names :=
             ValidPosesDataset.keypoint_names self;
           ValidPosesDataset.fps := ValidPosesDataset.fps self;
           ValidPosesDataset.source_software := with_default_none w2 |}.
Proof.
  unfold ValidPosesDataset.assign_fields.
  cbn [with_source_software ValidPosesDataset.kw_position_array
       ValidPosesDataset.kw_confidence_array
       ValidPosesDataset.kw_individual_names
       ValidPosesDataset.kw_keypoint_names ValidPosesDataset.kw_fps
       ValidPosesDataset.kw_source_software].
  intros H.
  apply outcome_bind_inr in H as (p & Hp & H).
  apply outcome_bind_inr in H as (i & Hi & H).
  apply outcome_bind_inr in H as (k & Hk & H).
  apply outcome_bind_inr in H as (f & Hf & H).
  cbn in H. injection H as <-.
  now rewrite outcome_bind, Hp, outcome_bind, Hi, outcome_bind, Hk,
    outcome_bind, Hf.
Qed.

(** X20. [source_software] must be a string or [None]: any other value
    makes poses construction fail. When the call is valid without the
    keyword, the failure for a value that is not a numpy array is the type
    error of [source_software], raised by the last validator; for a numpy
    array whose comparison with ["LightningPose"] has no truth value it is
    numpy's ValueError, raised earlier, inside the validator of the
    individual names. *)
Theorem source_software_must_be_str (B : builtins)
  (kw : ValidPosesDataset.kwargs) (v : pyval) :
  v <> PNone -> (forall s, v <> PStr s) ->
  fails (ValidPosesDataset.__init__ B (with_source_software kw (Some v))) /\
  (succeeds (ValidPosesDataset.__init__ B (with_source_software kw None)) ->
   ((forall a, v <> PArray a) ->
    outcome (ValidPosesDataset.__init__ B
               (with_source_software kw (Some v)))
    = inl (NotInstanceOfStr "source_software" v)) /\
   (forall a, v = PArray a -> array_eq_str B a "LightningPose" = None ->
    outcome (ValidPosesDataset.__init__ B
               (with_source_software kw (Some v)))
    = inl (AmbiguousTruth v))).
Proof.
  intros Hnone Hstr. split.
  - apply fails_not_succeeds. intros [r H].
    pose proof (PosesFacts.init_constructed B _ r H) as Hc.
    apply PosesFacts.init_inv in H
      as (self & a & n0 & n1 & n2 & d & Ha & _ & -> & _).
    apply PosesFacts.assign_fields_inv in Ha as (_ & _ & _ & _ & _ & Hw).
    destruct Hc as [(a' & m0 & m1 & m2 & d' & [_ _ _ _ _ _ Hsoft]) _ _ _ _].
    cbn in Hsoft, Hw. rewrite Hw in Hsoft.
    destruct Hsoft as [Hsoft | (s & Hsoft)];
      [contradiction | now apply (Hstr s)].
  - intros [r H].
    apply PosesFacts.init_inv in H
      as (self & a & n0 & n1 & n2 & d & Ha & Hv & _ & _).
    pose proof (PosesFacts.assign_fields_inv B _ self Ha)
      as (_ & _ & _ & _ & _ & Hw).
    cbn in Hw.
    pose proof (poses_assign_with_software B kw None (Some v) self Ha)
      as Ha'.
    rewrite (PosesFacts.init_outcome B _ _ Ha').
    destruct Hv as [Hp Hs Hd Hc Hi Hk _].
    split.
    + intros Harr.
      assert (Hfalse : eq_str v "LightningPose" = false).
      { destruct v; try reflexivity. now destruct (Hstr s). }
      rewrite poses_validators_up_to_software
        with (a := a) (n0 := n0) (n1 := n1) (n2 := n2) (d := d);
        try assumption.
      * cbn. destruct v; try reflexivity;
          [contradiction | now destruct (Hstr s)].
      * cbn [ValidPosesDataset.individual_names
             ValidPosesDataset.source_software with_default_none].
        intros l Hl. rewrite (Hi l Hl), Hw.
        unfold ValidPosesDataset.expected_individuals.
        now rewrite Hfalse.
    + intros arr -> Hamb.
      now rewrite poses_validators_ambiguous
        with (a := a) (arr := arr) (n0 := n0) (n1 := n1) (n2 := n2)
             (d := d).
Qed.

Lemma source_software_must_be_str_witness :
  outcome (ValidPosesDataset.__init__ demo_builtins
             (with_source_software
                (ValidPosesDataset.only_position example_position)
                (Some (PInt 1))))
  = inl (NotInstanceOfStr "source_software" (PInt 1)) /\
  outcome (ValidPosesDataset.__init__ demo_builtins
             (with_source_software
                (ValidPosesDataset.only_position example_position)
                (Some (PArray (zeros [2])))))
  = inl (AmbiguousTruth (PArray (zeros [2]))).
Proof.
  split.
  - apply (proj1 (proj2 (source_software_must_be_str demo_builtins
                           (ValidPosesDataset.only_position example_position)
                           (PInt 1) ltac:(discriminate) ltac:(discriminate))
                    (ex_intro _ _ eq_refl))).
    discriminate.
  - apply (proj2 (proj2 (source_software_must_be_str demo_builtins
                           (ValidPosesDataset.only_position example_position)
                           (PArray (zeros [2])) ltac:(discriminate)
                           ltac:(discriminate))
                    (ex_intro _ _ eq_refl))
             (zeros [2]) eq_refl eq_refl).
Defined.

(** X21. For a source software that is absent, a string other than
    ["LightningPose"], or any other value that is not a numpy array, the
    individual names are counted against the second axis of the position
    array: with a valid position array, supplied names that coerce to a
    list of another length make construction fail, with the logged length
    error of [individual_names] once the confidence array passes its
    check. *)
Theorem poses_individuals_counted (B : builtins)
  (kw : ValidPosesDataset.kwargs) (a : ndarray) (n0 n1 n2 d : nat)
  (v : pyval) (l : list string) :
  ValidPosesDataset.kw_position_array kw = Some (PArray a) ->
  shape a = [n0; n1; n2; d] -> d = 2 \/ d = 3 ->
  (forall a',
     with_default_none (ValidPosesDataset.kw_source_software kw)
     <> PArray a') ->
  with_default_none (ValidPosesDataset.kw_source_software kw)
  <> PStr "LightningPose" ->
  ValidPosesDataset.kw_individual_names kw = Some v ->
  outcome (_list_of_str B v) = inr l ->
  List.length l <> n1 ->
  fails (ValidPosesDataset.__init__ B kw) /\
  (forall self,
     outcome (ValidPosesDataset.assign_fields B kw) = inr self ->
     outcome (ValidPosesDataset._validate_confidence_array self
                "confidence_array"
                (ValidPosesDataset.confidence_array self)) = inr tt ->
     outcome (ValidPosesDataset.__init__ B kw)
     = inl (WrongLength "individual_names" n1 (List.length l))).
Proof.
  intros Hp Hs Hd Harr Hnlp Hn Hl Hlen.
  assert (Hsoft : eq_str
                    (with_default_none
                       (ValidPosesDataset.kw_source_software kw))
                    "LightningPose" = false).
  { destruct (with_default_none (ValidPosesDataset.kw_source_software kw));
      try reflexivity.
    cbn. apply String.eqb_neq. congruence. }
  assert (Hself : forall self,
            outcome (ValidPosesDataset.assign_fields B kw) = inr self ->
            ValidPosesDataset._validate_position_array self "position_array"
              (ValidPosesDataset.position_array self) = ret tt /\
            ValidPosesDataset._validate_individual_names B self
              "individual_names" (ValidPosesDataset.individual_names self)
            = raise_log_error
                (WrongLength "individual_names" n1 (List.length l))).
  { intros self Ha.
    apply PosesFacts.assign_fields_inv in Ha
      as (Hp' & _ & Hi & _ & _ & Hw).
    rewrite Hp in Hp'. injection Hp' as Hp'.
    rewrite Hn in Hi. cbn in Hi.
    assert (Hsome : ValidPosesDataset.individual_names self = Some l).
    { destruct v; try discriminate Hl;
        cbn [optional] in Hi; rewrite outcome_bind, Hl in Hi;
        cbn in Hi; congruence. }
    split.
    - rewrite <- Hp'.
      now apply PosesFacts.validate_position_array_ok with (1 := Hs).
    - rewrite PosesFacts.validate_individual_names_eq
        with (a := a) (n1 := n1)
        by solve [now symmetry | now rewrite Hs | now rewrite Hw].
      unfold ValidPosesDataset.expected_individuals.
      rewrite Hw, Hsoft, Hsome. now apply validate_list_length_bad. }
  split.
  - apply poses_init_fails. intros self Ha.
    destruct (Hself self Ha) as (Hpos & Hnames).
    unfold ValidPosesDataset.run_validators.
    rewrite Hpos, bind_ret_l.
    apply fails_bind_r. intros [] _.
    apply fails_bind_l. rewrite Hnames. apply fails_raise_log_error.
  - intros self Ha Hconf.
    destruct (Hself self Ha) as (Hpos & Hnames).
    rewrite (PosesFacts.init_outcome B kw self Ha).
    unfold ValidPosesDataset.run_validators.
    rewrite Hpos, bind_ret_l.
    now rewrite outcome_bind, Hconf, outcome_bind, Hnames.
Qed.

Lemma poses_individuals_counted_witness :
  outcome (ValidPosesDataset.__init__ demo_builtins
             (ValidPosesDataset.Build_kwargs
                (Some (PArray example_position)) None
                (Some (PStr "mouse")) None None (Some (PStr "SLEAP"))))
  = inl (WrongLength "individual_names" 2 1).
Proof.
  apply (proj2 (poses_individuals_counted demo_builtins
                  (ValidPosesDataset.Build_kwargs
                     (Some (PArray example_position)) None
                     (Some (PStr "mouse")) None None (Some (PStr "SLEAP")))
                  example_position 10 2 3 2 (PStr "mouse") ["mouse"]
                  eq_refl eq_refl (or_introl eq_refl) ltac:(discriminate)
                  ltac:(discriminate) eq_refl eq_refl ltac:(discriminate))
           {| ValidPosesDataset.position_array := PArray example_position;
              ValidPosesDataset.confidence_array := PNone;
              ValidPosesDataset.individual_names := Some ["mouse"];
              ValidPosesDataset.keypoint_names := None;
              ValidPosesDataset.fps := None;
              ValidPosesDataset.source_software := PStr "SLEAP" |});
    reflexivity.
Defined.

(** ** Sufficient conditions *)

(** X22. Consistent input is always accepted by poses construction: if
    the converters pass, the position array has rank 4 and a last axis of
    2 or 3, a given confidence array has the position's shape without its
    last axis, given keypoint names are as many as the third axis, given
    individual names are as many as the second axis (one for
    LightningPose), absent individual names come with a second axis of 1
    when the source is LightningPose, and the source software is a string
    or [None], then construction succeeds and returns the instance with
    its absent fields defaulted. *)
Theorem poses_consistent_input_accepted (B : builtins)
  (kw : ValidPosesDataset.kwargs) (self : ValidPosesDataset.t)
  (a : ndarray) (n0 n1 n2 d : nat) :
  outcome (ValidPosesDataset.assign_fields B kw) = inr self ->
  ValidPosesDataset.position_array self = PArray a ->
  shape a = [n0; n1; n2; d] -> d = 2 \/ d = 3 ->
  (ValidPosesDataset.confidence_array self = PNone \/
   exists c, ValidPosesDataset.confidence_array self = PArray c /\
             shape c = [n0; n1; n2]) ->
  (forall l, ValidPosesDataset.individual_names self = Some l ->
     List.length l
     = if eq_str (ValidPosesDataset.source_software self) "LightningPose"
       then 1 else n1) ->
  (ValidPosesDataset.individual_names self = None ->
   eq_str (ValidPosesDataset.source_software self) "LightningPose" = true ->
   n1 = 1) ->
  (forall l, ValidPosesDataset.keypoint_names self = Some l ->
     List.length l = n2) ->
  (ValidPosesDataset.source_software self = PNone \/
   exists s, ValidPosesDataset.source_software self = PStr s) ->
  outcome (ValidPosesDataset.__init__ B kw)
  = inr (ValidPosesDataset.filled self n0 n1 n2).
Proof.
  intros Ha Hp Hs Hd Hc Hi Hnone Hk Hw.
  apply poses_init_succeeds with (a := a) (d := d); [assumption | |].
  - now split.
  - intros Hn. unfold ValidPosesDataset.expected_individuals.
    destruct (eq_str (ValidPosesDataset.source_software self)
                "LightningPose") eqn:E; [| reflexivity].
    symmetry. now apply Hnone.
Qed.

Lemma poses_consistent_input_accepted_witness :
  outcome (ValidPosesDataset.__init__ demo_builtins
             (ValidPosesDataset.Build_kwargs
                (Some (PArray (zeros [4; 1; 2; 3])))
                (Some (PArray (zeros [4; 1; 2])))
                None (Some (PList [PStr "snout"; PStr "tail"]))
                (Some (PInt 30)) (Some (PStr "LightningPose"))))
  = inr {| ValidPosesDataset.position_array := PArray (zeros [4; 1; 2; 3]);
           ValidPosesDataset.confidence_array := PArray (zeros [4; 1; 2]);
           ValidPosesDataset.individual_names := Some ["individual_0"];
           ValidPosesDataset.keypoint_names := Some ["snout"; "tail"];
           ValidPosesDataset.fps :=
             Some (S754_finite false 8444249301319680 (-48));
           ValidPosesDataset.source_software := PStr "LightningPose" |}.
Proof.
  apply (poses_consistent_input_accepted demo_builtins
           (ValidPosesDataset.Build_kwargs
              (Some (PArray (zeros [4; 1; 2; 3])))
              (Some (PArray (zeros [4; 1; 2])))
              None (Some (PList [PStr "snout"; PStr "tail"]))
              (Some (PInt 30)) (Some (PStr "LightningPose")))
           {| ValidPosesDataset.position_array :=
                PArray (zeros [4; 1; 2; 3]);
              ValidPosesDataset.confidence_array := PArray (zeros [4; 1; 2]);
              ValidPosesDataset.individual_names := None;
              ValidPosesDataset.keypoint_names := Some ["snout"; "tail"];
              ValidPosesDataset.fps :=
                Some (S754_finite false 8444249301319680 (-48));
              ValidPosesDataset.source_software := PStr "LightningPose" |}
           (zeros [4; 1; 2; 3]) 4 1 2 3 eq_refl eq_refl eq_refl
           (or_intror eq_refl)).
  - right. now exists (zeros [4; 1; 2]).
  - discriminate.
  - reflexivity.
  - now intros l [= <-].
  - right. now exists "LightningPose".
Defined.

(** X23. The log of a successful bounding-box construction is the log of
    the converters, followed by the one warning about the confidence
    array when that array was absent; the validators log nothing when
    they pass. *)
Theorem bboxes_success_log (B : builtins) (kw : ValidBboxesDataset.kwargs)
  (r : ValidBboxesDataset.t) :
  outcome (ValidBboxesDataset.__init__ B kw) = inr r ->
  logged (ValidBboxesDataset.__init__ B kw)
  = logged (ValidBboxesDataset.assign_fields B kw)
    ++ match with_default_none (ValidBboxesDataset.kw_confidence_array kw)
       with
       | PNone => [LogWarning NoConfidence]
       | _ => []
       end.
Proof.
  intros H.
  apply BboxesFacts.bboxes_init_inv in H
    as (self & a & n0 & n1 & Ha & Hv & _).
  pose proof (BboxesFacts.bboxes_assign_fields_inv B kw self Ha)
    as (_ & _ & _ & Hc & _).
  unfold ValidBboxesDataset.__init__.
  rewrite logged_bind, Ha, logged_bind.
  rewrite (BboxesFacts.bboxes_run_validators_ok _ _ _ _ Hv).
  cbn [outcome logged ret fst snd app].
  change (fst ?m) with (logged m).
  rewrite (BboxesFacts.bboxes_post_init_eq _ _ _ _ Hv).
  now rewrite Hc.
Qed.

Lemma bboxes_success_log_witness :
  logged (ValidBboxesDataset.__init__ demo_builtins
            (ValidBboxesDataset.only_required (zeros [5; 2; 2])
               (zeros [7; 3; 2]) (of_str_list ["id_1"; "id_2"])))
  = logged (ValidBboxesDataset.assign_fields demo_builtins
              (ValidBboxesDataset.only_required (zeros [5; 2; 2])
                 (zeros [7; 3; 2]) (of_str_list ["id_1"; "id_2"])))
    ++ [LogWarning NoConfidence].
Proof.
  exact (bboxes_success_log demo_builtins
           (ValidBboxesDataset.only_required (zeros [5; 2; 2])
              (zeros [7; 3; 2]) (of_str_list ["id_1"; "id_2"]))
           {| ValidBboxesDataset.position_array := PArray (zeros [5; 2; 2]);
              ValidBboxesDataset.shape_array := PArray (zeros [7; 3; 2]);
              ValidBboxesDataset.individual_names := Some ["id_1"; "id_2"];
              ValidBboxesDataset.confidence_array :=
                PArray (np_full_nan [5; 2]);
              ValidBboxesDataset.fps := None;
              ValidBboxesDataset.source_software := PNone |}
           eq_refl).
Defined.
